(** * VoxAura voice-session services: a shallow embedding

    The development follows the Python services of the repository:
    - [PyStr]: the string operations of Python that the services use
      ([len], slicing, [strip], [lower], [in], [split], [join]);
    - [Base64]: [base64.b64encode];
    - [Murf]: [services/murf_websocket_service.py];
    - [Stt]: [services/realtime_stt_service.py];
    - [Llm]: [services/llm_service.py];
    - [Ws]: [services/websocket_service.py].

    A Python [str] is modelled as a [string]: a sequence of characters, each
    one standing for a code point below 256; [len] is the number of
    characters.  Backends, sockets and the clock are outside the program:
    what they answer is a parameter of the operation that consults them. *)

From Stdlib Require Import Ascii String List Arith Lia Bool NArith DecimalString.
From stdpp Require Import base gmap strings list.

Local Open Scope string_scope.
Local Open Scope list_scope.
Local Open Scope nat_scope.

(** ** Python string operations *)
Module PyStr.

(** [len(s)] *)
Definition len (s : string) : nat := String.length s.

(** [s[:n]] for [0 <= n]. *)
Fixpoint take_str (n : nat) (s : string) : string :=
  match n, s with
  | S n', String c s' => String c (take_str n' s')
  | _, _ => EmptyString
  end.

(** [s[n:]] for [0 <= n]. *)
Fixpoint drop_str (n : nat) (s : string) : string :=
  match n, s with
  | S n', String _ s' => drop_str n' s'
  | _, _ => s
  end.

(** [s[i:j]] for [0 <= i <= j]: out-of-range bounds are clipped. *)
Definition slice (i j : nat) (s : string) : string := take_str (j - i) (drop_str i s).

(** [c * n] for a one-character string [c]. *)
Fixpoint repeat_char (c : ascii) (n : nat) : string :=
  match n with
  | O => EmptyString
  | S n' => String c (repeat_char c n')
  end.

(** [''.join(l)] *)
Fixpoint concat_all (l : list string) : string :=
  match l with
  | [] => EmptyString
  | x :: l' => x +:+ concat_all l'
  end.

(** [sep.join(l)] *)
Fixpoint join (sep : string) (l : list string) : string :=
  match l with
  | [] => EmptyString
  | [x] => x
  | x :: l' => x +:+ sep +:+ join sep l'
  end.

(** [str.isspace] on one character (code points below 256). *)
Definition is_space (c : ascii) : bool :=
  let n := nat_of_ascii c in
  (((9 <=? n) && (n <=? 13)) || ((28 <=? n) && (n <=? 32))
  || (n =? 133) || (n =? 160))%nat.

Fixpoint lstrip (s : string) : string :=
  match s with
  | EmptyString => EmptyString
  | String c s' => if is_space c then lstrip s' else s
  end.

Fixpoint rstrip (s : string) : string :=
  match s with
  | EmptyString => EmptyString
  | String c s' =>
      match rstrip s' with
      | EmptyString => if is_space c then EmptyString else String c EmptyString
      | r => String c r
      end
  end.

(** [s.strip()] *)
Definition strip (s : string) : string := rstrip (lstrip s).

(** Every character is whitespace (true of the empty string). *)
Fixpoint all_space (s : string) : bool :=
  match s with
  | EmptyString => true
  | String c s' => is_space c && all_space s'
  end.

(** Truth value of a string: [bool(s)]. *)
Definition truthy (s : string) : bool :=
  match s with EmptyString => false | _ => true end.

(** [str.lower] on one character: A-Z and the upper-case letters of
    Latin-1 (0xC0-0xDE without the multiplication sign 0xD7). *)
Definition lower_char (c : ascii) : ascii :=
  let n := nat_of_ascii c in
  if (((65 <=? n) && (n <=? 90))
      || ((192 <=? n) && (n <=? 222) && negb (n =? 215)))%nat
  then ascii_of_nat (n + 32) else c.

Fixpoint lower (s : string) : string :=
  match s with
  | EmptyString => EmptyString
  | String c s' => String (lower_char c) (lower s')
  end.

(** [s.startswith(p)] *)
Fixpoint startswith (p s : string) : bool :=
  match p, s with
  | EmptyString, _ => true
  | String a p', String b s' => Ascii.eqb a b && startswith p' s'
  | String _ _, EmptyString => false
  end.

(** [sub in s] *)
Fixpoint contains (sub s : string) : bool :=
  if startswith sub s then true
  else match s with
       | EmptyString => false
       | String _ s' => contains sub s'
       end.

(** [s.endswith(p)] *)
Definition endswith (p s : string) : bool :=
  (len p <=? len s)%nat && String.eqb (drop_str (len s - len p) s) p.

(** [any(k in s for k in keywords)] *)
Definition any_in (keywords : list string) (s : string) : bool :=
  existsb (fun k => contains k s) keywords.

(** [s.split(sep)] for a non-empty [sep]: the pieces between the leftmost
    non-overlapping occurrences of [sep].  [cur] holds the characters of
    the current piece in reverse, [skip] the characters of a separator
    still to be passed over. *)
Fixpoint split_go (sep : string) (skip : nat) (cur : list ascii) (s : string)
  : list string :=
  match s with
  | EmptyString => [string_of_list_ascii (rev cur)]
  | String c s' =>
      match skip with
      | S k => split_go sep k cur s'
      | O =>
          if startswith sep s
          then string_of_list_ascii (rev cur) :: split_go sep (len sep - 1) [] s'
          else split_go sep 0 (c :: cur) s'
      end
  end.

Definition split (sep : string) (s : string) : list string :=
  split_go sep 0 [] s.

(** [s.split()]: the maximal runs of non-whitespace characters. *)
Fixpoint split_ws_go (cur : list ascii) (s : string) : list string :=
  match s with
  | EmptyString =>
      match cur with [] => [] | _ => [string_of_list_ascii (rev cur)] end
  | String c s' =>
      if is_space c
      then match cur with
           | [] => split_ws_go [] s'
           | _ => string_of_list_ascii (rev cur) :: split_ws_go [] s'
           end
      else split_ws_go (c :: cur) s'
  end.

Definition split_ws (s : string) : list string := split_ws_go [] s.

(** [range(start, stop, step)] for [step >= 1]; at most [stop] values. *)
Fixpoint range_go (fuel i stop step : nat) : list nat :=
  match fuel with
  | O => []
  | S f => if (i <? stop)%nat then i :: range_go f (i + step) stop step else []
  end.

Definition range (start stop step : nat) : list nat :=
  range_go stop start stop step.

(** [str(n)] for a natural number. *)
Definition str_of_nat (n : nat) : string :=
  NilZero.string_of_uint (Nat.to_uint n).

End PyStr.

(** ** [base64.b64encode] and [str.encode] *)
Module Base64.

Definition alphabet : string :=
  "ABCDEFGHIJKLMNOPQRSTUVWXYZabcdefghijklmnopqrstuvwxyz0123456789+/".

Definition b64_char (n : N) : ascii :=
  match String.get (N.to_nat n) alphabet with
  | Some c => c
  | None => "="%char
  end.

(** [s.encode()]: UTF-8, one byte below 128 and two bytes from 128 to 255. *)
Fixpoint encode (s : string) : list N :=
  match s with
  | EmptyString => []
  | String c s' =>
      let n := N_of_ascii c in
      if (n <? 128)%N then n :: encode s'
      else N.lor 192 (N.shiftr n 6) :: N.lor 128 (N.land n 63) :: encode s'
  end.

(** [base64.b64encode(bs).decode()]: three bytes give four characters, the
    last group is padded with [=]. *)
Fixpoint b64encode (bs : list N) : string :=
  match bs with
  | [] => EmptyString
  | [a] =>
      String (b64_char (N.shiftr a 2))
        (String (b64_char (N.shiftl (N.land a 3) 4)) "==")
  | [a; b] =>
      String (b64_char (N.shiftr a 2))
        (String (b64_char (N.lor (N.shiftl (N.land a 3) 4) (N.shiftr b 4)))
           (String (b64_char (N.shiftl (N.land b 15) 2)) "="))
  | a :: b :: c :: rest =>
      String (b64_char (N.shiftr a 2))
        (String (b64_char (N.lor (N.shiftl (N.land a 3) 4) (N.shiftr b 4)))
           (String (b64_char (N.lor (N.shiftl (N.land b 15) 2) (N.shiftr c 6)))
              (String (b64_char (N.land c 63)) (b64encode rest))))
  end.

End Base64.

(** ** [services/murf_websocket_service.py] *)
Module Murf.
Import PyStr.

(** [MurfWebSocketService]: the fields the methods read and write.  An open
    websocket is named by a number. *)
Record service := mk_service {
  api_key : option string;
  websocket : option nat;
  is_connected : bool;
  context_id : string;
  websocket_url : string
}.

(** [__init__] with the value of the environment variable [MURF_API_KEY]. *)
Definition init (key : option string) : service :=
  {| api_key := key; websocket := None; is_connected := false;
     context_id := "voxaura_day20_context";
     websocket_url := "wss://api.murf.ai/ws/text-to-speech" |}.

(** [bool(self.api_key)] *)
Definition is_configured (m : service) : bool :=
  match api_key m with
  | Some k => truthy k
  | None => false
  end.

(** What [websockets.connect] does: it returns a websocket or raises. *)
Inductive connect_outcome :=
| ConnectOk (ws : nat)
| ConnectRaises (err : string).

(** [connect]: the returned flag and the service afterwards. *)
Definition connect (backend : connect_outcome) (m : service) : bool * service :=
  if negb (is_configured m) then (false, m)
  else match backend with
       | ConnectOk ws =>
           (true, {| api_key := api_key m; websocket := Some ws;
                     is_connected := true; context_id := context_id m;
                     websocket_url := websocket_url m |})
       | ConnectRaises _ =>
           (true, {| api_key := api_key m; websocket := websocket m;
                     is_connected := false; context_id := context_id m;
                     websocket_url := websocket_url m |})
       end.

(** [_generate_mock_base64_audio(text)]; [now] is the text that
    [datetime.now().timestamp()] is formatted to at the call. *)
Definition _generate_mock_base64_audio (now : string) (text : string) : string :=
  let mock_data :=
    "MOCK_AUDIO_DATA_FOR_TEXT_" +:+ str_of_nat (len text) +:+ "_CHARS_" +:+ now in
  let mock_base64 := Base64.b64encode (Base64.encode mock_data) in
  let padding := repeat_char "A" (200 - len mock_base64 mod 200) in
  mock_base64 +:+ padding.

(** What [json.loads(response_data)] gives: it raises, or the value is not
    an object (then [response.get] raises), or it is an object with the
    keys read below; [audio_data] is a JSON string when present. *)
Inductive response :=
| JsonError
| JsonNotObject
| JsonObject (status : option string) (audio_data : option string).

(** What [self.websocket.send] and [self.websocket.recv] under
    [asyncio.wait_for(..., timeout=30.0)] do. *)
Inductive send_outcome := SendOk | SendRaises (err : string).
Inductive recv_outcome :=
| RecvTimeout
| RecvRaises (err : string)
| RecvData (r : response).

(** The synthesis backend during one call of [send_text_for_tts]. *)
Record backend := mk_backend {
  on_connect : connect_outcome;
  on_send : send_outcome;
  on_recv : recv_outcome
}.

(** [send_text_for_tts(text)]: the returned value ([None] or the audio
    string) and the service afterwards. *)
Definition send_text_for_tts (b : backend) (now : string) (text : string)
    (m : service) : option string * service :=
  if negb (truthy text) || negb (truthy (strip text)) then (None, m)
  else
    let mock := _generate_mock_base64_audio now text in
    if negb (is_connected m) && negb (bool_decide (is_Some (websocket m)))
    then (Some mock, m)
    else
      let '(connected, m1) :=
        if negb (is_connected m) then connect (on_connect b) m else (true, m) in
      if negb connected then (Some mock, m1)
      else
        match websocket m1 with
        | None => (Some mock, m1)
        | Some _ =>
            match on_send b with
            | SendRaises _ => (Some mock, m1)
            | SendOk =>
                match on_recv b with
                | RecvTimeout => (Some mock, m1)
                | RecvRaises _ => (Some mock, m1)
                | RecvData JsonError => (Some mock, m1)
                | RecvData JsonNotObject => (Some mock, m1)
                | RecvData (JsonObject status audio_data) =>
                    match status, audio_data with
                    | Some st, Some audio_base64 =>
                        if String.eqb st "success"
                        then if truthy audio_base64
                             then (Some audio_base64, m1)
                             else (Some mock, m1)
                        else (Some mock, m1)
                    | _, _ => (Some mock, m1)
                    end
                end
            end
        end.

(** A response that is not a success carrying audio. *)
Definition is_error_response (r : response) : bool :=
  match r with
  | JsonObject (Some st) (Some audio) => negb (String.eqb st "success" && truthy audio)
  | _ => true
  end.

(** The ways in which the synthesis backend lets a call down: the service
    has no key, no connection was ever established, the request cannot be
    sent, the answer does not come within the thirty seconds, reading it
    raises, or the answer is not a success with audio in it. *)
Inductive backend_failure (b : backend) (m : service) : Prop :=
| unconfigured :
    is_configured m = false → is_connected m = false → backend_failure b m
| unreachable :
    is_connected m = false → websocket m = None → backend_failure b m
| send_fails err :
    on_send b = SendRaises err → backend_failure b m
| timed_out :
    on_recv b = RecvTimeout → backend_failure b m
| recv_fails err :
    on_recv b = RecvRaises err → backend_failure b m
| error_response r :
    on_recv b = RecvData r → is_error_response r = true → backend_failure b m.

End Murf.

(** ** [services/realtime_stt_service.py] *)
Module Stt.
Import PyStr.

(** What a callback does when it is called: it returns or it raises. *)
Inductive cb_result := CbReturns | CbRaises (err : string).

(** The dictionary handed to the turn-detection callback. *)
Record turn_data := mk_turn_data {
  td_type : string;
  td_message : string;
  td_transcript : string;
  td_confidence : string;
  td_timestamp : string
}.

(** [RealtimeSTTService]; [ws] holds the URL of the [WebSocketApp]. *)
Record service := mk_service {
  api_key : option string;
  ws : option string;
  is_connected : bool;
  connection_error : option string;
  is_streaming : bool;
  transcription_callback : option (string -> cb_result);
  turn_detection_callback : option (turn_data -> cb_result)
}.

(** [__init__] with the value of [ASSEMBLYAI_API_KEY]: a key of at most ten
    characters after stripping is dropped. *)
Definition init (key : option string) : service :=
  {| api_key :=
       match key with
       | Some k => if truthy k && (10 <? len (strip k))%nat then Some k else None
       | None => None
       end;
     ws := None; is_connected := false; connection_error := None;
     is_streaming := false;
     transcription_callback := None; turn_detection_callback := None |}.

(** [bool(self.api_key)] *)
Definition is_configured (s : service) : bool :=
  match api_key s with
  | Some k => truthy k
  | None => false
  end.

(** A message of the recognition backend after [json.loads]: the parse
    raises, or the value is not an object ([data.get] raises), or it is an
    object.  [text] is absent, a string, or another JSON value (on which
    [.strip()] raises); [confidence] is the JSON value as written. *)
Inductive jtext := TextAbsent | TextString (s : string) | TextOther.

Inductive message :=
| NotJson
| NotObject
| Object (message_type : option string) (text : jtext) (confidence : option string).

(** What the service does to the outside while a message is handled. *)
Inductive event :=
| Transcription (text : string)
| Turn (td : turn_data).

Definition set_flags (connected streaming : bool) (s : service) : service :=
  {| api_key := api_key s; ws := ws s; is_connected := connected;
     connection_error := connection_error s; is_streaming := streaming;
     transcription_callback := transcription_callback s;
     turn_detection_callback := turn_detection_callback s |}.

(** The [except Exception as e] branch of [_on_message]. *)
Definition on_message_error (err : string) (s : service) : service :=
  if contains "WebSocket connection is closed" err
  then set_flags false false s else s.

(** [data.get('text', '').strip()]: [None] when [.strip()] raises. *)
Definition stripped_text (t : jtext) : option string :=
  match t with
  | TextAbsent => Some (strip "")
  | TextString s => Some (strip s)
  | TextOther => None
  end.

Definition attribute_error : string :=
  "object has no attribute 'strip'".

(** [_on_message(ws, message)] at clock reading [now]: the service
    afterwards and the callbacks called, in order. *)
Definition _on_message (now : string) (m : message) (s : service)
  : service * list event :=
  match m with
  | NotJson => (on_message_error "Expecting value" s, [])
  | NotObject => (on_message_error "object has no attribute 'get'" s, [])
  | Object mt t conf =>
      if bool_decide (mt = Some "PartialTranscript") then
        match stripped_text t with
        | None => (on_message_error attribute_error s, [])
        | Some text =>
            match truthy text, transcription_callback s with
            | true, Some cb =>
                match cb text with
                | CbReturns => (s, [Transcription text])
                | CbRaises err => (on_message_error err s, [Transcription text])
                end
            | _, _ => (s, [])
            end
        end
      else if bool_decide (mt = Some "FinalTranscript") then
        match stripped_text t with
        | None => (on_message_error attribute_error s, [])
        | Some text =>
            if truthy text then
              let '(r1, ev1) :=
                match transcription_callback s with
                | Some cb => (cb text, [Transcription text])
                | None => (CbReturns, [])
                end in
              match r1 with
              | CbRaises err => (on_message_error err s, ev1)
              | CbReturns =>
                  match turn_detection_callback s with
                  | Some tcb =>
                      let td :=
                        {| td_type := "turn_end";
                           td_message := "User stopped talking - turn detected";
                           td_transcript := text;
                           td_confidence := default "0.0" conf;
                           td_timestamp := now |} in
                      match tcb td with
                      | CbReturns => (s, ev1 ++ [Turn td])
                      | CbRaises err => (on_message_error err s, ev1 ++ [Turn td])
                      end
                  | None => (s, ev1)
                  end
              end
            else (s, [])
        end
      else if bool_decide (mt = Some "SessionBegins") then
        (set_flags true (is_streaming s) s, [])
      else if bool_decide (mt = Some "SessionTerminated") then
        (set_flags false false s, [])
      else (s, [])
  end.

(** A sequence of backend messages, each with the clock reading at its
    arrival, handled one after the other. *)
Fixpoint run_messages (ms : list (string * message)) (s : service)
  : service * list event :=
  match ms with
  | [] => (s, [])
  | (now, m) :: rest =>
      let '(s1, ev1) := _on_message now m s in
      let '(s2, ev2) := run_messages rest s1 in
      (s2, ev1 ++ ev2)
  end.

(** What happens once the [WebSocketApp] thread is started: the connection
    opens within the ten seconds, the backend reports an error, nothing
    happens in time, or creating or starting the socket raises. *)
Inductive ws_outcome :=
| WsOpened
| WsError (err : string)
| WsTimeout
| WsRaises (err : string).

(** A connection attempt to the recognition backend. *)
Inductive net_event := NetOpen (url : string) | NetClose (url : string).

Definition ws_url (key : string) : string :=
  "wss://api.assemblyai.com/v2/realtime/ws?sample_rate=16000&token=" +:+ key.

(** [start_streaming_transcription(callback, turn_callback)]: the returned
    flag, the service afterwards and the connections attempted. *)
Definition start_streaming_transcription (net : ws_outcome)
    (callback : string -> cb_result)
    (turn_callback : option (turn_data -> cb_result)) (s : service)
  : bool * service * list net_event :=
  if negb (is_configured s) then (false, s, [])
  else
    let url := ws_url (default "" (api_key s)) in
    let s1 := {| api_key := api_key s; ws := ws s; is_connected := false;
                 connection_error := None; is_streaming := is_streaming s;
                 transcription_callback := Some callback;
                 turn_detection_callback := turn_callback |} in
    let s2 := {| api_key := api_key s; ws := Some url; is_connected := false;
                 connection_error := None; is_streaming := is_streaming s;
                 transcription_callback := Some callback;
                 turn_detection_callback := turn_callback |} in
    match net with
    | WsRaises _ => (false, s1, [])
    | WsTimeout => (false, s2, [NetOpen url])
    | WsError err =>
        (false,
         {| api_key := api_key s; ws := Some url; is_connected := false;
            connection_error := Some err; is_streaming := false;
            transcription_callback := Some callback;
            turn_detection_callback := turn_callback |},
         [NetOpen url])
    | WsOpened =>
        (true,
         {| api_key := api_key s; ws := Some url; is_connected := true;
            connection_error := None; is_streaming := true;
            transcription_callback := Some callback;
            turn_detection_callback := turn_callback |},
         [NetOpen url])
    end.

(** [stop_streaming_transcription()] *)
Definition stop_streaming_transcription (s : service)
  : service * list net_event :=
  (set_flags false false s,
   match ws s with Some url => [NetClose url] | None => [] end).

End Stt.

(** ** [services/websocket_service.py] *)
Module Ws.
Import PyStr.

(** The value of [active_sessions[socket_id]]. *)
Record session_info := mk_session_info {
  session_id : string;
  connected_at : string;
  message_count : nat
}.

(** The value of [audio_streams[socket_id]]. *)
Record audio_stream := mk_audio_stream {
  chunks_sent : nat;
  total_size : nat;
  start_time : string;
  active : bool
}.

(** The payload of an [audio_chunk_streamed] event. *)
Record chunk_data := mk_chunk_data {
  chunk_index : nat;
  chunk_payload : string;
  chunk_size : nat;
  total_chunks : nat;
  original_text : string;
  timestamp : string
}.

(** Server-to-client events of [stream_audio_to_client]. *)
Inductive sio_event :=
| audio_chunk_streamed (c : chunk_data)
| audio_stream_complete (total_chunks total_size : nat)
    (original_text completion_timestamp : string)
| audio_stream_error (error timestamp : string).

(** The [socketio] object when one is attached to the service: what
    [emit(event, room)] does, [None] when it delivers the event and
    [Some err] when it raises. *)
Definition emitter := string -> sio_event -> option string.

(** [WebSocketService]: the dictionaries keyed by socket id, the set of
    synthesis sessions, the two backend services and the [socketio]
    attribute, which [__init__] leaves unset.  The value of
    [transcription_sessions[socket_id]] is reduced to its [started_at]. *)
Record service := mk_service {
  active_sessions : gmap string session_info;
  transcription_sessions : gmap string string;
  active_transcriptions : gset string;
  murf_sessions : gset string;
  audio_streams : gmap string audio_stream;
  streaming_chunks : gset string;
  stt_service : Stt.service;
  murf_service : Murf.service;
  socketio : option emitter
}.

(** [__init__] with the two keys of the environment. *)
Definition init (assemblyai_key murf_key : option string) : service :=
  {| active_sessions := ∅; transcription_sessions := ∅;
     active_transcriptions := ∅; murf_sessions := ∅; audio_streams := ∅;
     streaming_chunks := ∅;
     stt_service := Stt.init assemblyai_key;
     murf_service := Murf.init murf_key;
     socketio := None |}.

(** [service.socketio = sio]: attaching a [socketio] object. *)
Definition set_socketio (sio : emitter) (w : service) : service :=
  {| active_sessions := active_sessions w;
     transcription_sessions := transcription_sessions w;
     active_transcriptions := active_transcriptions w;
     murf_sessions := murf_sessions w;
     audio_streams := audio_streams w;
     streaming_chunks := streaming_chunks w;
     stt_service := stt_service w;
     murf_service := murf_service w;
     socketio := Some sio |}.

(** [register_session(session_id, socket_id)] at clock reading [now]. *)
Definition register_session (now : string) (sid socket_id : string)
    (w : service) : service :=
  {| active_sessions :=
       <[socket_id := {| session_id := sid; connected_at := now;
                         message_count := 0 |}]> (active_sessions w);
     transcription_sessions := transcription_sessions w;
     active_transcriptions := active_transcriptions w;
     murf_sessions := murf_sessions w;
     audio_streams :=
       <[socket_id := {| chunks_sent := 0; total_size := 0;
                         start_time := now; active := false |}]>
         (audio_streams w);
     streaming_chunks := streaming_chunks w;
     stt_service := stt_service w;
     murf_service := murf_service w;
     socketio := socketio w |}.

(** [get_active_sessions_count()] *)
Definition get_active_sessions_count (w : service) : nat :=
  size (active_sessions w).

(** The dictionary returned by the start operations. *)
Record status_result := mk_status_result {
  status : string;
  message : string;
  result_session_id : option string
}.

Definition with_stt (st : Stt.service) (ts : gmap string string)
    (w : service) : service :=
  {| active_sessions := active_sessions w;
     transcription_sessions := ts;
     active_transcriptions := active_transcriptions w;
     murf_sessions := murf_sessions w;
     audio_streams := audio_streams w;
     streaming_chunks := streaming_chunks w;
     stt_service := st;
     murf_service := murf_service w;
     socketio := socketio w |}.

(** [start_realtime_transcription(socket_id)]: the returned dictionary, the
    service afterwards and the connections attempted.  The two callbacks
    handed to the recognition service catch every exception of their own. *)
Definition start_realtime_transcription (net : Stt.ws_outcome) (now : string)
    (socket_id : string) (w : service)
  : status_result * service * list Stt.net_event :=
  if negb (Stt.is_configured (stt_service w)) then
    ({| status := "error";
        message := "AssemblyAI API key not configured. Please set ASSEMBLYAI_API_KEY environment variable.";
        result_session_id := None |}, w, [])
  else
    let '(success, st, attempts) :=
      Stt.start_streaming_transcription net
        (fun _ => Stt.CbReturns) (Some (fun _ => Stt.CbReturns))
        (stt_service w) in
    if success then
      ({| status := "started";
          message := "Real-time transcription started with AssemblyAI and turn detection";
          result_session_id := None |},
       with_stt st (<[socket_id := now]> (transcription_sessions w)) w,
       attempts)
    else
      ({| status := "error";
          message := "Failed to connect to AssemblyAI. Check your API key and internet connection.";
          result_session_id := None |},
       with_stt st (transcription_sessions w) w,
       attempts).

(** [stop_realtime_transcription(socket_id)] *)
Definition stop_realtime_transcription (socket_id : string) (w : service)
  : service * list Stt.net_event :=
  let '(w1, closed) :=
    match transcription_sessions w !! socket_id with
    | Some _ =>
        let '(st, closed) := Stt.stop_streaming_transcription (stt_service w) in
        (with_stt st (delete socket_id (transcription_sessions w)) w, closed)
    | None => (w, [])
    end in
  ({| active_sessions := active_sessions w1;
      transcription_sessions := transcription_sessions w1;
      active_transcriptions := active_transcriptions w1 ∖ {[socket_id]};
      murf_sessions := murf_sessions w1;
      audio_streams := audio_streams w1;
      streaming_chunks := streaming_chunks w1;
      stt_service := stt_service w1;
      murf_service := murf_service w1;
      socketio := socketio w1 |}, closed).

(** [start_murf_websocket(socket_id)] *)
Definition start_murf_websocket (backend : Murf.connect_outcome)
    (socket_id : string) (w : service) : status_result * service :=
  let '(connected, m) := Murf.connect backend (murf_service w) in
  if connected then
    ({| status := "connected";
        message := "Murf WebSocket connected successfully";
        result_session_id := Some socket_id |},
     {| active_sessions := active_sessions w;
        transcription_sessions := transcription_sessions w;
        active_transcriptions := active_transcriptions w;
        murf_sessions := {[socket_id]} ∪ murf_sessions w;
        audio_streams := audio_streams w;
        streaming_chunks := streaming_chunks w;
        stt_service := stt_service w;
        murf_service := m;
        socketio := socketio w |})
  else
    ({| status := "error";
        message := "Failed to connect to Murf WebSocket";
        result_session_id := None |},
     {| active_sessions := active_sessions w;
        transcription_sessions := transcription_sessions w;
        active_transcriptions := active_transcriptions w;
        murf_sessions := murf_sessions w;
        audio_streams := audio_streams w;
        streaming_chunks := streaming_chunks w;
        stt_service := stt_service w;
        murf_service := m;
        socketio := socketio w |}).

(** [if hasattr(self, 'socketio') and self.socketio: await
    self.socketio.emit(event, data, room=socket_id)]: the events delivered
    and the exception raised, if any. *)
Definition emit (sio : option emitter) (room : string) (ev : sio_event)
  : list (string * sio_event) * option string :=
  match sio with
  | None => ([], None)
  | Some e =>
      match e room ev with
      | Some err => ([], Some err)
      | None => ([(room, ev)], None)
      end
  end.

(** The loop [for index, chunk in enumerate(chunks)] of
    [stream_audio_to_client], from position [index] on; [total] is
    [len(chunks)] and [clock k] the clock reading at the [k]-th chunk. *)
Fixpoint stream_chunks (sio : option emitter) (clock : nat -> string)
    (socket_id text : string) (total index : nat) (chunks : list string)
  : list (string * sio_event) * option string :=
  match chunks with
  | [] => ([], None)
  | chunk :: rest =>
      let data := {| chunk_index := index + 1; chunk_payload := chunk;
                     chunk_size := len chunk; total_chunks := total;
                     original_text := text; timestamp := clock index |} in
      match emit sio socket_id (audio_chunk_streamed data) with
      | (sent, Some err) => (sent, Some err)
      | (sent, None) =>
          let '(sent', r) :=
            stream_chunks sio clock socket_id text total (index + 1) rest in
          (sent ++ sent', r)
      end
  end.

(** The chunks of [stream_audio_to_client]:
    [base64_audio[i:i + chunk_size] for i in range(0, len(base64_audio),
    chunk_size)]. *)
Definition split_audio (size : nat) (base64_audio : string) : list string :=
  map (fun i => slice i (i + size) base64_audio)
      (range 0 (len base64_audio) size).

Definition audio_chunk_size : nat := 1024.

(** [stream_audio_to_client(socket_id, base64_audio, original_text)]: the
    events delivered, in order, and the exception that leaves the
    coroutine, if any (only the emission of [audio_stream_error] is outside
    a [try]). *)
Definition stream_audio_to_client (clock : nat -> string)
    (socket_id base64_audio text : string) (w : service)
  : list (string * sio_event) * option string :=
  let size := len base64_audio in
  let chunks := split_audio audio_chunk_size base64_audio in
  let n := length chunks in
  let on_error (sent : list (string * sio_event)) (err : string) :=
    let '(sent', r) :=
      emit (socketio w) socket_id (audio_stream_error err (clock (S n))) in
    (sent ++ sent', r) in
  match stream_chunks (socketio w) clock socket_id text n 0 chunks with
  | (sent, Some err) => on_error sent err
  | (sent, None) =>
      match emit (socketio w) socket_id
              (audio_stream_complete n size text (clock n)) with
      | (sent', Some err) => on_error (sent ++ sent') err
      | (sent', None) => (sent ++ sent', None)
      end
  end.

End Ws.

(** ** Reading a trace of delivered events *)
Module Trace.
Import Ws.

(** The chunk payloads among the delivered events, in order. *)
Fixpoint chunks_of (tr : list (string * sio_event)) : list chunk_data :=
  match tr with
  | [] => []
  | (_, audio_chunk_streamed c) :: tr' => c :: chunks_of tr'
  | _ :: tr' => chunks_of tr'
  end.

(** The [(total_chunks, total_size)] pairs of the delivered
    [audio_stream_complete] events. *)
Fixpoint completions_of (tr : list (string * sio_event)) : list (nat * nat) :=
  match tr with
  | [] => []
  | (_, audio_stream_complete n size _ _) :: tr' => (n, size) :: completions_of tr'
  | _ :: tr' => completions_of tr'
  end.

(** [sum(l)] *)
Definition sum (l : list nat) : nat := foldr Nat.add 0 l.

(** The events of a chunk loop in which every emission is delivered. *)
Fixpoint chunk_events (clock : nat -> string) (socket_id text : string)
    (total index : nat) (chunks : list string) : list (string * sio_event) :=
  match chunks with
  | [] => []
  | chunk :: rest =>
      (socket_id,
       audio_chunk_streamed
         {| chunk_index := index + 1; chunk_payload := chunk;
            chunk_size := PyStr.len chunk; total_chunks := total;
            original_text := text; timestamp := clock index |})
      :: chunk_events clock socket_id text total (index + 1) rest
  end.

End Trace.

(** ** The regular expressions of [re] that the services use *)
Module Re.
Import PyStr.

(** Patterns: a literal character, a character class, [.], the empty
    pattern, concatenation, alternation, greedy or lazy repetition, the
    capture group 1, [$] and [\b]. *)
Inductive regex :=
| Chr (c : ascii)
| Cls (p : ascii -> bool)
| Dot
| Eps
| Cat (r1 r2 : regex)
| Alt (r1 r2 : regex)
| Star (greedy : bool) (r : regex)
| Grp (r : regex)
| Eos
| WordB.

(** [r+] and [r+?] *)
Definition Plus (greedy : bool) (r : regex) : regex := Cat r (Star greedy r).

(** A literal string. *)
Fixpoint lit (s : string) : regex :=
  match s with
  | EmptyString => Eps
  | String c s' => Cat (Chr c) (lit s')
  end.

(** [a|b|...] *)
Fixpoint alts (l : list regex) : regex :=
  match l with
  | [] => Cls (fun _ => false)
  | [r] => r
  | r :: l' => Alt r (alts l')
  end.

(** A position in the subject and the span of group 1. *)
Record mstate := mk_mstate {
  pos : nat;
  g_start : nat;
  g_end : nat
}.

(** [\w] on code points below 256: letters, digits and the underscore. *)
Definition is_word (c : ascii) : bool :=
  let n := nat_of_ascii c in
  ((48 <=? n) && (n <=? 57)) || ((65 <=? n) && (n <=? 90))
  || ((97 <=? n) && (n <=? 122)) || (n =? 95)
  || (n =? 170) || (n =? 178) || (n =? 179) || (n =? 181) || (n =? 185)
  || (n =? 186) || ((188 <=? n) && (n <=? 190))
  || ((192 <=? n) && (n <=? 214)) || ((216 <=? n) && (n <=? 246))
  || (248 <=? n).

Definition word_at (s : string) (i : nat) : bool :=
  match String.get i s with
  | Some c => is_word c
  | None => false
  end.

(** [\b] at position [i]: exactly one of the neighbours is a word
    character. *)
Definition at_boundary (s : string) (i : nat) : bool :=
  xorb (match i with O => false | S j => word_at s j end) (word_at s i).

(** [$] at position [i]: the end, or just before a final newline. *)
Definition at_end (s : string) (i : nat) : bool :=
  (len s <=? i)
  || ((S i =? len s) && bool_decide (String.get i s = Some "010"%char)).

Definition char_eq (ignore_case : bool) (a b : ascii) : bool :=
  if ignore_case then Ascii.eqb (lower_char a) (lower_char b)
  else Ascii.eqb a b.

Definition step (st : mstate) : mstate :=
  {| pos := S (pos st); g_start := g_start st; g_end := g_end st |}.

(** Backtracking match of [r] at [st], then of the continuation [k]; the
    alternatives are tried in the order of [re].  A repetition runs at
    most once per character of the subject, and an iteration that consumes
    nothing is not repeated. *)
Fixpoint rmatch (ic : bool) (s : string) (r : regex)
    (k : mstate -> option mstate) (st : mstate) {struct r} : option mstate :=
  match r with
  | Chr c =>
      match String.get (pos st) s with
      | Some c' => if char_eq ic c c' then k (step st) else None
      | None => None
      end
  | Cls p =>
      match String.get (pos st) s with
      | Some c' => if p c' then k (step st) else None
      | None => None
      end
  | Dot =>
      match String.get (pos st) s with
      | Some c' => if Ascii.eqb c' "010" then None else k (step st)
      | None => None
      end
  | Eps => k st
  | Cat r1 r2 => rmatch ic s r1 (rmatch ic s r2 k) st
  | Alt r1 r2 =>
      match rmatch ic s r1 k st with
      | Some m => Some m
      | None => rmatch ic s r2 k st
      end
  | Star greedy r' =>
      (fix star (n : nat) (st : mstate) {struct n} : option mstate :=
         match n with
         | O => k st
         | S n' =>
             let again st' := if pos st <? pos st' then star n' st' else None in
             if greedy then
               match rmatch ic s r' again st with
               | Some m => Some m
               | None => k st
               end
             else
               match k st with
               | Some m => Some m
               | None => rmatch ic s r' again st
               end
         end) (S (len s)) st
  | Grp r' =>
      rmatch ic s r'
        (fun st' => k {| pos := pos st'; g_start := g_start st'; g_end := pos st' |})
        {| pos := pos st; g_start := pos st; g_end := g_end st |}
  | Eos => if at_end s (pos st) then k st else None
  | WordB => if at_boundary s (pos st) then k st else None
  end.

(** A match starting exactly at [i]. *)
Definition match_at (ic : bool) (r : regex) (s : string) (i : nat)
  : option mstate :=
  rmatch ic s r Some {| pos := i; g_start := 0; g_end := 0 |}.

Fixpoint search_from (ic : bool) (r : regex) (s : string) (n i : nat)
  : option mstate :=
  match n with
  | O => None
  | S n' =>
      match match_at ic r s i with
      | Some m => Some m
      | None => search_from ic r s n' (S i)
      end
  end.

(** [re.search(r, s)]: the leftmost match. *)
Definition search (ic : bool) (r : regex) (s : string) : option mstate :=
  search_from ic r s (S (len s)) 0.

(** [match.group(1)] *)
Definition group1 (s : string) (m : mstate) : string :=
  slice (g_start m) (g_end m) s.

(** [re.sub(r, repl, s)] from position [i] on, for a pattern that matches
    no empty string; every round moves on by a character at least, so
    [len(s) + 1] rounds are enough. *)
Fixpoint sub_from (ic : bool) (r : regex) (repl s : string) (n i : nat)
  : string :=
  match n with
  | O => EmptyString
  | S n' =>
      match String.get i s with
      | None => EmptyString
      | Some c =>
          match match_at ic r s i with
          | Some m =>
              if i <? pos m then repl +:+ sub_from ic r repl s n' (pos m)
              else String c (sub_from ic r repl s n' (S i))
          | None => String c (sub_from ic r repl s n' (S i))
          end
      end
  end.

Definition sub (ic : bool) (r : regex) (repl s : string) : string :=
  sub_from ic r repl s (S (len s)) 0.

End Re.

(** ** [services/llm_service.py] *)
Module Llm.
Import PyStr.

(** A call returns a value or raises. *)
Inductive outcome (A : Type) :=
| Returns (a : A)
| Raises (err : string).
Arguments Returns {A} a.
Arguments Raises {A} err.

(** The dictionaries returned by the service: the keys that every path
    fills in the same way.  The skill paths add keys with data of their
    service ([weather_data], [search_data], [task_performed], ...), which
    are left out. *)
Record result := mk_result {
  success : bool;
  response : option string;
  model_used : option string;
  character_count : option nat;
  chunk_count : option nat;
  streaming : option bool;
  skill_used : option string;
  awaiting_file : option bool;
  analysis_type : option string;
  error : option string;
  fallback_response : option string
}.

(** The dictionary of a skill reply. *)
Definition skill_result (text model skill : string)
    (awaiting : option bool) (analysis : option string) : result :=
  {| success := true; response := Some text; model_used := Some model;
     character_count := Some (len text); chunk_count := None;
     streaming := None; skill_used := Some skill;
     awaiting_file := awaiting; analysis_type := analysis;
     error := None; fallback_response := None |}.

(** One item of the iterator returned by
    [self.model.generate_content(context, stream=True)]: a chunk with its
    text, or an exception raised while the next chunk is fetched or its
    text is read. *)
Inductive stream_item :=
| ItemText (text : string)
| ItemRaises (err : string).

(** The generation backend on one call: the call raises, or it returns an
    iterator. *)
Inductive gen_outcome :=
| GenRaises (err : string)
| GenStream (items : list stream_item).

(** What is outside [LLMService]: whether [__init__] configured the
    model; what the generation backend answers for the context built from
    the messages (building the context is part of the call); and the reply
    texts of the skill services once a skill has claimed a message, as
    functions of the message and the persona:
    - [weather_reply]: [format_weather_analysis_response] of
      [get_comprehensive_weather_analysis] for a city and a date context;
    - [search_reply]: the request for a query when
      [_extract_search_query] finds none, else [format_search_response] of
      [search_web];
    - [study_reply]: the request for content when
      [_extract_study_content] finds none, else [format_study_response] of
      [analyze_content]. *)
Record env := mk_env {
  configured : bool;
  generate_content : gen_outcome;
  weather_reply : string -> option string -> option string -> outcome string;
  search_reply : string -> option string -> outcome string;
  study_reply : string -> option string -> outcome string
}.

(** The methods that [class WeatherService] of
    [services/weather_service.py] defines. *)
Definition WeatherService_methods : list string :=
  ["__init__"; "is_configured"; "set_api_key"; "get_coordinates";
   "get_current_weather"; "get_hourly_forecast"; "get_weather_alerts";
   "get_comprehensive_weather"; "_process_forecast";
   "format_weather_response"].

(** [hasattr(obj, name)] for an object of a class with these methods. *)
Definition has_method (methods : list string) (name : string) : bool :=
  existsb (String.eqb name) methods.

Definition attribute_error (cls name : string) : string :=
  "'" +:+ cls +:+ "' object has no attribute '" +:+ name +:+ "'".

Definition is_pirate (persona : option string) : bool :=
  bool_decide (persona = Some "pirate").

(** *** City and date of a weather request *)

(** [[a-zA-Z\s]] *)
Definition letter_or_space (c : ascii) : bool :=
  let n := nat_of_ascii c in
  ((65 <=? n) && (n <=? 90)) || ((97 <=? n) && (n <=? 122)) || is_space c.

(** [(?:in|at|for) ([a-zA-Z\s]+?)(?:\s|$)] *)
Definition place : Re.regex :=
  Re.Cat (Re.alts [Re.lit "in"; Re.lit "at"; Re.lit "for"])
    (Re.Cat (Re.Chr " ")
       (Re.Cat (Re.Grp (Re.Plus false (Re.Cls letter_or_space)))
          (Re.Alt (Re.Cls is_space) Re.Eos))).

Definition any_run : Re.regex := Re.Star true Re.Dot.

Definition city_patterns : list Re.regex :=
  [ Re.Cat (Re.lit "weather ") place;
    Re.Cat (Re.lit "temperature ") place;
    Re.Cat (Re.lit "forecast ") place;
    Re.Cat (Re.lit "how")
      (Re.Cat any_run (Re.Cat (Re.lit "weather") (Re.Cat any_run place)));
    Re.Cat (Re.lit "what")
      (Re.Cat any_run (Re.Cat (Re.lit "weather") (Re.Cat any_run place)));
    Re.Cat (Re.alts [Re.lit "weather"; Re.lit "temperature"; Re.lit "forecast"])
      (Re.Cat (Re.Chr " ")
         (Re.Cat (Re.Grp (Re.Plus false (Re.Cls letter_or_space)))
            (Re.Alt (Re.Cls is_space) Re.Eos))) ].

(** [\b(the|is|like|today|now|currently|and|or)\b] *)
Definition filler_words : Re.regex :=
  Re.Cat Re.WordB
    (Re.Cat
       (Re.Grp (Re.alts [Re.lit "the"; Re.lit "is"; Re.lit "like";
                         Re.lit "today"; Re.lit "now"; Re.lit "currently";
                         Re.lit "and"; Re.lit "or"]))
       Re.WordB).

(** [str.title]: a cased character is upper-cased after an uncased one and
    lower-cased after a cased one.  The three characters whose title case
    is above 255 (0xB5, 0xDF, 0xFF) are left as they are. *)
Definition is_cased (c : ascii) : bool :=
  let n := nat_of_ascii c in
  ((65 <=? n) && (n <=? 90)) || ((97 <=? n) && (n <=? 122))
  || (n =? 170) || (n =? 181) || (n =? 186)
  || ((192 <=? n) && (n <=? 214)) || ((216 <=? n) && (n <=? 246))
  || (248 <=? n).

Definition upper_char (c : ascii) : ascii :=
  let n := nat_of_ascii c in
  if ((97 <=? n) && (n <=? 122))
     || ((224 <=? n) && (n <=? 254) && negb (n =? 247))
  then ascii_of_nat (n - 32) else c.

Fixpoint title_go (previous_is_cased : bool) (s : string) : string :=
  match s with
  | EmptyString => EmptyString
  | String c s' =>
      String (if previous_is_cased then lower_char c else upper_char c)
             (title_go (is_cased c) s')
  end.

Definition title (s : string) : string := title_go false s.

(** The city that one matching pattern gives. *)
Definition clean_city (captured : string) : string :=
  let city := title (strip captured) in
  let city := strip (Re.sub true filler_words "" city) in
  strip (Re.sub false (Re.Plus true (Re.Cls is_space)) " " city).

Fixpoint city_by_pattern (patterns : list Re.regex) (message_lower : string)
  : option string :=
  match patterns with
  | [] => None
  | p :: rest =>
      match Re.search false p message_lower with
      | Some m =>
          let city := clean_city (Re.group1 message_lower m) in
          if truthy city && (1 <? len city) then Some city
          else city_by_pattern rest message_lower
      | None => city_by_pattern rest message_lower
      end
  end.

(** [words.index(word)] *)
Fixpoint index_of (word : string) (words : list string) : option nat :=
  match words with
  | [] => None
  | w :: rest =>
      if String.eqb w word then Some 0
      else option_map S (index_of word rest)
  end.

Definition not_a_city : list string :=
  ["in"; "at"; "for"; "is"; "like"; "the"; "today"; "now"; "and"; "or";
   "a"; "an"].

(** The second half of [_extract_city_from_message]: the first of the
    three words after a weather word that is no filler. *)
Fixpoint city_by_position (weather_words : list string) (message_lower : string)
  : option string :=
  match weather_words with
  | [] => None
  | word :: rest =>
      let next := city_by_position rest message_lower in
      if contains word message_lower then
        let words := split_ws message_lower in
        match index_of word words with
        | Some word_index =>
            match List.find (fun w => negb (existsb (String.eqb w) not_a_city))
                    (firstn 3 (skipn (word_index + 1) words)) with
            | Some potential_city => Some (title potential_city)
            | None => next
            end
        | None => next
        end
      else next
  end.

(** [_extract_city_from_message(message)] *)
Definition _extract_city_from_message (message : string) : string :=
  let message_lower := strip (lower message) in
  match city_by_pattern city_patterns message_lower with
  | Some city => city
  | None =>
      match city_by_position ["weather"; "temperature"; "forecast"]
              message_lower with
      | Some city => city
      | None => EmptyString
      end
  end.

(** [_extract_date_context(message)] *)
Definition _extract_date_context (message : string) : option string :=
  let message_lower := lower message in
  match List.find (fun p => contains p message_lower)
          ["today"; "tomorrow"; "this week"; "next week"; "weekend";
           "this morning"; "this afternoon"; "this evening"; "tonight";
           "next few days"; "coming days"; "rest of the week"] with
  | Some p => Some p
  | None =>
      match List.find (fun d => contains d message_lower)
              ["monday"; "tuesday"; "wednesday"; "thursday"; "friday";
               "saturday"; "sunday"] with
      | Some day =>
          Some (if contains "this" message_lower then "this " +:+ day else day)
      | None => None
      end
  end.

(** *** The skill interceptors *)

Definition weather_keywords : list string :=
  ["weather"; "temperature"; "forecast"; "climate"; "hot"; "cold"; "rain";
   "sunny"].

(** [_handle_weather_request(message, persona)]: [None] when no keyword
    occurs; the request for a city when none is found; otherwise the
    method [get_comprehensive_weather_analysis] of [self.weather_service]
    is looked up, and after it [format_weather_analysis_response]. *)
Definition _handle_weather_request (e : env) (message : string)
    (persona : option string) : outcome (option result) :=
  let message_lower := lower message in
  if any_in weather_keywords message_lower then
    let city := _extract_city_from_message message in
    let date_context := _extract_date_context message in
    if negb (truthy city) then
      let response :=
        if is_pirate persona
        then "Arrr! I can check the weather for ye, but I need to know which port ye want me to scout! What city should I check, matey?"
        else "I can help you with the weather! Which city would you like me to check?" in
      Returns (Some (skill_result response "weather-skill" "weather" None None))
    else if negb (has_method WeatherService_methods
                    "get_comprehensive_weather_analysis") then
      Raises (attribute_error "WeatherService" "get_comprehensive_weather_analysis")
    else if negb (has_method WeatherService_methods
                    "format_weather_analysis_response") then
      Raises (attribute_error "WeatherService" "format_weather_analysis_response")
    else
      match weather_reply e city date_context persona with
      | Raises err => Raises err
      | Returns response =>
          Returns (Some (skill_result response "weather-skill" "weather" None None))
      end
  else Returns None.

Definition search_keywords : list string :=
  ["search for"; "look up"; "find information"; "google"; "what is";
   "who is"; "tell me about"].

(** [_handle_search_request(message, persona)] *)
Definition _handle_search_request (e : env) (message : string)
    (persona : option string) : outcome (option result) :=
  let message_lower := lower message in
  if any_in search_keywords message_lower then
    match search_reply e message persona with
    | Raises err => Raises err
    | Returns response =>
        Returns (Some (skill_result response "web-search-skill" "web_search"
                         None None))
    end
  else Returns None.

Definition study_keywords : list string :=
  ["summarize"; "summary"; "explain"; "concept"; "flashcard"; "quiz";
   "study"; "learn"; "document"; "article"].

(** [_handle_study_request(message, persona)] *)
Definition _handle_study_request (e : env) (message : string)
    (persona : option string) : outcome (option result) :=
  let message_lower := lower message in
  if any_in study_keywords message_lower then
    match study_reply e message persona with
    | Raises err => Raises err
    | Returns response =>
        Returns (Some (skill_result response "study-assistant-skill"
                         "study_assistant" None None))
    end
  else Returns None.

Definition pdf_keywords : list string :=
  ["pdf"; "document"; "file"; "upload"; "summarize pdf"; "analyze document"].

(** [_handle_pdf_request(message, persona)] *)
Definition _handle_pdf_request (message : string) (persona : option string)
  : outcome (option result) :=
  let message_lower := lower message in
  if any_in pdf_keywords message_lower then
    let analysis :=
      if contains "question" message_lower || contains "answer" message_lower
      then "question_answer" else "summarize" in
    if negb (contains "file" message_lower)
       && negb (contains "document" message_lower)
       && negb (contains "pdf" message_lower) then
      let response :=
        if is_pirate persona
        then "Arrr! Ready to tackle that PDF, matey! Upload a file ye want me to " +:+ analysis +:+ "!"
        else "Please upload the PDF file you would like me to " +:+ analysis +:+ "." in
      Returns (Some (skill_result response "pdf-service" "pdf_processing"
                       (Some true) None))
    else
      let response :=
        if is_pirate persona
        then "Arrr! I've got yer PDF! Let me sift through it and " +:+ analysis +:+ " it for ye!"
        else "I'll process your PDF now and " +:+ analysis +:+ " it for you." in
      Returns (Some (skill_result response "pdf-service" "pdf_processing"
                       None (Some analysis)))
  else Returns None.

(** Some skill keyword occurs in the message. *)
Definition claimed_by_skill (message : string) : bool :=
  let message_lower := lower message in
  any_in weather_keywords message_lower
  || any_in search_keywords message_lower
  || any_in study_keywords message_lower
  || any_in pdf_keywords message_lower.

(** *** Streaming *)

(** What [generate_streaming_response] does to the outside: it calls the
    callback with a chunk, or it calls the generation backend. *)
Inductive event :=
| Chunk (text : string)
| Generate.

(** The callback: [None] when the call returns, [Some err] when it
    raises. *)
Definition callback := string -> option string.

(** [for chunk in chunks: callback(chunk)] up to the first call that
    raises. *)
Fixpoint deliver (cb : callback) (chunks : list string)
  : list event * option string :=
  match chunks with
  | [] => ([], None)
  | c :: rest =>
      match cb c with
      | Some err => ([Chunk c], Some err)
      | None => let '(ev, r) := deliver cb rest in (Chunk c :: ev, r)
      end
  end.

(** [' '.join(words[i:i+chunk_size]) + ' ' for i in range(0, len(words),
    chunk_size)] with [words = response_text.split(' ')]. *)
Definition word_groups (chunk_size : nat) (response_text : string) : list string :=
  let words := split " " response_text in
  map (fun i => join " " (firstn chunk_size (skipn i words)) +:+ " ")
      (range 0 (length words) chunk_size).

(** The simulated streaming of a skill reply. *)
Definition stream_skill_reply (cb : option callback) (r : result)
  : list event * outcome result :=
  match cb with
  | None => ([], Returns r)
  | Some f =>
      match deliver f (word_groups 3 (default "" (response r))) with
      | (ev, Some err) => (ev, Raises err)
      | (ev, None) => (ev, Returns r)
      end
  end.

(** The scripted text of the unconfigured service. *)
Definition scripted_response (current_message : string) : string :=
  "Hello! You said: '" +:+ current_message +:+ "'. This is a Day 20 test response for Murf WebSocket integration. The streaming LLM would normally provide a more detailed response here.".

(** [chunk + '. ' if not chunk.endswith('.') else chunk + ' '] *)
Definition chunk_text (chunk : string) : string :=
  if negb (endswith "." chunk) then chunk +:+ ". " else chunk +:+ " ".

(** The chunks of the scripted text: its pieces between [". "] that are
    not blank, each closed again. *)
Definition scripted_chunks (fallback_response : string) : list string :=
  map chunk_text
      (filter (fun chunk => truthy (strip chunk) = true)
              (split ". " fallback_response)).

(** [_generate_fallback_response(user_message)] *)
Definition _generate_fallback_response (user_message : string) : string :=
  let message_lower := lower user_message in
  if any_in ["hello"; "hi"; "hey"] message_lower then
    "Hello! I'm having some technical difficulties with my AI services right now, but I'm still here to chat with you."
  else if any_in ["trouble"; "problem"; "issue"] message_lower then
    "I understand you're having some trouble. I'm also experiencing some technical difficulties right now, but I'm here to help as best I can."
  else if any_in ["help"; "assist"] message_lower then
    "I'd love to help you, but I'm experiencing some connectivity issues with my AI services. Please try again in a moment."
  else
    "I'm having trouble connecting to my AI services right now. Please try again in a moment, and I'll do my best to assist you.".

(** The loop [for chunk in response] over the iterator of the backend:
    the calls of the callback, and the accumulated text with the number of
    chunks, or the exception that ends the loop. *)
Fixpoint consume (cb : option callback) (items : list stream_item)
    (accumulated_response : string) (chunk_count : nat)
  : list event * outcome (string * nat) :=
  match items with
  | [] => ([], Returns (accumulated_response, chunk_count))
  | ItemRaises err :: _ => ([], Raises err)
  | ItemText text :: rest =>
      if truthy text then
        match cb with
        | Some f =>
            match f text with
            | Some err => ([Chunk text], Raises err)
            | None =>
                let '(ev, r) :=
                  consume cb rest (accumulated_response +:+ text) (S chunk_count) in
                (Chunk text :: ev, r)
            end
        | None =>
            consume cb rest (accumulated_response +:+ text) (S chunk_count)
        end
      else consume cb rest accumulated_response chunk_count
  end.

(** [if len(accumulated_response) > 3000: accumulated_response =
    accumulated_response[:2900] + "..."] *)
Definition truncate (accumulated_response : string) : string :=
  if 3000 <? len accumulated_response
  then take_str 2900 accumulated_response +:+ "..."
  else accumulated_response.

Definition error_result (err fallback : string) : result :=
  {| success := false; response := None; model_used := None;
     character_count := None; chunk_count := None; streaming := None;
     skill_used := None; awaiting_file := None; analysis_type := None;
     error := Some err; fallback_response := Some fallback |}.

(** The part of [generate_streaming_response] after the interceptors. *)
Definition generate_or_fall_back (e : env) (current_message : string)
    (cb : option callback) : list event * outcome result :=
  if negb (configured e) then
    let fallback_response := scripted_response current_message in
    let texts := scripted_chunks fallback_response in
    let done :=
      {| success := true; response := Some fallback_response;
         model_used := Some "fallback-for-day20-testing";
         character_count := Some (len fallback_response);
         chunk_count := Some (length texts); streaming := Some true;
         skill_used := None; awaiting_file := None; analysis_type := None;
         error := None; fallback_response := None |} in
    match cb with
    | None => ([], Returns done)
    | Some f =>
        match deliver f texts with
        | (ev, Some err) => (ev, Raises err)
        | (ev, None) => (ev, Returns done)
        end
    end
  else
    let failed (err : string) :=
      Returns (error_result ("Streaming LLM service error: " +:+ err)
                 (_generate_fallback_response current_message)) in
    match generate_content e with
    | GenRaises err => ([Generate], failed err)
    | GenStream items =>
        match consume cb items "" 0 with
        | (ev, Raises err) => (Generate :: ev, failed err)
        | (ev, Returns (accumulated_response, chunk_count)) =>
            if negb (truthy accumulated_response) then
              (Generate :: ev,
               Returns (error_result "Empty response from streaming LLM"
                          "I apologize, but I couldn't generate a response to your query."))
            else
              let final := truncate accumulated_response in
              (Generate :: ev,
               Returns {| success := true; response := Some final;
                          model_used := Some "gemini-1.5-flash";
                          character_count := Some (len final);
                          chunk_count := Some chunk_count;
                          streaming := Some true;
                          skill_used := None; awaiting_file := None;
                          analysis_type := None;
                          error := None; fallback_response := None |})
        end
    end.

(** [generate_streaming_response(messages, current_message, persona,
    callback)]: the interceptors in their order, then the backend. *)
Definition generate_streaming_response (e : env)
    (messages : list (string * string)) (current_message : string)
    (persona : option string) (cb : option callback)
  : list event * outcome result :=
  match _handle_weather_request e current_message persona with
  | Raises err => ([], Raises err)
  | Returns (Some weather_result) => stream_skill_reply cb weather_result
  | Returns None =>
  match _handle_search_request e current_message persona with
  | Raises err => ([], Raises err)
  | Returns (Some search_result) => stream_skill_reply cb search_result
  | Returns None =>
  match _handle_study_request e current_message persona with
  | Raises err => ([], Raises err)
  | Returns (Some study_result) => stream_skill_reply cb study_result
  | Returns None =>
  match _handle_pdf_request current_message persona with
  | Raises err => ([], Raises err)
  | Returns (Some pdf_result) => stream_skill_reply cb pdf_result
  | Returns None => generate_or_fall_back e current_message cb
  end end end end.

(** The text of the chunks that an iterator yields. *)
Fixpoint streamed_text (items : list stream_item) : string :=
  match items with
  | [] => EmptyString
  | ItemText text :: rest => text +:+ streamed_text rest
  | ItemRaises _ :: rest => streamed_text rest
  end.

(** The text that a caller accumulates from the callback. *)
Fixpoint accumulated (ev : list event) : string :=
  match ev with
  | [] => EmptyString
  | Chunk text :: ev' => text +:+ accumulated ev'
  | Generate :: ev' => accumulated ev'
  end.

End Llm.

(** ** The socket callbacks and the audio path of the recognition service *)
Module SttSocket.
Import PyStr Stt.

(** [_on_open(ws)] *)
Definition _on_open (s : service) : service :=
  set_flags true (is_streaming s) s.

(** [_on_error(ws, error)] *)
Definition _on_error (err : string) (s : service) : service :=
  {| api_key := api_key s; ws := ws s; is_connected := false;
     connection_error := Some err; is_streaming := false;
     transcription_callback := transcription_callback s;
     turn_detection_callback := turn_detection_callback s |}.

(** [_on_close(ws, close_status_code, close_msg)] *)
Definition _on_close (s : service) : service := set_flags false false s.

Definition dquote : string := String "034" EmptyString.

(** [json.dumps({"audio_data": encoded})] for a base64 text. *)
Definition audio_message (encoded : string) : string :=
  "{" +:+ dquote +:+ "audio_data" +:+ dquote +:+ ": " +:+ dquote
      +:+ encoded +:+ dquote +:+ "}".

(** [send_audio_data(audio_data)]: the message handed to [self.ws.send],
    if any; an exception of the socket is caught and changes nothing. *)
Definition send_audio_data (audio_data : list N) (s : service) : option string :=
  match ws s with
  | Some _ =>
      if is_streaming s
      then Some (audio_message (Base64.b64encode audio_data))
      else None
  | None => None
  end.

End SttSocket.

(** ** The rest of the synthesis service *)
Module MurfLifecycle.
Import PyStr Murf.

(** [disconnect()]: the service afterwards and the websocket that was
    closed, if there was one (an exception of [close] is caught). *)
Definition disconnect (m : service) : service * option nat :=
  ({| api_key := api_key m; websocket := None; is_connected := false;
      context_id := context_id m; websocket_url := websocket_url m |},
   websocket m).

(** The dictionary of [get_connection_status()]. *)
Record connection_status := mk_connection_status {
  connected : bool;
  websocket_ready : bool;
  api_key_configured : bool;
  status_context_id : string
}.

Definition get_connection_status (m : service) : connection_status :=
  {| connected := is_connected m;
     websocket_ready := bool_decide (is_Some (websocket m));
     api_key_configured := is_configured m;
     status_context_id := context_id m |}.

End MurfLifecycle.

(** ** Sessions and synthesis in [services/websocket_service.py] *)
Module WsSessions.
Import PyStr Ws.

Definition with_sessions (a : gmap string session_info) (w : service) : service :=
  {| active_sessions := a;
     transcription_sessions := transcription_sessions w;
     active_transcriptions := active_transcriptions w;
     murf_sessions := murf_sessions w;
     audio_streams := audio_streams w;
     streaming_chunks := streaming_chunks w;
     stt_service := stt_service w;
     murf_service := murf_service w;
     socketio := socketio w |}.

Definition with_murf (ms : gset string) (m : Murf.service) (w : service) : service :=
  {| active_sessions := active_sessions w;
     transcription_sessions := transcription_sessions w;
     active_transcriptions := active_transcriptions w;
     murf_sessions := ms;
     audio_streams := audio_streams w;
     streaming_chunks := streaming_chunks w;
     stt_service := stt_service w;
     murf_service := m;
     socketio := socketio w |}.

(** [get_session_info(socket_id)]: [None] stands for the empty
    dictionary. *)
Definition get_session_info (socket_id : string) (w : service)
  : option session_info :=
  active_sessions w !! socket_id.

(** The dictionary returned by [handle_echo_message]. *)
Record echo_response := mk_echo_response {
  original_message : string;
  echo_text : string;
  echo_timestamp : string;
  echo_socket_id : string
}.

(** [handle_echo_message(socket_id, message)] at clock reading [now]. *)
Definition handle_echo_message (now socket_id message : string) (w : service)
  : echo_response * service :=
  ({| original_message := message; echo_text := "Echo: " +:+ message;
      echo_timestamp := now; echo_socket_id := socket_id |},
   match active_sessions w !! socket_id with
   | Some info =>
       with_sessions
         (<[socket_id := {| session_id := session_id info;
                            connected_at := connected_at info;
                            message_count := message_count info + 1 |}]>
            (active_sessions w)) w
   | None => w
   end).

(** A sequence of echo messages of one socket, handled in order. *)
Fixpoint handle_echo_messages (now socket_id : string) (messages : list string)
    (w : service) : service :=
  match messages with
  | [] => w
  | message :: rest =>
      handle_echo_messages now socket_id rest
        (handle_echo_message now socket_id message w).2
  end.

(** [stop_murf_websocket(socket_id)]: the service afterwards and the
    websocket closed when the last synthesis session is gone. *)
Definition stop_murf_websocket (socket_id : string) (w : service)
  : service * option nat :=
  let ms := murf_sessions w ∖ {[socket_id]} in
  if bool_decide (ms = ∅) then
    let '(m, closed) := MurfLifecycle.disconnect (murf_service w) in
    (with_murf ms m w, closed)
  else (with_murf ms (murf_service w) w, None).

(** [asyncio.create_task(coro)] needs a running event loop in the calling
    thread and raises [RuntimeError] without one. *)
Definition no_running_loop : string := "no running event loop".

(** [unregister_session(socket_id)]; [loop_running] says whether the
    caller runs inside an event loop.  The result is the service
    afterwards, the recognition connections closed, the socket ids for
    which a [stop_murf_websocket] task was scheduled, and the exception
    that leaves the method, if any. *)
Definition unregister_session (loop_running : bool) (socket_id : string)
    (w : service)
  : service * list Stt.net_event * list string * option string :=
  let w1 := with_sessions (delete socket_id (active_sessions w)) w in
  let '(w2, closed) :=
    match transcription_sessions w1 !! socket_id with
    | Some _ => stop_realtime_transcription socket_id w1
    | None => (w1, [])
    end in
  if bool_decide (socket_id ∈ murf_sessions w2) && negb loop_running then
    (w2, closed, [], Some no_running_loop)
  else
    ({| active_sessions := active_sessions w2;
        transcription_sessions := transcription_sessions w2;
        active_transcriptions := active_transcriptions w2;
        murf_sessions := murf_sessions w2;
        audio_streams := delete socket_id (audio_streams w2);
        streaming_chunks := streaming_chunks w2 ∖ {[socket_id]};
        stt_service := stt_service w2;
        murf_service := murf_service w2;
        socketio := socketio w2 |},
     closed,
     if bool_decide (socket_id ∈ murf_sessions w2) then [socket_id] else [],
     None).

(** The dictionary returned by [process_text_with_murf]. *)
Record murf_result := mk_murf_result {
  murf_status : string;
  murf_message : option string;
  base64_audio : option string;
  murf_text : option string;
  audio_length : option nat;
  murf_timestamp : option string
}.

(** [process_text_with_murf(socket_id, text)]: [now] is the clock reading,
    as a timestamp for the mock payload and in ISO format for the
    result. *)
Definition process_text_with_murf (b : Murf.backend) (now now_iso : string)
    (socket_id text : string) (w : service) : murf_result * service :=
  if negb (bool_decide (socket_id ∈ murf_sessions w)) then
    ({| murf_status := "error";
        murf_message := Some "Murf WebSocket not active for this session";
        base64_audio := None; murf_text := None; audio_length := None;
        murf_timestamp := None |}, w)
  else
    let '(audio, m) := Murf.send_text_for_tts b now text (murf_service w) in
    let w' := with_murf (murf_sessions w) m w in
    match audio with
    | Some audio_base64 =>
        if truthy audio_base64 then
          ({| murf_status := "success"; murf_message := None;
              base64_audio := Some audio_base64; murf_text := Some text;
              audio_length := Some (len audio_base64);
              murf_timestamp := Some now_iso |}, w')
        else
          ({| murf_status := "error";
              murf_message := Some "No audio generated from Murf";
              base64_audio := None; murf_text := None; audio_length := None;
              murf_timestamp := None |}, w')
    | None =>
        ({| murf_status := "error";
            murf_message := Some "No audio generated from Murf";
            base64_audio := None; murf_text := None; audio_length := None;
            murf_timestamp := None |}, w')
    end.

End WsSessions.

(** ** Reading the stream of the generation backend *)
Module LlmStream.
Import PyStr Llm.

(** The iterator yields chunks only, it never raises. *)
Definition only_chunks (items : list stream_item) : bool :=
  forallb (fun i => match i with ItemText _ => true | ItemRaises _ => false end)
          items.

(** The texts of the chunks that are not empty, in order. *)
Fixpoint nonempty_texts (items : list stream_item) : list string :=
  match items with
  | [] => []
  | ItemText text :: rest =>
      if truthy text then text :: nonempty_texts rest else nonempty_texts rest
  | ItemRaises _ :: rest => nonempty_texts rest
  end.

(** The callback is absent or never raises. *)
Definition quiet (cb : option callback) : Prop :=
  match cb with
  | None => True
  | Some f => ∀ c, f c = None
  end.

(** The chunk events that a quiet callback sees for these texts. *)
Definition seen (cb : option callback) (texts : list string) : list event :=
  match cb with
  | None => []
  | Some _ => map Chunk texts
  end.

End LlmStream.

(** ** The reply that is not streamed *)
Module LlmReply.
Import PyStr Llm.

(** [generate_response(messages, current_message, persona)].  [reply] is
    what [self.model.generate_content(context)] followed by the reading of
    [response.text] gives: the text (empty when there is none) or the
    exception. *)
Definition generate_response (e : env) (reply : outcome string)
    (messages : list (string * string)) (current_message : string)
    (persona : option string) : outcome result :=
  match _handle_weather_request e current_message persona with
  | Raises err => Raises err
  | Returns (Some weather_result) => Returns weather_result
  | Returns None =>
  match _handle_search_request e current_message persona with
  | Raises err => Raises err
  | Returns (Some search_result) => Returns search_result
  | Returns None =>
  match _handle_study_request e current_message persona with
  | Raises err => Raises err
  | Returns (Some study_result) => Returns study_result
  | Returns None =>
  match _handle_pdf_request current_message persona with
  | Raises err => Raises err
  | Returns (Some pdf_result) => Returns pdf_result
  | Returns None =>
      if negb (configured e) then
        Returns (error_result "LLM service not configured"
                   "I'm having trouble connecting to my AI services right now.")
      else
        match reply with
        | Raises err =>
            Returns (error_result ("LLM service error: " +:+ err)
                       (_generate_fallback_response current_message))
        | Returns response_text =>
            if negb (truthy response_text) then
              Returns (error_result "Empty response from LLM"
                         "I apologize, but I couldn't generate a response to your query.")
            else
              let response_text := truncate response_text in
              Returns {| success := true; response := Some response_text;
                         model_used := Some "gemini-1.5-flash";
                         character_count := Some (len response_text);
                         chunk_count := None; streaming := None;
                         skill_used := None; awaiting_file := None;
                         analysis_type := None;
                         error := None; fallback_response := None |}
        end
  end end end end.

End LlmReply.

(** ** Chat messages and spoken turns *)
Module Pipeline.
Import PyStr Llm.

(** The texts handed to the callback, in order. *)
Fixpoint chunk_texts (ev : list event) : list string :=
  match ev with
  | [] => []
  | Chunk text :: ev' => text :: chunk_texts ev'
  | Generate :: ev' => chunk_texts ev'
  end.

(** The four dictionaries that [handle_chat_message] returns. *)
Inductive chat_reply :=
| empty_message (socket_id timestamp : string)
| answered (message response socket_id timestamp day19_streaming_llm : string)
    (streaming_chunks_count : nat)
| llm_failed (error : string) (fallback_response : option string)
    (socket_id timestamp : string)
| crashed (error socket_id timestamp : string).

Definition none_has_no_len : string := "object of type 'NoneType' has no len()".

(** [handle_chat_message(socket_id, data)] for a dictionary [data] whose
    [message], if present, is a string; [now] is the clock reading at the
    return.  [collect_chunks] appends to a list and does not raise.  The
    calls of the generation backend are returned with the reply. *)
Definition handle_chat_message (e : env) (now socket_id : string)
    (data : option string) : list event * chat_reply :=
  let message := default "" data in
  if negb (truthy message) then ([], empty_message socket_id now)
  else
    let session_messages : list (string * string) := [] in
    let '(ev, r) :=
      generate_streaming_response e session_messages message None
        (Some (fun _ => None)) in
    let streaming_chunks := chunk_texts ev in
    match r with
    | Raises err => (ev, crashed err socket_id now)
    | Returns result =>
        if success result then
          match response result with
          | None => (ev, crashed none_has_no_len socket_id now)
          | Some response_text =>
              (ev, answered message response_text socket_id now
                     (str_of_nat (length streaming_chunks) +:+ " chunks")
                     (length streaming_chunks))
          end
        else
          (ev, llm_failed (default "LLM processing failed" (error result))
                 (fallback_response result) socket_id now)
    end.

(** The payloads of the [llm_error] event. *)
Inductive llm_error_payload :=
| not_configured (message transcript socket_id timestamp : string)
| failed (error : string) (fallback_response : option string)
    (transcript socket_id timestamp : string)
| critical (error transcript socket_id timestamp : string).

(** The events sent to a client with [flask_socketio.emit]. *)
Inductive client_event :=
| transcription (text socket_id timestamp : string)
| turn_detected (message type transcript socket_id timestamp confidence : string)
| llm_streaming_chunk (chunk : string) (chunk_number : nat)
    (transcript socket_id timestamp : string)
| llm_streaming_complete (final_response : string)
    (chunk_count character_count : nat) (model_used session_id timestamp : string)
| llm_error (payload : llm_error_payload).

(** [streaming_callback] called on each text in turn, [chunk_counter]
    calls having been made before; [clock k] is the clock reading at the
    emission that follows [k] earlier ones. *)
Fixpoint streaming_callback (clock : nat -> string)
    (socket_id transcript : string) (chunk_counter : nat) (texts : list string)
  : list (string * client_event) :=
  match texts with
  | [] => []
  | chunk :: rest =>
      (socket_id,
       llm_streaming_chunk chunk (S chunk_counter) transcript socket_id
         (clock chunk_counter))
      :: streaming_callback clock socket_id transcript (S chunk_counter) rest
  end.

(** [_process_transcript_with_streaming_llm(socket_id, transcript)], with
    an [emit] that delivers: the calls of the generation backend, the
    events sent to the room of the socket, and the text for which the
    synthesis task was created, if it was ([asyncio.create_task] raises
    without a running event loop, which is caught). *)
Definition _process_transcript_with_streaming_llm (e : env)
    (clock : nat -> string) (loop_running : bool)
    (socket_id transcript : string) (w : Ws.service)
  : list event * list (string * client_event) * option string :=
  if negb (configured e) then
    ([],
     [(socket_id,
       llm_error (not_configured
                    "LLM service not configured. Please set GEMINI_API_KEY."
                    transcript socket_id (clock 0)))],
     None)
  else
    let session_messages : list (string * string) := [] in
    let '(ev, r) :=
      generate_streaming_response e session_messages transcript None
        (Some (fun _ => None)) in
    let chunk_counter := length (chunk_texts ev) in
    let sent := streaming_callback clock socket_id transcript 0 (chunk_texts ev) in
    let on_exception (err : string) :=
      (ev,
       sent ++ [(socket_id,
                 llm_error (critical ("Streaming LLM processing error: " +:+ err)
                              transcript socket_id (clock chunk_counter)))],
       None) in
    match r with
    | Raises err => on_exception err
    | Returns result =>
        if success result then
          match response result with
          | None => on_exception none_has_no_len
          | Some final_response =>
              let chunk_count := default chunk_counter (chunk_count result) in
              (ev,
               sent ++ [(socket_id,
                         llm_streaming_complete final_response chunk_count
                           (len final_response) "gemini-2.0-flash-exp"
                           socket_id (clock chunk_counter))],
               if bool_decide (socket_id ∈ Ws.murf_sessions w) && loop_running
               then Some final_response else None)
          end
        else
          match error result with
          | None => on_exception "'error'"
          | Some err =>
              (ev,
               sent ++ [(socket_id,
                         llm_error (failed err (fallback_response result)
                                      transcript socket_id (clock chunk_counter)))],
               None)
          end
    end.

(** [_on_transcription_received(socket_id, transcription)] *)
Definition _on_transcription_received (now socket_id text : string)
  : list (string * client_event) :=
  [(socket_id, transcription text socket_id now)].

(** [_on_turn_detected(socket_id, turn_data)] for the dictionary that the
    recognition service builds, which has every key. *)
Definition _on_turn_detected (e : env) (clock : nat -> string)
    (loop_running : bool) (socket_id : string) (turn_data : Stt.turn_data)
    (w : Ws.service)
  : list event * list (string * client_event) * option string :=
  let first :=
    (socket_id,
     turn_detected (Stt.td_message turn_data) (Stt.td_type turn_data)
       (Stt.td_transcript turn_data) socket_id (Stt.td_timestamp turn_data)
       (Stt.td_confidence turn_data)) in
  let transcript := strip (Stt.td_transcript turn_data) in
  if truthy transcript && (3 <? len transcript) then
    let '(ev, sent, task) :=
      _process_transcript_with_streaming_llm e clock loop_running socket_id
        transcript w in
    (ev, first :: sent, task)
  else ([], [first], None).

(** What the callbacks do for the calls that the recognition service made
    while it handled one message. *)
Fixpoint dispatch (e : env) (clock : nat -> string) (loop_running : bool)
    (now socket_id : string) (calls : list Stt.event) (w : Ws.service)
  : list event * list (string * client_event) * list string :=
  match calls with
  | [] => ([], [], [])
  | Stt.Transcription text :: rest =>
      let '(ev, sent, tasks) :=
        dispatch e clock loop_running now socket_id rest w in
      (ev, _on_transcription_received now socket_id text ++ sent, tasks)
  | Stt.Turn turn_data :: rest =>
      let '(ev1, sent1, task) :=
        _on_turn_detected e clock loop_running socket_id turn_data w in
      let '(ev2, sent2, tasks) :=
        dispatch e clock loop_running now socket_id rest w in
      (ev1 ++ ev2, sent1 ++ sent2,
       match task with Some text => text :: tasks | None => tasks end)
  end.

(** The coroutine [process_murf_and_stream] of the synthesis task: the
    audio events delivered and the service afterwards.  An exception that
    leaves the coroutine stays in the task. *)
Definition process_murf_and_stream (b : Murf.backend) (now now_iso : string)
    (clock : nat -> string) (socket_id final_response : string) (w : Ws.service)
  : list (string * Ws.sio_event) * Ws.service :=
  let '(murf_result, w') :=
    WsSessions.process_text_with_murf b now now_iso socket_id final_response w in
  if bool_decide (WsSessions.murf_status murf_result = "success") then
    match WsSessions.base64_audio murf_result with
    | Some audio =>
        ((Ws.stream_audio_to_client clock socket_id audio final_response w').1, w')
    | None => ([], w')
    end
  else ([], w').

(** The chunks spell the final response: they give it when joined, up to
    the cut of a long text, or they give it followed by a space. *)
Definition spells (texts : list string) (final_response : string) : Prop :=
  final_response = truncate (concat_all texts)
  ∨ concat_all texts = final_response +:+ " ".

(** What a run of [generate_streaming_response] looks like from the
    callback: nothing was delivered before an exception; a success has a
    response that the delivered chunks spell, and a chunk count, if any,
    that is their number; a failure has an error text. *)
Definition reply_shape (run : list event * outcome result) : Prop :=
  match run.2 with
  | Raises _ => chunk_texts run.1 = []
  | Returns r =>
      if success r then
        ∃ final, response r = Some final ∧
          default (length (chunk_texts run.1)) (chunk_count r)
          = length (chunk_texts run.1) ∧
          spells (chunk_texts run.1) final
      else error r ≠ None
  end.

(** The last event closes a reply that was sent in [n] chunks. *)
Definition closes (n : nat) (texts : list string) (last : client_event) : Prop :=
  match last with
  | llm_streaming_complete final_response chunk_count character_count
      model_used _ _ =>
      chunk_count = n ∧ character_count = len final_response ∧
      model_used = "gemini-2.0-flash-exp" ∧ spells texts final_response
  | llm_error (failed _ _ _ _ _) => True
  | llm_error (critical _ _ _ _) => True
  | _ => False
  end.

End Pipeline.

(** ** Sequences of operations on the socket service *)
Module WsRuns.
Import Ws WsSessions.

(** A call of one of the methods of [WebSocketService] that change its
    state, with what the outside does during the call. *)
Inductive operation :=
| Register (now sid socket_id : string)
| Unregister (loop_running : bool) (socket_id : string)
| Echo (now socket_id message : string)
| StartTranscription (net : Stt.ws_outcome) (now socket_id : string)
| StopTranscription (socket_id : string)
| StartMurf (backend : Murf.connect_outcome) (socket_id : string)
| StopMurf (socket_id : string)
| ProcessText (b : Murf.backend) (now now_iso socket_id text : string).

(** The service after the call. *)
Definition perform (o : operation) (w : service) : service :=
  match o with
  | Register now sid socket_id => register_session now sid socket_id w
  | Unregister loop_running socket_id =>
      (unregister_session loop_running socket_id w).1.1.1
  | Echo now socket_id message => (handle_echo_message now socket_id message w).2
  | StartTranscription net now socket_id =>
      (start_realtime_transcription net now socket_id w).1.2
  | StopTranscription socket_id => (stop_realtime_transcription socket_id w).1
  | StartMurf backend socket_id => (start_murf_websocket backend socket_id w).2
  | StopMurf socket_id => (stop_murf_websocket socket_id w).1
  | ProcessText b now now_iso socket_id text =>
      (process_text_with_murf b now now_iso socket_id text w).2
  end.

Definition perform_all (ops : list operation) (w : service) : service :=
  fold_left (fun w o => perform o w) ops w.

End WsRuns.

(** * Properties *)

(** ** Strings *)
Section StringFacts.
Import PyStr.

Lemma append_cons (c : ascii) (a b : string) :
  String c a +:+ b = String c (a +:+ b).
Proof. reflexivity. Qed.

Lemma append_empty_l (b : string) : EmptyString +:+ b = b.
Proof. reflexivity. Qed.

Lemma append_empty_r (a : string) : a +:+ EmptyString = a.
Proof. induction a as [|c a IH]; [done|]. by rewrite append_cons, IH. Qed.

Lemma append_assoc (a b c : string) : (a +:+ b) +:+ c = a +:+ (b +:+ c).
Proof.
  induction a as [|x a IH]; [done|]. by rewrite !append_cons, IH.
Qed.

Lemma len_append (a b : string) : len (a +:+ b) = len a + len b.
Proof.
  induction a as [|c a IH]; [done|].
  rewrite append_cons. simpl. by rewrite IH.
Qed.

Lemma len_take_str (n : nat) (s : string) : len (take_str n s) = n `min` len s.
Proof.
  revert s; induction n as [|n IH]; intros [|c s]; simpl; try done.
  by rewrite IH.
Qed.

Lemma take_drop_str (n : nat) (s : string) : take_str n s +:+ drop_str n s = s.
Proof.
  revert s; induction n as [|n IH]; intros [|c s]; simpl; try done.
  rewrite append_cons. f_equal. apply IH.
Qed.

Lemma drop_str_ge (n : nat) (s : string) : (len s <= n)%nat → drop_str n s = EmptyString.
Proof.
  revert s; induction n as [|n IH]; intros [|c s]; simpl; intros H; try done.
  - lia.
  - apply IH. lia.
Qed.

Lemma drop_drop_str (n m : nat) (s : string) :
  drop_str n (drop_str m s) = drop_str (m + n) s.
Proof.
  revert s; induction m as [|m IH]; intros s; simpl; [done|].
  destruct s as [|c s]; [by destruct n | apply IH].
Qed.

Lemma len_drop_str (n : nat) (s : string) : len (drop_str n s) = len s - n.
Proof.
  revert s; induction n as [|n IH]; intros [|c s]; simpl; done.
Qed.

Lemma len_concat_all (l : list string) :
  len (concat_all l) = Trace.sum (map len l).
Proof.
  induction l as [|x l IH]; simpl; [done|]. by rewrite len_append, IH.
Qed.

Lemma len_repeat_char (c : ascii) (n : nat) : len (repeat_char c n) = n.
Proof. induction n; simpl; [done | by f_equal]. Qed.

End StringFacts.

(** ** Chunked delivery of an audio payload *)
Section AudioStreaming.
Import PyStr Ws Trace.

Variable chunk : nat.
Hypothesis chunk_pos : 0 < chunk.

Lemma range_go_concat (s : string) (fuel i : nat) :
  len s - i ≤ fuel →
  concat_all (map (fun j => slice j (j + chunk) s) (range_go fuel i (len s) chunk))
  = drop_str i s.
Proof using chunk_pos.
  revert i; induction fuel as [|fuel IH]; intros i Hf; simpl.
  - symmetry. apply drop_str_ge. lia.
  - destruct (Nat.ltb_spec i (len s)) as [Hlt|Hge]; simpl.
    + rewrite IH by lia. unfold slice.
      replace (i + chunk - i) with chunk by lia.
      rewrite <- drop_drop_str. apply take_drop_str.
    + symmetry. apply drop_str_ge. lia.
Qed.

Lemma split_audio_concat (s : string) : concat_all (split_audio chunk s) = s.
Proof using chunk_pos.
  unfold split_audio, range. rewrite range_go_concat by lia. done.
Qed.

Lemma split_audio_sizes (s : string) :
  sum (map len (split_audio chunk s)) = len s.
Proof using chunk_pos.
  rewrite <- len_concat_all, split_audio_concat. done.
Qed.

Lemma range_go_length (stop fuel i : nat) :
  stop - i ≤ fuel →
  length (range_go fuel i stop chunk) = (stop - i + chunk - 1) / chunk.
Proof using chunk_pos.
  revert i; induction fuel as [|fuel IH]; intros i Hf; simpl.
  - replace (stop - i + chunk - 1) with (chunk - 1) by lia.
    symmetry. apply Nat.div_small. lia.
  - destruct (Nat.ltb_spec i stop) as [Hlt|Hge]; simpl.
    + rewrite IH by lia.
      destruct (Nat.le_gt_cases stop (i + chunk)) as [Hle|Hgt].
      * replace (stop - (i + chunk) + chunk - 1) with (chunk - 1) by lia.
        rewrite Nat.div_small by lia.
        replace (stop - i + chunk - 1) with (1 * chunk + (stop - i - 1)) by lia.
        rewrite Nat.div_add_l by lia.
        rewrite Nat.div_small by lia. done.
      * replace (stop - i + chunk - 1)
          with (1 * chunk + (stop - (i + chunk) + chunk - 1)) by lia.
        rewrite Nat.div_add_l by lia. lia.
    + replace (stop - i + chunk - 1) with (chunk - 1) by lia.
      symmetry. apply Nat.div_small. lia.
Qed.

Lemma split_audio_length (s : string) :
  length (split_audio chunk s) = (len s + chunk - 1) / chunk.
Proof using chunk_pos.
  unfold split_audio, range. rewrite length_map, range_go_length by lia.
  by rewrite Nat.sub_0_r.
Qed.

End AudioStreaming.

Section ChunkLoop.
Import PyStr Ws Trace.

Variables (clock : nat → string) (socket_id text : string) (total : nat).

Lemma chunks_of_app (a b : list (string * sio_event)) :
  chunks_of (a ++ b) = chunks_of a ++ chunks_of b.
Proof.
  induction a as [|[r ev] a IH]; simpl; [done|].
  destruct ev; simpl; by rewrite ?IH.
Qed.

Lemma completions_of_app (a b : list (string * sio_event)) :
  completions_of (a ++ b) = completions_of a ++ completions_of b.
Proof.
  induction a as [|[r ev] a IH]; simpl; [done|].
  destruct ev; simpl; by rewrite ?IH.
Qed.

Lemma chunk_events_index (index : nat) (cs : list string) :
  map chunk_index (chunks_of (chunk_events clock socket_id text total index cs))
  = seq (index + 1) (length cs).
Proof.
  revert index; induction cs as [|c cs IH]; intros index; simpl; [done|].
  rewrite IH. by replace (index + 1 + 1) with (S (index + 1)) by lia.
Qed.

Lemma chunk_events_total (index : nat) (cs : list string) :
  Forall (fun c => total_chunks c = total)
         (chunks_of (chunk_events clock socket_id text total index cs)).
Proof.
  revert index; induction cs as [|c cs IH]; intros index; simpl; auto.
Qed.

Lemma chunk_events_sizes (index : nat) (cs : list string) :
  map chunk_size (chunks_of (chunk_events clock socket_id text total index cs))
  = map len cs.
Proof.
  revert index; induction cs as [|c cs IH]; intros index; simpl; [done|].
  by rewrite IH.
Qed.

Lemma chunk_events_payload (index : nat) (cs : list string) :
  map chunk_payload (chunks_of (chunk_events clock socket_id text total index cs))
  = cs.
Proof.
  revert index; induction cs as [|c cs IH]; intros index; simpl; [done|].
  by rewrite IH.
Qed.

Lemma chunk_events_no_completion (index : nat) (cs : list string) :
  completions_of (chunk_events clock socket_id text total index cs) = [].
Proof.
  revert index; induction cs as [|c cs IH]; intros index; simpl; auto.
Qed.

(** Without a [socketio] attribute the loop delivers nothing. *)
Lemma stream_chunks_detached (index : nat) (cs : list string) :
  stream_chunks None clock socket_id text total index cs = ([], None).
Proof.
  revert index; induction cs as [|c cs IH]; intros index; simpl; [done|].
  by rewrite IH.
Qed.

(** With one, it delivers the chunks in order up to the first emission
    that raises. *)
Lemma stream_chunks_attached (e : emitter) (index : nat) (cs : list string) :
  ∃ k, k ≤ length cs ∧
    fst (stream_chunks (Some e) clock socket_id text total index cs)
    = chunk_events clock socket_id text total index (take k cs) ∧
    (snd (stream_chunks (Some e) clock socket_id text total index cs) = None
     → k = length cs).
Proof.
  revert index; induction cs as [|c cs IH]; intros index; simpl.
  - exists 0. done.
  - destruct (e socket_id _) as [err|] eqn:He; simpl.
    + exists 0. split; [lia|]. split; [done|]. done.
    + destruct (IH (index + 1)) as (k & Hk & Hfst & Hsnd).
      destruct (stream_chunks _ _ _ _ _ _ cs) as [sent r]; simpl in *.
      exists (S k). split; [lia|]. split.
      * simpl. by rewrite Hfst.
      * intros Hr. f_equal. by apply Hsnd.
Qed.

Lemma stream_chunks_all_delivered (e : emitter) (index : nat) (cs : list string) :
  (∀ room ev, e room ev = None) →
  stream_chunks (Some e) clock socket_id text total index cs
  = (chunk_events clock socket_id text total index cs, None).
Proof.
  intros He. revert index; induction cs as [|c cs IH]; intros index; simpl.
  - done.
  - rewrite He, IH. done.
Qed.

End ChunkLoop.

Section StreamAudio.
Import PyStr Ws Trace.

Lemma audio_chunk_size_pos : 0 < audio_chunk_size.
Proof. unfold audio_chunk_size. lia. Qed.

Lemma chunks_of_error_emit (sio : option emitter) (room err ts : string) :
  chunks_of (fst (emit sio room (audio_stream_error err ts))) = [] ∧
  completions_of (fst (emit sio room (audio_stream_error err ts))) = [].
Proof.
  unfold emit. destruct sio as [e|]; [|done].
  destruct (e room _); done.
Qed.

(** The shape of every run: a prefix of the chunk events, then events that
    are no chunks, among them at most the completion event. *)
Lemma stream_audio_shape (clock : nat → string)
    (socket_id audio text : string) (w : service) :
  let run := stream_audio_to_client clock socket_id audio text w in
  let chunks := split_audio audio_chunk_size audio in
  let N := length chunks in
  ∃ k tail r,
    k ≤ N ∧
    run = (chunk_events clock socket_id text N 0 (take k chunks) ++ tail, r) ∧
    chunks_of tail = [] ∧
    (completions_of tail = [] ∨
     (k = N ∧ completions_of tail = [(N, len audio)])) ∧
    (∀ e, socketio w = Some e → (∀ room ev, e room ev = None) →
       k = N ∧ completions_of tail = [(N, len audio)] ∧ r = None).
Proof.
  intros run chunks N. unfold run, stream_audio_to_client. fold chunks N.
  destruct (socketio w) as [e|] eqn:Hsio.
  - destruct (stream_chunks_attached clock socket_id text N e 0 chunks)
      as (k & Hk & Hfst & Hsnd).
    fold N in Hk, Hsnd.
    destruct (stream_chunks (Some e) clock socket_id text N 0 chunks)
      as [sent [err|]] eqn:Hrun; simpl in Hfst, Hsnd.
    + (* an emission of the loop raised *)
      pose proof (chunks_of_error_emit (Some e) socket_id err (clock (S N)))
        as [Hc He].
      destruct (emit (Some e) socket_id (audio_stream_error err (clock (S N))))
        as [sent' r'] eqn:Hemit; simpl in Hc, He. simpl.
      exists k, sent', r'. rewrite Hfst.
      split; [done|]. split; [done|]. split; [done|]. split; [by left|].
      intros e' [= <-] Hall.
      rewrite (stream_chunks_all_delivered _ _ _ _ _ _ _ Hall) in Hrun.
      done.
    + (* the loop went through *)
      specialize (Hsnd eq_refl). subst k.
      unfold emit at 1.
      destruct (e socket_id (audio_stream_complete N (len audio) text (clock N)))
        as [err|] eqn:Hcomp.
      * pose proof (chunks_of_error_emit (Some e) socket_id err (clock (S N)))
          as [Hc He].
        destruct (emit (Some e) socket_id (audio_stream_error err (clock (S N))))
          as [sent' r'] eqn:Hemit; simpl in Hc, He. simpl.
        exists N, sent', r'. rewrite app_nil_r, Hfst.
        split; [done|]. split; [done|]. split; [done|]. split; [by left|].
        intros e' [= <-] Hall. by rewrite Hall in Hcomp.
      * simpl.
        exists N, [(socket_id, audio_stream_complete N (len audio) text (clock N))], None.
        rewrite Hfst.
        split; [done|]. split; [done|]. split; [done|]. split; [by right|].
        done.
  - rewrite stream_chunks_detached. simpl.
    exists 0, [], None.
    split; [lia|]. split; [done|]. split; [done|]. split; [by left|].
    intros e' [=].
Qed.

(** C1. Whatever the [socketio] object does, the chunks that
    [stream_audio_to_client] delivers are numbered 1, 2, ..., k without a
    gap, for some k up to N = ceil(len(audio) / 1024); each of them
    carries [total_chunks = N], the length of the chunk list built before
    the loop starts; a delivered [audio_stream_complete] event declares
    exactly [(N, len(audio))], and then all N chunks were delivered, their
    [chunk_size] values sum to the declared [total_size] and their payloads
    concatenate to the audio.  When a [socketio] object is attached and no
    emission raises, the completion event is delivered. *)
Theorem stream_audio_chunk_sequence (clock : nat → string)
    (socket_id audio text : string) (w : service) :
  let run := stream_audio_to_client clock socket_id audio text w in
  let N := length (split_audio audio_chunk_size audio) in
  let cs := chunks_of (fst run) in
  N = (len audio + 1023) / 1024 ∧
  (∃ k, k ≤ N ∧ map chunk_index cs = seq 1 k) ∧
  Forall (fun c => total_chunks c = N) cs ∧
  (∀ comp, comp ∈ completions_of (fst run) →
     comp = (N, len audio) ∧
     map chunk_index cs = seq 1 N ∧
     sum (map chunk_size cs) = len audio ∧
     concat_all (map chunk_payload cs) = audio) ∧
  (∀ e, socketio w = Some e → (∀ room ev, e room ev = None) →
     completions_of (fst run) = [(N, len audio)] ∧ snd run = None).
Proof.
  intros run N cs.
  destruct (stream_audio_shape clock socket_id audio text w)
    as (k & tail & r & Hk & Hrun & Htail & Hcomp & Hlive).
  fold run N in Hk, Hrun, Hcomp, Hlive.
  assert (Hcs : cs = chunks_of (chunk_events clock socket_id text N 0
                       (take k (split_audio audio_chunk_size audio)))).
  { unfold cs. rewrite Hrun. simpl. by rewrite chunks_of_app, Htail, app_nil_r. }
  assert (Hcp : completions_of (fst run) = completions_of tail).
  { rewrite Hrun. simpl. by rewrite completions_of_app, chunk_events_no_completion. }
  split.
  { unfold N. rewrite (split_audio_length _ audio_chunk_size_pos).
    unfold audio_chunk_size. f_equal. lia. }
  split.
  { exists k. split; [done|].
    rewrite Hcs, chunk_events_index, length_take. simpl. f_equal.
    fold N. lia. }
  split.
  { rewrite Hcs. apply chunk_events_total. }
  split.
  - intros comp Hin. rewrite Hcp in Hin.
    destruct Hcomp as [Hnone | [-> Hone]].
    + rewrite Hnone in Hin. by apply elem_of_nil in Hin.
    + rewrite Hone in Hin. apply list_elem_of_singleton in Hin.
      rewrite take_ge in Hcs by (unfold N; lia).
      rewrite Hcs, chunk_events_index, chunk_events_sizes, chunk_events_payload.
      repeat split; auto.
      * apply (split_audio_sizes _ audio_chunk_size_pos).
      * apply (split_audio_concat _ audio_chunk_size_pos).
  - intros e Hsio Hall. rewrite Hcp.
    destruct (Hlive e Hsio Hall) as (_ & Hone & Hret).
    split; [done|]. rewrite Hrun. done.
Qed.

End StreamAudio.

Section StreamAudioExample.
Import PyStr Ws Trace.

(** A service with a [socketio] object that delivers everything, and a
    payload of 2500 characters: three chunks and the completion event. *)
Lemma stream_audio_chunk_sequence_witness :
  let w := set_socketio (fun _ _ => None) (init None None) in
  let run :=
    stream_audio_to_client (fun _ => "12:00:00") "sock" (repeat_char "Q" 2500)
      "hello" w in
  completions_of (fst run) = [(3, 2500)] ∧
  map chunk_index (chunks_of (fst run)) = [1; 2; 3] ∧
  map chunk_size (chunks_of (fst run)) = [1024; 1024; 452].
Proof.
  intros w run.
  destruct (stream_audio_chunk_sequence (fun _ => "12:00:00") "sock"
              (repeat_char "Q" 2500) "hello" w)
    as (HN & _ & _ & Hcomp & Hlive).
  destruct (Hlive (fun _ _ => None) eq_refl (fun _ _ => eq_refl)) as [Hc _].
  fold run in Hc, Hcomp.
  split.
  - rewrite Hc. rewrite HN. vm_compute. reflexivity.
  - split; vm_compute; reflexivity.
Defined.

End StreamAudioExample.

(** ** Session registry *)
Section Registry.
Import Ws.

(** A service in which socket [sock-1] is registered and its recognition
    stream is open, reached from [__init__] by the operations themselves. *)
Lemma streaming_state_reached :
  let w0 := init (Some "0123456789abcdef") None in
  let w1 := register_session "12:00:00" "session-A" "sock-1" w0 in
  let w2 := (start_realtime_transcription Stt.WsOpened "12:00:01" "sock-1" w1).1.2 in
  is_Some (active_sessions w2 !! "sock-1") ∧
  Stt.is_streaming (stt_service w2) = true ∧
  transcription_sessions w2 !! "sock-1" = Some "12:00:01".
Proof. vm_compute. split; [by eexists|]. split; reflexivity. Qed.

(** C2, as stated, fails: registering [sock-1] a second time while its
    recognition stream is open leaves the stream open and the
    transcription session in place. *)
Lemma register_session_keeps_stream_open :
  let w0 := init (Some "0123456789abcdef") None in
  let w1 := register_session "12:00:00" "session-A" "sock-1" w0 in
  let w2 := (start_realtime_transcription Stt.WsOpened "12:00:01" "sock-1" w1).1.2 in
  let w3 := register_session "12:00:02" "session-B" "sock-1" w2 in
  is_Some (active_sessions w2 !! "sock-1") ∧
  Stt.is_streaming (stt_service w2) = true ∧
  Stt.is_streaming (stt_service w3) = true ∧
  Stt.is_connected (stt_service w3) = true ∧
  transcription_sessions w3 !! "sock-1" = Some "12:00:01".
Proof.
  vm_compute. split; [by eexists|]. repeat split; reflexivity.
Qed.

(** C2, amended.  Registering a socket id that is already registered
    replaces its session record (new session id, new [connected_at],
    [message_count] back to 0) and its audio-stream record, keeps the
    number of registered sessions and the records of the other sockets,
    and leaves the recognition service, the transcription sessions, the
    synthesis service and the synthesis sessions exactly as they were:
    nothing is stopped. *)
Theorem register_session_replaces_only (now sid socket_id : string) (w : service) :
  is_Some (active_sessions w !! socket_id) →
  let w' := register_session now sid socket_id w in
  active_sessions w' !! socket_id
    = Some {| session_id := sid; connected_at := now; message_count := 0 |} ∧
  audio_streams w' !! socket_id
    = Some {| chunks_sent := 0; total_size := 0; start_time := now;
              active := false |} ∧
  get_active_sessions_count w' = get_active_sessions_count w ∧
  (∀ other, other ≠ socket_id →
     active_sessions w' !! other = active_sessions w !! other ∧
     audio_streams w' !! other = audio_streams w !! other) ∧
  stt_service w' = stt_service w ∧
  transcription_sessions w' = transcription_sessions w ∧
  active_transcriptions w' = active_transcriptions w ∧
  murf_service w' = murf_service w ∧
  murf_sessions w' = murf_sessions w.
Proof.
  intros [old Hold] w'. unfold w', register_session, get_active_sessions_count.
  simpl. split; [apply lookup_insert_eq|]. split; [apply lookup_insert_eq|].
  split.
  { rewrite <- (insert_id (active_sessions w) socket_id old Hold) at 2.
    rewrite <- (insert_delete_eq (active_sessions w)).
    rewrite <- (insert_delete_eq (active_sessions w) socket_id old).
    rewrite !map_size_insert_None by apply lookup_delete_eq. done. }
  split.
  { intros other Hne. by rewrite !lookup_insert_ne. }
  done.
Qed.

Lemma register_session_replaces_only_witness :
  let w0 := init (Some "0123456789abcdef") None in
  let w1 := register_session "12:00:00" "session-A" "sock-1" w0 in
  let w2 := (start_realtime_transcription Stt.WsOpened "12:00:01" "sock-1" w1).1.2 in
  let w3 := register_session "12:00:02" "session-B" "sock-1" w2 in
  get_active_sessions_count w3 = 1 ∧ stt_service w3 = stt_service w2.
Proof.
  intros w0 w1 w2 w3.
  assert (Hreg : is_Some (active_sessions w2 !! "sock-1")).
  { vm_compute. by eexists. }
  destruct (register_session_replaces_only "12:00:02" "session-B" "sock-1" w2 Hreg)
    as (_ & _ & Hcount & _ & Hstt & _).
  fold w3 in Hcount, Hstt. split; [|exact Hstt].
  rewrite Hcount. vm_compute. reflexivity.
Defined.

End Registry.

(** ** Starting recognition without credentials *)
Section Recognition.
Import Ws.

(** C4. Without recognition credentials, [start_realtime_transcription]
    returns status [error] with the configuration message whatever the
    network would do, attempts no connection, and leaves the whole service
    (so also the transcription sessions and the streaming flag) as it was;
    the recognition service itself refuses likewise. *)
Theorem start_transcription_unconfigured (net : Stt.ws_outcome)
    (now socket_id : string) (w : service) :
  Stt.api_key (stt_service w) = None →
  start_realtime_transcription net now socket_id w
    = ({| status := "error";
          message := "AssemblyAI API key not configured. Please set ASSEMBLYAI_API_KEY environment variable.";
          result_session_id := None |}, w, []) ∧
  (∀ cb tcb,
     Stt.start_streaming_transcription net cb tcb (stt_service w)
       = (false, stt_service w, [])).
Proof.
  intros Hkey. unfold start_realtime_transcription,
    Stt.start_streaming_transcription, Stt.is_configured.
  rewrite Hkey. simpl. done.
Qed.

Lemma start_transcription_unconfigured_witness :
  let w := register_session "12:00:00" "session-A" "sock-1" (init None None) in
  let r := start_realtime_transcription Stt.WsOpened "12:00:01" "sock-1" w in
  status r.1.1 = "error" ∧ r.2 = [] ∧
  transcription_sessions r.1.2 !! "sock-1" = None ∧
  Stt.is_streaming (stt_service r.1.2) = false.
Proof.
  intros w r.
  destruct (start_transcription_unconfigured Stt.WsOpened "12:00:01" "sock-1" w
              eq_refl) as [Hr _].
  fold r in Hr. rewrite Hr. simpl.
  split; [reflexivity|]. split; [reflexivity|]. split; vm_compute; reflexivity.
Defined.

(** A key of at most ten characters counts as absent from [__init__] on. *)
Lemma short_key_is_no_key (k : string) :
  PyStr.len (PyStr.strip k) ≤ 10 → Stt.api_key (Stt.init (Some k)) = None.
Proof.
  intros H. unfold Stt.init. simpl.
  destruct (Nat.ltb_spec 10 (PyStr.len (PyStr.strip k))); [lia|].
  by rewrite andb_false_r.
Qed.

End Recognition.

(** ** Connecting to the synthesis backend *)
Section MurfConnect.
Import Murf.

Lemma connect_false_iff (backend : connect_outcome) (m : service) :
  (connect backend m).1 = false ↔ is_configured m = false.
Proof.
  unfold connect. destruct (is_configured m); simpl; [|done].
  destruct backend; simpl; split; discriminate.
Qed.

Lemma connect_raises_configured (err : string) (m : service) :
  is_configured m = true →
  connect (ConnectRaises err) m
  = (true, {| api_key := api_key m; websocket := websocket m;
              is_connected := false; context_id := context_id m;
              websocket_url := websocket_url m |}).
Proof. intros H. unfold connect. by rewrite H. Qed.

(** C10. With a key configured, [connect] returns [True] also when the
    connection attempt raises, leaving [is_connected] false and the
    websocket as it was; [start_murf_websocket] then reports [connected]
    and adds the socket to the synthesis sessions although the service is
    not connected.  [connect] returns [False] exactly when the key is
    absent. *)
Theorem connect_true_on_failure (err socket_id : string) (w : Ws.service) :
  is_configured (Ws.murf_service w) = true →
  let m := Ws.murf_service w in
  let r := Ws.start_murf_websocket (ConnectRaises err) socket_id w in
  (connect (ConnectRaises err) m).1 = true ∧
  is_connected (connect (ConnectRaises err) m).2 = false ∧
  websocket (connect (ConnectRaises err) m).2 = websocket m ∧
  Ws.status r.1 = "connected" ∧
  Ws.result_session_id r.1 = Some socket_id ∧
  socket_id ∈ Ws.murf_sessions r.2 ∧
  is_connected (Ws.murf_service r.2) = false ∧
  (∀ backend m', (connect backend m').1 = false ↔ is_configured m' = false).
Proof.
  intros Hconf m r. unfold r, Ws.start_murf_websocket. subst m.
  rewrite (connect_raises_configured err _ Hconf). simpl.
  split; [done|]. split; [done|]. split; [done|]. split; [done|].
  split; [done|]. split; [set_solver|]. split; [done|].
  intros backend m'. apply connect_false_iff.
Qed.

Lemma connect_true_on_failure_witness :
  let w := Ws.init None (Some "murf-key") in
  let r := Ws.start_murf_websocket (ConnectRaises "connection refused") "sock-1" w in
  Ws.status r.1 = "connected" ∧ "sock-1" ∈ Ws.murf_sessions r.2 ∧
  is_connected (Ws.murf_service r.2) = false.
Proof.
  intros w r.
  destruct (connect_true_on_failure "connection refused" "sock-1" w eq_refl)
    as (_ & _ & _ & Hs & _ & Hin & Hc & _).
  fold r in Hs, Hin, Hc. done.
Defined.

(** Without a key the session is not added. *)
Lemma start_murf_unconfigured (backend : connect_outcome) (socket_id : string)
    (w : Ws.service) :
  is_configured (Ws.murf_service w) = false →
  Ws.status (Ws.start_murf_websocket backend socket_id w).1 = "error" ∧
  Ws.murf_sessions (Ws.start_murf_websocket backend socket_id w).2
    = Ws.murf_sessions w.
Proof.
  intros Hconf. unfold Ws.start_murf_websocket, connect. rewrite Hconf. done.
Qed.

End MurfConnect.

(** ** Whitespace *)
Section Whitespace.
Import PyStr.

Lemma lstrip_all_space (s : string) : all_space (lstrip s) = all_space s.
Proof.
  induction s as [|c s IH]; simpl; [done|].
  destruct (is_space c) eqn:Hc; simpl; [done|]. by rewrite Hc.
Qed.

Lemma rstrip_empty_iff (s : string) :
  rstrip s = EmptyString ↔ all_space s = true.
Proof.
  induction s as [|c s IH]; simpl; [done|].
  destruct (rstrip s) as [|d r] eqn:Hr.
  - destruct (is_space c); simpl.
    + split; [intros _; by apply IH | done].
    + split; discriminate.
  - split; [discriminate|].
    intros H. apply andb_true_iff in H as [_ H]. apply IH in H. discriminate.
Qed.

Lemma strip_empty_iff (s : string) :
  strip s = EmptyString ↔ all_space s = true.
Proof. unfold strip. by rewrite rstrip_empty_iff, lstrip_all_space. Qed.

Lemma truthy_false_iff (s : string) : truthy s = false ↔ s = EmptyString.
Proof. destruct s; simpl; split; congruence. Qed.

(** [not text or not text.strip()] says that [text] is blank. *)
Lemma blank_test (text : string) :
  negb (truthy text) || negb (truthy (strip text)) = all_space text.
Proof.
  destruct (all_space text) eqn:Hb.
  - apply strip_empty_iff in Hb. rewrite Hb. simpl. apply orb_true_r.
  - destruct text as [|c t]; [discriminate|]. simpl truthy at 1. simpl negb at 1.
    rewrite orb_false_l.
    destruct (truthy (strip (String c t))) eqn:Ht; [done|].
    apply truthy_false_iff, strip_empty_iff in Ht. congruence.
Qed.

End Whitespace.

(** ** The mock payload *)
Section MockPayload.
Import PyStr Murf.

(** The payload is never empty and its length is a multiple of 200. *)
Lemma mock_length (now text : string) :
  0 < len (_generate_mock_base64_audio now text) ∧
  len (_generate_mock_base64_audio now text) mod 200 = 0.
Proof.
  unfold _generate_mock_base64_audio.
  set (b := Base64.b64encode _).
  rewrite len_append, len_repeat_char.
  pose proof (Nat.mod_upper_bound (len b) 200 ltac:(lia)) as Hlt.
  split; [lia|].
  rewrite (Nat.div_mod_eq (len b) 200) at 1.
  replace (200 * (len b / 200) + len b mod 200 + (200 - len b mod 200))
    with ((len b / 200 + 1) * 200) by lia.
  apply Nat.Div0.mod_mul.
Qed.

Lemma mock_truthy (now text : string) :
  truthy (_generate_mock_base64_audio now text) = true.
Proof.
  destruct (mock_length now text) as [Hpos _].
  destruct (_generate_mock_base64_audio now text); simpl in *; [lia | done].
Qed.

(** It depends on the text through its length only. *)
Lemma mock_depends_on_length (now t1 t2 : string) :
  len t1 = len t2 →
  _generate_mock_base64_audio now t1 = _generate_mock_base64_audio now t2.
Proof. intros H. unfold _generate_mock_base64_audio. by rewrite H. Qed.

End MockPayload.

(** ** Synthesis requests *)
Section SendText.
Import PyStr Murf.

(** What a call answers for a text that is not blank: the mock payload,
    or the audio of a success response that was sent for and received. *)
Lemma send_text_cases (b : backend) (now text : string) (m : service) :
  all_space text = false →
  (send_text_for_tts b now text m).1 = Some (_generate_mock_base64_audio now text)
  ∨ ∃ audio,
      (send_text_for_tts b now text m).1 = Some audio ∧
      truthy audio = true ∧
      on_send b = SendOk ∧
      on_recv b = RecvData (JsonObject (Some "success") (Some audio)) ∧
      (is_connected m = true ∨ is_configured m = true) ∧
      ¬ (is_connected m = false ∧ websocket m = None).
Proof.
  intros Hb. unfold send_text_for_tts. rewrite blank_test, Hb.
  destruct (is_connected m) eqn:Hc; simpl.
  - destruct (websocket m) as [ws|] eqn:Hw; [|by left].
    destruct (on_send b) eqn:Hs; [|by left].
    destruct (on_recv b) as [| |[| |[st|] [audio|]]] eqn:Hr; try by left.
    destruct (String.eqb_spec st "success") as [->|]; [|by left].
    destruct (truthy audio) eqn:Ha; [|by left].
    right. exists audio. repeat split; auto. intros [? _]. done.
  - destruct (websocket m) as [ws|] eqn:Hw; simpl; [|by left].
    unfold connect. destruct (is_configured m) eqn:Hk; simpl; [|by left].
    destruct (on_connect b) as [ws'|err]; simpl.
    + destruct (on_send b) eqn:Hs; [|by left].
      destruct (on_recv b) as [| |[| |[st|] [audio|]]] eqn:Hr; try by left.
      destruct (String.eqb_spec st "success") as [->|]; [|by left].
      destruct (truthy audio) eqn:Ha; [|by left].
      right. exists audio. repeat split; auto. intros [_ ?]. done.
    + rewrite Hw.
      destruct (on_send b) eqn:Hs; [|by left].
      destruct (on_recv b) as [| |[| |[st|] [audio|]]] eqn:Hr; try by left.
      destruct (String.eqb_spec st "success") as [->|]; [|by left].
      destruct (truthy audio) eqn:Ha; [|by left].
      right. exists audio. repeat split; auto. intros [_ ?]. done.
Qed.

(** C9. [send_text_for_tts] returns [None] exactly for a text that is
    empty or all whitespace, whatever the backend does; for any other text
    it returns a non-empty string, which is the mock payload unless the
    backend answered the request with a success response carrying audio. *)
Theorem send_text_none_iff_blank (b : backend) (now text : string) (m : service) :
  ((send_text_for_tts b now text m).1 = None ↔ all_space text = true) ∧
  (all_space text = false →
   ∃ audio,
     (send_text_for_tts b now text m).1 = Some audio ∧
     truthy audio = true ∧
     (audio = _generate_mock_base64_audio now text ∨
      on_recv b = RecvData (JsonObject (Some "success") (Some audio)))).
Proof.
  assert (Hsome : all_space text = false →
    ∃ audio,
      (send_text_for_tts b now text m).1 = Some audio ∧
      truthy audio = true ∧
      (audio = _generate_mock_base64_audio now text ∨
       on_recv b = RecvData (JsonObject (Some "success") (Some audio)))).
  { intros Hb.
    destruct (send_text_cases b now text m Hb) as [H | (audio & H & Ha & _ & Hr & _)].
    - eexists. split; [exact H|]. split; [apply mock_truthy | by left].
    - exists audio. split; [exact H|]. split; [exact Ha | by right]. }
  split; [|exact Hsome].
  split.
  - intros Hnone. destruct (all_space text) eqn:Hb; [done|].
    destruct (Hsome eq_refl) as (audio & H & _). congruence.
  - intros Hb. unfold send_text_for_tts. by rewrite blank_test, Hb.
Qed.

Lemma send_text_none_iff_blank_witness :
  (send_text_for_tts (mk_backend (ConnectRaises "refused") SendOk RecvTimeout)
     "1730712345.123456" "Hello world" (init None)).1
  = Some (_generate_mock_base64_audio "1730712345.123456" "Hello world") ∧
  (send_text_for_tts (mk_backend (ConnectRaises "refused") SendOk RecvTimeout)
     "1730712345.123456" "   " (init None)).1 = None.
Proof.
  set (b := mk_backend (ConnectRaises "refused") SendOk RecvTimeout).
  split.
  - destruct (send_text_none_iff_blank b "1730712345.123456" "Hello world" (init None))
      as [_ Hsome].
    destruct (Hsome eq_refl) as (audio & H & _ & [-> | Hr]); [exact H|].
    discriminate Hr.
  - destruct (send_text_none_iff_blank b "1730712345.123456" "   " (init None))
      as [[_ Hnone] _].
    apply Hnone. reflexivity.
Defined.

(** C3, as stated, fails: two invocations for the same text, with the
    backend unconfigured, give different payloads when the clock has moved
    between them. *)
Lemma mock_payload_differs_between_calls :
  let b := mk_backend (ConnectRaises "refused") SendOk RecvTimeout in
  let first := (send_text_for_tts b "1730712345.123456" "Hello world" (init None)).1 in
  let second := (send_text_for_tts b "1730712346.654321" "Hello world" (init None)).1 in
  first = Some (_generate_mock_base64_audio "1730712345.123456" "Hello world") ∧
  second = Some (_generate_mock_base64_audio "1730712346.654321" "Hello world") ∧
  first ≠ second.
Proof.
  vm_compute. split; [reflexivity|]. split; [reflexivity|]. discriminate.
Qed.

(** C3, amended.  For a text that is not blank, whenever the synthesis
    backend is unconfigured, was never reached, cannot be sent to, times
    out, raises, or answers with an error, [send_text_for_tts] returns the
    mock payload instead of failing; the payload is generated from the
    length of the text and the clock reading of the call, so two
    invocations agree when both of these agree. *)
Theorem send_text_mock_on_failure (b : backend) (now text : string) (m : service) :
  all_space text = false →
  backend_failure b m →
  (send_text_for_tts b now text m).1 = Some (_generate_mock_base64_audio now text) ∧
  (∀ b' m' text', all_space text' = false → backend_failure b' m' →
     len text' = len text →
     (send_text_for_tts b' now text' m').1 = (send_text_for_tts b now text m).1).
Proof.
  assert (Hmock : ∀ b m text, all_space text = false → backend_failure b m →
    (send_text_for_tts b now text m).1 = Some (_generate_mock_base64_audio now text)).
  { clear. intros b m text Hb Hfail.
    destruct (send_text_cases b now text m Hb)
      as [H | (audio & H & Ha & Hs & Hr & Hconf & Hconn)]; [exact H|].
    exfalso. destruct Hfail as [Hk Hc | Hc Hw | err He | Ht | err He | r Hr' Herr].
    - destruct Hconf; congruence.
    - by apply Hconn.
    - congruence.
    - congruence.
    - congruence.
    - rewrite Hr in Hr'. injection Hr' as <-. simpl in Herr.
      rewrite Ha in Herr. discriminate. }
  intros Hb Hfail. split; [by apply Hmock|].
  intros b' m' text' Hb' Hfail' Hlen.
  rewrite (Hmock b' m' text' Hb' Hfail'), (Hmock b m text Hb Hfail).
  rewrite (mock_depends_on_length now text' text Hlen). reflexivity.
Qed.

Lemma send_text_mock_on_failure_witness :
  (send_text_for_tts (mk_backend (ConnectOk 1) SendOk RecvTimeout)
     "1730712345.123456" "Hello world"
     (mk_service (Some "murf-key") (Some 7) true "ctx" "wss://murf")).1
  = Some (_generate_mock_base64_audio "1730712345.123456" "Hello world").
Proof.
  apply send_text_mock_on_failure; [reflexivity|].
  apply timed_out. reflexivity.
Defined.

End SendText.

(** ** Turn detection *)
Section TurnDetection.
Import PyStr Stt.

(** One message: a turn callback is called only for a final transcript
    whose stripped text is not empty, and it is given that text. *)
Lemma on_message_turn (now : string) (m : message) (s : service) (td : turn_data) :
  Turn td ∈ (_on_message now m s).2 →
  ∃ text conf,
    m = Object (Some "FinalTranscript") (TextString text) conf ∧
    strip text ≠ EmptyString ∧
    td_transcript td = strip text ∧
    td_timestamp td = now ∧
    is_Some (turn_detection_callback s).
Proof.
  unfold _on_message. destruct m as [| |mt t conf]; simpl.
  - intros H. by apply elem_of_nil in H.
  - intros H. by apply elem_of_nil in H.
  - case_bool_decide as Hp.
    { destruct (stripped_text t) as [text|]; simpl.
      - destruct (truthy text), (transcription_callback s) as [cb|]; simpl;
          try (intros H; by apply elem_of_nil in H).
        destruct (cb text); simpl; intros H;
          apply list_elem_of_singleton in H; discriminate.
      - intros H. by apply elem_of_nil in H. }
    case_bool_decide as Hf.
    { subst mt. destruct t as [|raw|]; simpl.
      - intros H. by apply elem_of_nil in H.
      - destruct (truthy (strip raw)) eqn:Ht;
          [|intros H; by apply elem_of_nil in H].
        assert (Hne : strip raw ≠ EmptyString).
        { intros Heq. rewrite Heq in Ht. discriminate. }
        destruct (transcription_callback s) as [cb|]; simpl.
        + destruct (cb (strip raw)); simpl.
          * destruct (turn_detection_callback s) as [tcb|] eqn:Htcb; simpl.
            -- destruct (tcb _); simpl; intros H;
                 apply elem_of_cons in H as [H|H];
                 try discriminate;
                 apply list_elem_of_singleton in H; injection H as ->;
                 exists raw, conf; simpl; eauto.
            -- intros H. apply list_elem_of_singleton in H. discriminate.
          * intros H. apply list_elem_of_singleton in H. discriminate.
        + destruct (turn_detection_callback s) as [tcb|] eqn:Htcb; simpl.
          * destruct (tcb _); simpl; intros H;
              apply list_elem_of_singleton in H; injection H as ->;
              exists raw, conf; simpl; eauto.
          * intros H. by apply elem_of_nil in H.
      - intros H. by apply elem_of_nil in H. }
    repeat case_bool_decide; simpl; intros Hin; by apply elem_of_nil in Hin.
Qed.

(** C5. In the calls made while any sequence of backend messages is
    handled, each call of the turn-detection callback comes from a
    [FinalTranscript] message of the sequence whose stripped text is not
    empty, and carries that text; a sequence of [PartialTranscript]
    messages only never calls it. *)
Theorem turn_only_from_final (ms : list (string * message)) (s : service) :
  (∀ td, Turn td ∈ (run_messages ms s).2 →
     ∃ now text conf,
       (now, Object (Some "FinalTranscript") (TextString text) conf) ∈ ms ∧
       strip text ≠ EmptyString ∧
       td_transcript td = strip text) ∧
  ((∀ now m, (now, m) ∈ ms →
      ∃ t conf, m = Object (Some "PartialTranscript") t conf) →
   ∀ td, Turn td ∉ (run_messages ms s).2).
Proof.
  assert (Hfinal : ∀ ms s td, Turn td ∈ (run_messages ms s).2 →
     ∃ now text conf,
       (now, Object (Some "FinalTranscript") (TextString text) conf) ∈ ms ∧
       strip text ≠ EmptyString ∧
       td_transcript td = strip text).
  { clear. induction ms as [|[now m] ms IH]; intros s td; simpl.
    - intros H. by apply elem_of_nil in H.
    - destruct (_on_message now m s) as [s1 ev1] eqn:H1.
      destruct (run_messages ms s1) as [s2 ev2] eqn:H2. simpl.
      intros H. apply elem_of_app in H as [H|H].
      + pose proof (on_message_turn now m s td) as Hone.
        rewrite H1 in Hone. destruct (Hone H) as (text & conf & -> & Hne & Ht & _).
        exists now, text, conf. split; [apply elem_of_cons; by left | done].
      + specialize (IH s1 td). rewrite H2 in IH.
        destruct (IH H) as (now' & text & conf & Hin & Hrest).
        exists now', text, conf. split; [apply elem_of_cons; by right | done]. }
  split; [apply Hfinal|].
  intros Hpartial td Hin.
  destruct (Hfinal ms s td Hin) as (now & text & conf & Hm & _).
  destruct (Hpartial _ _ Hm) as (t & c & Heq). discriminate Heq.
Qed.

(** Three partial transcripts call the transcription callback three times
    and the turn callback never; a final one after them calls it once. *)
Lemma turn_only_from_final_witness :
  let s := mk_service (Some "0123456789abcdef") (Some "wss://stt") true None true
             (Some (fun _ => CbReturns)) (Some (fun _ => CbReturns)) in
  let partials :=
    [("t1", Object (Some "PartialTranscript") (TextString "what") None);
     ("t2", Object (Some "PartialTranscript") (TextString "what is") None);
     ("t3", Object (Some "PartialTranscript") (TextString "what is up ") None)] in
  (∀ td, Turn td ∉ (run_messages partials s).2) ∧
  length (run_messages partials s).2 = 3 ∧
  (run_messages
     (partials ++ [("t4", Object (Some "FinalTranscript") (TextString " what is up ")
                            (Some "0.93"))]) s).2
  = [Transcription "what"; Transcription "what is"; Transcription "what is up";
     Transcription "what is up";
     Turn (mk_turn_data "turn_end" "User stopped talking - turn detected"
             "what is up" "0.93" "t4")].
Proof.
  intros s partials. split; [|split; vm_compute; reflexivity].
  apply (turn_only_from_final partials s).
  intros now m Hin. unfold partials in Hin.
  repeat (apply elem_of_cons in Hin as [Hin|Hin];
          [injection Hin as -> ->; eauto|]).
  by apply elem_of_nil in Hin.
Defined.

End TurnDetection.

(** ** Splitting at full stops *)
Section SplitFacts.
Import PyStr.

Lemma contains_dot_cons (c : ascii) (s : string) :
  contains "." (String c s) = Ascii.eqb "." c || contains "." s.
Proof.
  cbn [contains startswith]. rewrite andb_true_r.
  by destruct (Ascii.eqb "." c).
Qed.

Lemma contains_dot_append (a b : string) :
  contains "." (a +:+ b) = contains "." a || contains "." b.
Proof.
  induction a as [|c a IH].
  - rewrite append_empty_l. by destruct (contains "." b).
  - rewrite append_cons, !contains_dot_cons, IH. by rewrite orb_assoc.
Qed.

Lemma string_of_list_ascii_app (l1 l2 : list ascii) :
  string_of_list_ascii (l1 ++ l2)
  = string_of_list_ascii l1 +:+ string_of_list_ascii l2.
Proof.
  induction l1 as [|c l1 IH]; [done|].
  cbn [app string_of_list_ascii]. by rewrite append_cons, IH.
Qed.

Lemma split_go_passes (a rest : string) (cur : list ascii) :
  contains "." a = false →
  split_go ". " 0 cur (a +:+ rest)
  = split_go ". " 0 (rev (list_ascii_of_string a) ++ cur) rest.
Proof.
  revert cur; induction a as [|c a IH]; intros cur Hno; [done|].
  rewrite contains_dot_cons in Hno. apply orb_false_iff in Hno as [Hc Ha].
  rewrite append_cons. cbn [split_go startswith]. rewrite Hc. cbn [andb].
  rewrite IH by done. cbn [list_ascii_of_string rev].
  by rewrite <- app_assoc.
Qed.

(** The first piece of a text is what stands before its first [". "],
    when no full stop occurs in it. *)
Lemma split_first_piece (a rest : string) :
  contains "." a = false →
  split ". " (a +:+ ". " +:+ rest) = a :: split ". " rest.
Proof.
  intros Hno. unfold split. rewrite split_go_passes by done.
  change (". " +:+ rest) with (String "." (String " " rest)).
  cbn [split_go startswith]. rewrite !Ascii.eqb_refl. cbn [andb].
  change (len ". " - 1) with 1. cbn [split_go].
  rewrite app_nil_r, rev_involutive, string_of_list_ascii_of_string. done.
Qed.

Lemma drop_str_append (a b : string) (k : nat) :
  drop_str (len a + k) (a +:+ b) = drop_str k b.
Proof. induction a as [|c a IH]; [done|]. rewrite append_cons. apply IH. Qed.

Lemma endswith_append (p a b : string) :
  len p ≤ len b → endswith p (a +:+ b) = endswith p b.
Proof.
  intros Hle. unfold endswith. rewrite len_append.
  replace (len a + len b - len p) with (len a + (len b - len p)) by lia.
  rewrite drop_str_append.
  destruct (Nat.leb_spec (len p) (len b)); [|lia].
  destruct (Nat.leb_spec (len p) (len a + len b)); [done|lia].
Qed.

End SplitFacts.

(** ** Response generation *)
Section Generation.
Import PyStr Llm.

(** A message in which no skill keyword occurs goes past the four
    interceptors. *)
Lemma unclaimed_goes_to_backend (e : env) (messages : list (string * string))
    (m : string) (persona : option string) (cb : option callback) :
  claimed_by_skill m = false →
  generate_streaming_response e messages m persona cb
  = generate_or_fall_back e m cb.
Proof.
  unfold claimed_by_skill. intros H.
  apply orb_false_iff in H as [H Hpdf].
  apply orb_false_iff in H as [H Hstudy].
  apply orb_false_iff in H as [Hweather Hsearch].
  unfold generate_streaming_response, _handle_weather_request,
    _handle_search_request, _handle_study_request, _handle_pdf_request.
  by rewrite Hweather, Hsearch, Hstudy, Hpdf.
Qed.

Lemma deliver_all (f : callback) (chunks : list string) :
  (∀ c, f c = None) → deliver f chunks = (map Chunk chunks, None).
Proof.
  intros Hf. induction chunks as [|c chunks IH]; simpl; [done|].
  by rewrite Hf, IH.
Qed.

Lemma accumulated_chunks (chunks : list string) :
  accumulated (map Chunk chunks) = concat_all chunks.
Proof. induction chunks as [|c chunks IH]; simpl; [done | by rewrite IH]. Qed.

(** The scripted text falls into the echo of the message, a full stop and
    the two closing sentences. *)
Lemma scripted_response_split (m : string) :
  scripted_response m
  = ("Hello! You said: '" +:+ m +:+ "'") +:+ ". " +:+
    "This is a Day 20 test response for Murf WebSocket integration. The streaming LLM would normally provide a more detailed response here.".
Proof.
  unfold scripted_response.
  rewrite (append_assoc "Hello! You said: '" (m +:+ "'")).
  rewrite (append_assoc m "'"). reflexivity.
Qed.

Lemma scripted_first_no_dot (m : string) :
  contains "." m = false →
  contains "." ("Hello! You said: '" +:+ m +:+ "'") = false.
Proof.
  intros Hno.
  rewrite (contains_dot_append "Hello! You said: '" (m +:+ "'")).
  rewrite (contains_dot_append m "'"), Hno. reflexivity.
Qed.

Lemma scripted_first_not_blank (m : string) :
  truthy (strip ("Hello! You said: '" +:+ m +:+ "'")) = true.
Proof.
  destruct (truthy (strip _)) eqn:Ht; [done|].
  apply truthy_false_iff, strip_empty_iff in Ht.
  vm_compute in Ht. discriminate Ht.
Qed.

Lemma scripted_first_chunk (m : string) :
  chunk_text ("Hello! You said: '" +:+ m +:+ "'")
  = "Hello! You said: '" +:+ m +:+ "'. ".
Proof.
  unfold chunk_text.
  rewrite <- (append_assoc "Hello! You said: '" m "'").
  rewrite (endswith_append "." ("Hello! You said: '" +:+ m) "'")
    by (cbn; lia).
  change (endswith "." "'") with false. cbn [negb].
  rewrite (append_assoc ("Hello! You said: '" +:+ m) "'" ". ").
  rewrite (append_assoc "Hello! You said: '" m ("'" +:+ ". ")).
  reflexivity.
Qed.

Lemma scripted_split_plain (m : string) :
  contains "." m = false →
  split ". " (scripted_response m)
  = ("Hello! You said: '" +:+ m +:+ "'") ::
    split ". " "This is a Day 20 test response for Murf WebSocket integration. The streaming LLM would normally provide a more detailed response here.".
Proof.
  intros Hno.
  rewrite scripted_response_split.
  rewrite (split_first_piece _ _ (scripted_first_no_dot m Hno)).
  reflexivity.
Qed.

Lemma scripted_chunks_first (m : string) (l : list string) :
  map chunk_text (filter (fun chunk => truthy (strip chunk) = true)
     (("Hello! You said: '" +:+ m +:+ "'") :: l))
  = ("Hello! You said: '" +:+ m +:+ "'. ") ::
    map chunk_text (filter (fun chunk => truthy (strip chunk) = true) l).
Proof.
  rewrite filter_cons_True by apply scripted_first_not_blank.
  cbn [map]. rewrite scripted_first_chunk. reflexivity.
Qed.

Lemma scripted_chunks_closing :
  map chunk_text (filter (fun chunk => truthy (strip chunk) = true)
     (split ". " "This is a Day 20 test response for Murf WebSocket integration. The streaming LLM would normally provide a more detailed response here."))
  = [ "This is a Day 20 test response for Murf WebSocket integration. ";
      "The streaming LLM would normally provide a more detailed response here. " ].
Proof. vm_compute. reflexivity. Qed.

(** The chunks of the scripted text for a message without a full stop. *)
Lemma scripted_chunks_plain (m : string) :
  contains "." m = false →
  scripted_chunks (scripted_response m)
  = [ "Hello! You said: '" +:+ m +:+ "'. ";
      "This is a Day 20 test response for Murf WebSocket integration. ";
      "The streaming LLM would normally provide a more detailed response here. " ].
Proof.
  intros Hno. unfold scripted_chunks.
  rewrite (scripted_split_plain m Hno).
  rewrite scripted_chunks_first, scripted_chunks_closing. reflexivity.
Qed.

(** C6, as stated, fails: for the message [hi] the text accumulated from
    the callback is the returned response followed by a space. *)
Lemma scripted_fallback_accumulates_more :
  let e := mk_env false (GenStream []) (fun _ _ _ => Raises "no network")
             (fun _ _ => Raises "no network") (fun _ _ => Raises "no network") in
  let run := generate_streaming_response e [] "hi" None (Some (fun _ => None)) in
  claimed_by_skill "hi" = false ∧
  match run.2 with
  | Returns r =>
      success r = true ∧
      model_used r = Some "fallback-for-day20-testing" ∧
      response r ≠ Some (accumulated run.1) ∧
      Some (accumulated run.1) = option_map (fun t => t +:+ " ") (response r)
  | Raises _ => False
  end.
Proof.
  vm_compute. split; [reflexivity|]. split; [reflexivity|].
  split; [reflexivity|]. split; [discriminate | reflexivity].
Qed.

(** C6, amended.  For a message in which no skill keyword occurs and an
    unconfigured service, [generate_streaming_response] calls no backend
    and returns [success = True] with the scripted text as [response], the
    marker [fallback-for-day20-testing] and the number of chunks; a
    callback that does not raise is called with the chunks of that text:
    its non-blank pieces between [". "], each closed again.  The text
    accumulated from the callback is the concatenation of these chunks;
    for a message without a full stop there are three of them and the
    accumulated text is the response followed by one space. *)
Theorem scripted_fallback_when_unconfigured (e : env)
    (messages : list (string * string)) (m : string) (persona : option string) :
  claimed_by_skill m = false →
  configured e = false →
  let text := scripted_response m in
  let done :=
    {| success := true; response := Some text;
       model_used := Some "fallback-for-day20-testing";
       character_count := Some (len text);
       chunk_count := Some (length (scripted_chunks text));
       streaming := Some true; skill_used := None; awaiting_file := None;
       analysis_type := None; error := None; fallback_response := None |} in
  generate_streaming_response e messages m persona None = ([], Returns done) ∧
  (∀ f : callback, (∀ c, f c = None) →
     generate_streaming_response e messages m persona (Some f)
       = (map Chunk (scripted_chunks text), Returns done) ∧
     accumulated (map Chunk (scripted_chunks text))
       = concat_all (scripted_chunks text)) ∧
  (contains "." m = false →
     length (scripted_chunks text) = 3 ∧
     concat_all (scripted_chunks text) = text +:+ " ").
Proof.
  intros Hskill Hconf text done.
  split; [|split].
  - rewrite unclaimed_goes_to_backend by done.
    unfold generate_or_fall_back. by rewrite Hconf.
  - intros f Hf. split; [|apply accumulated_chunks].
    rewrite unclaimed_goes_to_backend by done.
    unfold generate_or_fall_back. rewrite Hconf. cbn [negb].
    by rewrite deliver_all.
  - intros Hno. unfold text. rewrite (scripted_chunks_plain m Hno).
    split; [reflexivity|].
    unfold scripted_response. cbn [concat_all].
    set (tail := "'. This is a Day 20 test response for Murf WebSocket integration. The streaming LLM would normally provide a more detailed response here.").
    rewrite (append_assoc "Hello! You said: '" (m +:+ tail) " ").
    rewrite (append_assoc m tail " ").
    rewrite (append_assoc "Hello! You said: '" (m +:+ "'. ")).
    rewrite (append_assoc m "'. ").
    reflexivity.
Qed.

Lemma scripted_fallback_when_unconfigured_witness :
  let e := mk_env false (GenStream []) (fun _ _ _ => Raises "no network")
             (fun _ _ => Raises "no network") (fun _ _ => Raises "no network") in
  (generate_streaming_response e [] "good morning" None (Some (fun _ => None))).1
  = [ Chunk "Hello! You said: 'good morning'. ";
      Chunk "This is a Day 20 test response for Murf WebSocket integration. ";
      Chunk "The streaming LLM would normally provide a more detailed response here. " ].
Proof.
  intros e.
  destruct (scripted_fallback_when_unconfigured e [] "good morning" None
              eq_refl eq_refl) as (_ & Hcb & _).
  destruct (Hcb (fun _ => None) (fun _ => eq_refl)) as [Hrun _].
  etrans; [exact (f_equal fst Hrun)|].
  vm_compute. reflexivity.
Defined.

End Generation.

(** ** Unregistering a session *)
Section Unregister.
Import Ws WsSessions.

Lemma stop_transcription_keeps (socket_id : string) (w : service) :
  let w' := (stop_realtime_transcription socket_id w).1 in
  active_sessions w' = active_sessions w ∧
  murf_sessions w' = murf_sessions w ∧
  audio_streams w' = audio_streams w ∧
  streaming_chunks w' = streaming_chunks w ∧
  murf_service w' = murf_service w ∧
  transcription_sessions w' = delete socket_id (transcription_sessions w).
Proof.
  unfold stop_realtime_transcription.
  destruct (transcription_sessions w !! socket_id) as [t|] eqn:Ht; simpl.
  - done.
  - by rewrite delete_id.
Qed.

(** The second step of [unregister_session]. *)
Lemma unregister_middle (socket_id : string) (w1 : service) :
  let w2 := (match transcription_sessions w1 !! socket_id with
             | Some _ => stop_realtime_transcription socket_id w1
             | None => (w1, [])
             end).1 in
  active_sessions w2 = active_sessions w1 ∧
  murf_sessions w2 = murf_sessions w1 ∧
  audio_streams w2 = audio_streams w1 ∧
  streaming_chunks w2 = streaming_chunks w1 ∧
  transcription_sessions w2 = delete socket_id (transcription_sessions w1).
Proof.
  destruct (transcription_sessions w1 !! socket_id) as [t|] eqn:Ht; simpl.
  - destruct (stop_transcription_keeps socket_id w1) as (? & ? & ? & ? & _ & ?).
    done.
  - by rewrite delete_id.
Qed.

(** Unregistering a socket that has no synthesis session, or from inside
    an event loop, raises nothing and removes the socket from the
    registered sessions, the transcription sessions, the audio streams and
    the streaming chunks; the records of every other socket stay, and a
    registered socket makes the session count go down by one. *)
Theorem unregister_session_clears (loop_running : bool) (socket_id : string)
    (w : service) :
  socket_id ∉ murf_sessions w ∨ loop_running = true →
  let r := unregister_session loop_running socket_id w in
  let w' := r.1.1.1 in
  r.2 = None ∧
  active_sessions w' !! socket_id = None ∧
  transcription_sessions w' !! socket_id = None ∧
  audio_streams w' !! socket_id = None ∧
  (socket_id ∉ streaming_chunks w') ∧
  (∀ other, other ≠ socket_id →
     active_sessions w' !! other = active_sessions w !! other ∧
     transcription_sessions w' !! other = transcription_sessions w !! other ∧
     audio_streams w' !! other = audio_streams w !! other ∧
     (other ∈ streaming_chunks w' ↔ other ∈ streaming_chunks w)) ∧
  (is_Some (active_sessions w !! socket_id) →
     S (get_active_sessions_count w') = get_active_sessions_count w).
Proof.
  intros Hok r w'. unfold w', r, unregister_session.
  set (w1 := with_sessions (delete socket_id (active_sessions w)) w).
  destruct (unregister_middle socket_id w1) as (Ha & Hm & Hs & Hc & Ht).
  destruct (match transcription_sessions w1 !! socket_id with
            | Some _ => stop_realtime_transcription socket_id w1
            | None => (w1, [])
            end) as [w2 closed]. simpl in Ha, Hm, Hs, Hc, Ht.
  assert (Hno : bool_decide (socket_id ∈ murf_sessions w2) && negb loop_running
                = false).
  { rewrite Hm. simpl. destruct Hok as [Hnot | ->].
    - by rewrite bool_decide_eq_false_2.
    - apply andb_false_r. }
  rewrite Hno. simpl. rewrite Ha, Ht, Hs, Hc. simpl.
  split; [done|].
  split; [apply lookup_delete_eq|].
  split; [apply lookup_delete_eq|].
  split; [apply lookup_delete_eq|].
  split.
  { rewrite elem_of_difference, elem_of_singleton. tauto. }
  split.
  - intros other Hne. rewrite !lookup_delete_ne by done.
    split; [done|]. split; [done|]. split; [done|].
    rewrite elem_of_difference, elem_of_singleton. tauto.
  - intros Hreg. unfold get_active_sessions_count. simpl.
    rewrite map_size_delete_Some by done.
    destruct (size (active_sessions w)) eqn:Hsz; [|done].
    apply map_size_empty_inv in Hsz. rewrite Hsz in Hreg.
    rewrite lookup_empty in Hreg. by destruct Hreg.
Qed.

Lemma unregister_session_clears_witness :
  let w := register_session "12:00:00" "session-A" "sock-1"
             (register_session "11:59:00" "session-B" "sock-2" (init None None)) in
  let r := unregister_session false "sock-1" w in
  r.2 = None ∧ get_active_sessions_count r.1.1.1 = 1 ∧
  audio_streams r.1.1.1 !! "sock-1" = None.
Proof.
  intros w r.
  assert (Hok : "sock-1" ∉ murf_sessions w ∨ false = true).
  { left. unfold w. simpl. set_solver. }
  destruct (unregister_session_clears false "sock-1" w Hok)
    as (Hr & _ & _ & Hau & _ & _ & Hcount).
  fold r in Hr, Hau, Hcount.
  split; [exact Hr|]. split; [|exact Hau].
  assert (Hreg : is_Some (active_sessions w !! "sock-1")).
  { vm_compute. by eexists. }
  specialize (Hcount Hreg).
  assert (Hw : get_active_sessions_count w = 2) by (vm_compute; reflexivity).
  exact (eq_add_S _ _ (eq_trans Hcount Hw)).
Defined.

(** Outside an event loop, unregistering a socket that has a synthesis
    session raises [RuntimeError] at [asyncio.create_task]: the session
    record is gone by then, but the audio-stream record, the streaming
    chunks and the synthesis session of the socket are still there. *)
Theorem unregister_session_without_loop (socket_id : string) (w : service) :
  socket_id ∈ murf_sessions w →
  let r := unregister_session false socket_id w in
  let w' := r.1.1.1 in
  r.2 = Some no_running_loop ∧
  (r.1).2 = [] ∧
  active_sessions w' !! socket_id = None ∧
  transcription_sessions w' !! socket_id = None ∧
  audio_streams w' = audio_streams w ∧
  streaming_chunks w' = streaming_chunks w ∧
  socket_id ∈ murf_sessions w'.
Proof.
  intros Hin r w'. unfold w', r, unregister_session.
  set (w1 := with_sessions (delete socket_id (active_sessions w)) w).
  destruct (unregister_middle socket_id w1) as (Ha & Hm & Hs & Hc & Ht).
  destruct (match transcription_sessions w1 !! socket_id with
            | Some _ => stop_realtime_transcription socket_id w1
            | None => (w1, [])
            end) as [w2 closed]. simpl in Ha, Hm, Hs, Hc, Ht.
  rewrite Hm. simpl.
  rewrite bool_decide_eq_true_2 by done. simpl.
  rewrite Ha, Ht, Hs, Hc, Hm. simpl.
  split; [done|]. split; [done|].
  split; [apply lookup_delete_eq|].
  split; [apply lookup_delete_eq|]. done.
Qed.

Lemma unregister_session_without_loop_witness :
  let w := (start_murf_websocket (Murf.ConnectOk 7) "sock-1"
              (register_session "12:00:00" "session-A" "sock-1"
                 (init None (Some "murf-key")))).2 in
  let r := unregister_session false "sock-1" w in
  r.2 = Some "no running event loop" ∧
  is_Some (audio_streams r.1.1.1 !! "sock-1").
Proof.
  intros w r.
  assert (Hin : "sock-1" ∈ murf_sessions w).
  { unfold w, start_murf_websocket. simpl. set_solver. }
  destruct (unregister_session_without_loop "sock-1" w Hin)
    as (Hr & _ & _ & _ & Hau & _).
  fold r in Hr, Hau. split; [exact Hr|].
  rewrite Hau. vm_compute. by eexists.
Defined.

(** Registering a socket that the service does not know and unregistering
    it again gives back the service as it was. *)
Theorem register_unregister_round_trip (loop_running : bool)
    (now sid socket_id : string) (w : service) :
  active_sessions w !! socket_id = None →
  audio_streams w !! socket_id = None →
  transcription_sessions w !! socket_id = None →
  socket_id ∉ murf_sessions w →
  socket_id ∉ streaming_chunks w →
  unregister_session loop_running socket_id
    (register_session now sid socket_id w) = (w, [], [], None).
Proof.
  intros Ha Hs Ht Hm Hc. unfold unregister_session, register_session. simpl.
  rewrite Ht. simpl.
  rewrite bool_decide_eq_false_2 by done. simpl.
  rewrite !delete_insert_id by done.
  replace (streaming_chunks w ∖ {[socket_id]}) with (streaming_chunks w).
  2:{ apply set_eq. intros x. rewrite elem_of_difference, elem_of_singleton.
      split; [|tauto]. intros Hx. split; [done|]. by intros ->. }
  by destruct w.
Qed.

Lemma register_unregister_round_trip_witness :
  let w := register_session "11:59:00" "session-B" "sock-2" (init None None) in
  unregister_session false "sock-1"
    (register_session "12:00:00" "session-A" "sock-1" w) = (w, [], [], None).
Proof.
  intros w.
  apply register_unregister_round_trip.
  - vm_compute. reflexivity.
  - vm_compute. reflexivity.
  - vm_compute. reflexivity.
  - unfold w. simpl. set_solver.
  - unfold w. simpl. set_solver.
Defined.

End Unregister.

(** ** Counting echo messages *)
Section Echo.
Import Ws WsSessions.

Lemma echo_unregistered (now socket_id : string) (messages : list string)
    (w : service) :
  active_sessions w !! socket_id = None →
  handle_echo_messages now socket_id messages w = w.
Proof.
  intros Hno. induction messages as [|m messages IH]; simpl; [done|].
  unfold handle_echo_message. rewrite Hno. simpl. exact IH.
Qed.

Lemma echo_closed_form (now socket_id : string) (messages : list string)
    (w : service) (info : session_info) :
  active_sessions w !! socket_id = Some info →
  handle_echo_messages now socket_id messages w
  = with_sessions
      (<[socket_id := {| session_id := session_id info;
                         connected_at := connected_at info;
                         message_count := message_count info + length messages |}]>
         (active_sessions w)) w.
Proof.
  revert w info; induction messages as [|m messages IH]; intros w info Hreg.
  - simpl. rewrite Nat.add_0_r.
    replace {| session_id := session_id info; connected_at := connected_at info;
               message_count := message_count info |} with info
      by (by destruct info).
    rewrite insert_id by done. by destruct w.
  - cbn [handle_echo_messages]. unfold handle_echo_message. rewrite Hreg.
    cbn [snd].
    rewrite (IH _ {| session_id := session_id info;
                     connected_at := connected_at info;
                     message_count := message_count info + 1 |})
      by (unfold with_sessions; cbn; apply lookup_insert_eq).
    unfold with_sessions. cbn. rewrite insert_insert_eq.
    replace (message_count info + 1 + length messages)
      with (message_count info + S (length messages)) by lia.
    reflexivity.
Qed.

(** Every echo message of a registered socket adds one to its
    [message_count] and changes nothing else: after a sequence of messages
    the count has grown by their number, the session id and the connection
    time are the same, and so are the records of the other sockets; for a
    socket that is not registered the service stays as it is. *)
Theorem echo_counts_messages (now socket_id : string) (messages : list string)
    (w : service) (info : session_info) :
  active_sessions w !! socket_id = Some info →
  let w' := handle_echo_messages now socket_id messages w in
  active_sessions w' !! socket_id
    = Some {| session_id := session_id info; connected_at := connected_at info;
              message_count := message_count info + length messages |} ∧
  (∀ other, other ≠ socket_id →
     active_sessions w' !! other = active_sessions w !! other) ∧
  get_active_sessions_count w' = get_active_sessions_count w ∧
  audio_streams w' = audio_streams w ∧
  transcription_sessions w' = transcription_sessions w ∧
  murf_sessions w' = murf_sessions w ∧
  (∀ unknown, active_sessions w !! unknown = None →
     handle_echo_messages now unknown messages w = w).
Proof.
  intros Hreg w'. unfold w'. rewrite (echo_closed_form _ _ _ _ _ Hreg).
  unfold with_sessions, get_active_sessions_count. cbn.
  split; [apply lookup_insert_eq|].
  split; [intros other Hne; by apply lookup_insert_ne|].
  split; [apply map_size_insert_Some; by eexists|].
  split; [done|]. split; [done|]. split; [done|].
  intros unknown Hno. by apply echo_unregistered.
Qed.

Lemma echo_counts_messages_witness :
  let w := register_session "12:00:00" "session-A" "sock-1" (init None None) in
  active_sessions (handle_echo_messages "12:00:05" "sock-1" ["a"; "b"; "c"] w)
    !! "sock-1"
  = Some {| session_id := "session-A"; connected_at := "12:00:00";
            message_count := 3 |}.
Proof.
  intros w.
  assert (Hreg : active_sessions w !! "sock-1"
                 = Some {| session_id := "session-A"; connected_at := "12:00:00";
                           message_count := 0 |}).
  { unfold w, register_session. simpl. apply lookup_insert_eq. }
  destruct (echo_counts_messages "12:00:05" "sock-1" ["a"; "b"; "c"] w _ Hreg)
    as [H _].
  exact H.
Defined.

End Echo.

(** ** Forwarding audio to the recognition backend *)
Section AudioForwarding.
Import Stt SttSocket.

(** [send_audio_data] hands a message to the socket exactly when a socket
    exists and the service is streaming.  So it drops the audio after
    [stop_streaming_transcription], after the error and close callbacks of
    the socket, after a [SessionTerminated] message and after a start that
    ended in an error; after a start that opened the connection it sends
    the audio, base64 encoded, as the [audio_data] of a JSON object. *)
Theorem audio_forwarded_only_while_streaming (audio : list N) (s : service) :
  (send_audio_data audio s = None ↔ ws s = None ∨ is_streaming s = false) ∧
  send_audio_data audio (stop_streaming_transcription s).1 = None ∧
  (∀ err, send_audio_data audio (_on_error err s) = None) ∧
  send_audio_data audio (_on_close s) = None ∧
  (∀ now t conf,
     send_audio_data audio
       (_on_message now (Object (Some "SessionTerminated") t conf) s).1 = None) ∧
  (is_configured s = true →
   (∀ cb tcb,
      send_audio_data audio (start_streaming_transcription WsOpened cb tcb s).1.2
        = Some (audio_message (Base64.b64encode audio))) ∧
   (∀ err cb tcb,
      send_audio_data audio
        (start_streaming_transcription (WsError err) cb tcb s).1.2 = None)).
Proof.
  unfold send_audio_data.
  split.
  { destruct (ws s) as [url|], (is_streaming s); simpl.
    - split; [discriminate|]. intros [H|H]; discriminate H.
    - split; [by right | done].
    - split; [by left | done].
    - split; [by left | done]. }
  split.
  { simpl. by destruct (ws s). }
  split.
  { intros err. simpl. by destruct (ws s). }
  split.
  { simpl. by destruct (ws s). }
  split.
  { intros now t conf. simpl. by destruct (ws s). }
  intros Hconf. unfold start_streaming_transcription. rewrite Hconf. simpl.
  split; [done|]. done.
Qed.

Lemma audio_forwarded_only_while_streaming_witness :
  send_audio_data [72%N; 105%N]
    (start_streaming_transcription WsOpened (fun _ => CbReturns) None
       (init (Some "0123456789abcdef"))).1.2
  = Some (audio_message "SGk=").
Proof.
  destruct (audio_forwarded_only_while_streaming [72%N; 105%N]
              (init (Some "0123456789abcdef")))
    as (_ & _ & _ & _ & _ & Hstart).
  destruct (Hstart eq_refl) as [Hopen _].
  exact (Hopen (fun _ => CbReturns) None).
Defined.

End AudioForwarding.

(** ** One recognition service for all sockets *)
Section SharedRecognition.
Import Ws.

(** The recognition service is one object for all sockets: stopping the
    transcription of one socket removes only that socket's transcription
    session, but it stops the stream itself, so that audio of every other
    socket, whose transcription session is still listed, is dropped from
    then on. *)
Theorem stop_transcription_stops_the_shared_stream (a b : string) (w : service) :
  a ≠ b →
  is_Some (transcription_sessions w !! a) →
  let w' := (stop_realtime_transcription a w).1 in
  transcription_sessions w' !! a = None ∧
  transcription_sessions w' !! b = transcription_sessions w !! b ∧
  Stt.is_streaming (stt_service w') = false ∧
  Stt.is_connected (stt_service w') = false ∧
  (∀ audio, SttSocket.send_audio_data audio (stt_service w') = None).
Proof.
  intros Hne [t Ht] w'. unfold w', stop_realtime_transcription. rewrite Ht.
  simpl.
  split; [apply lookup_delete_eq|].
  split; [by apply lookup_delete_ne|].
  split; [done|]. split; [done|].
  intros audio. unfold SttSocket.send_audio_data. simpl.
  by destruct (Stt.ws (stt_service w)).
Qed.

Lemma stop_transcription_stops_the_shared_stream_witness :
  let w0 := init (Some "0123456789abcdef") None in
  let w1 := (start_realtime_transcription Stt.WsOpened "12:00:01" "sock-1" w0).1.2 in
  let w2 := (start_realtime_transcription Stt.WsOpened "12:00:02" "sock-2" w1).1.2 in
  let w3 := (stop_realtime_transcription "sock-1" w2).1 in
  transcription_sessions w3 !! "sock-2" = transcription_sessions w2 !! "sock-2" ∧
  SttSocket.send_audio_data [1%N] (stt_service w3) = None.
Proof.
  intros w0 w1 w2 w3.
  assert (Hreg : is_Some (transcription_sessions w2 !! "sock-1")).
  { unfold w2, w1, w0, start_realtime_transcription. simpl.
    rewrite lookup_insert_ne by discriminate.
    rewrite lookup_insert_eq. by eexists. }
  destruct (stop_transcription_stops_the_shared_stream "sock-1" "sock-2" w2
              ltac:(discriminate) Hreg) as (_ & Hb & _ & _ & Haudio).
  split; [exact Hb | exact (Haudio [1%N])].
Defined.

End SharedRecognition.

(** ** Synthesis sessions *)
Section SynthesisSessions.
Import PyStr Ws WsSessions.

(** Stopping the synthesis session of a socket removes the socket from the
    session set; the connection is closed exactly when no session is left
    (then the service ends up disconnected and without a websocket,
    whichever socket was named), and stays untouched otherwise.  Stopping
    twice is the same as stopping once. *)
Theorem stop_murf_websocket_lifecycle (socket_id : string) (w : service) :
  let r := stop_murf_websocket socket_id w in
  murf_sessions r.1 = murf_sessions w ∖ {[socket_id]} ∧
  (murf_sessions w ⊆ {[socket_id]} →
     Murf.is_connected (murf_service r.1) = false ∧
     Murf.websocket (murf_service r.1) = None ∧
     r.2 = Murf.websocket (murf_service w)) ∧
  (∀ other, other ≠ socket_id → other ∈ murf_sessions w →
     murf_service r.1 = murf_service w ∧ r.2 = None) ∧
  (stop_murf_websocket socket_id r.1).1 = r.1.
Proof.
  intros r. unfold r, stop_murf_websocket.
  set (ms := murf_sessions w ∖ {[socket_id]}).
  destruct (decide (ms = ∅)) as [Hempty|Hne].
  - rewrite (bool_decide_eq_true_2 _ Hempty). simpl.
    split; [done|]. split; [done|]. split.
    + intros other Hother Hin. exfalso.
      assert (other ∈ ms) as Hms.
      { unfold ms. rewrite elem_of_difference, elem_of_singleton. done. }
      rewrite Hempty in Hms. by apply not_elem_of_empty in Hms.
    + fold ms. rewrite Hempty.
      replace ((∅ : gset string) ∖ {[socket_id]}) with (∅ : gset string).
      2:{ apply set_eq. intros x. rewrite elem_of_difference.
          split; [intros Hx; by apply not_elem_of_empty in Hx | tauto]. }
      rewrite bool_decide_eq_true_2 by done. done.
  - rewrite (bool_decide_eq_false_2 _ Hne). simpl.
    split; [done|]. split.
    + intros Hsub. exfalso. apply Hne. apply set_eq. intros x.
      unfold ms. rewrite elem_of_difference, elem_of_singleton.
      split; [|intros Hx; by apply not_elem_of_empty in Hx].
      intros [Hx Hnx]. apply Hsub in Hx. by apply elem_of_singleton in Hx.
    + split; [done|]. fold ms.
      replace (ms ∖ {[socket_id]}) with ms.
      2:{ apply set_eq. intros x. unfold ms.
          rewrite !elem_of_difference, elem_of_singleton. tauto. }
      rewrite (bool_decide_eq_false_2 _ Hne). done.
Qed.

(** Starting and then stopping the synthesis session of a socket that had
    none gives back the set of sessions; if that set was empty, the service
    ends up disconnected and without a websocket even when the connection
    had just been established. *)
Theorem start_then_stop_murf (backend : Murf.connect_outcome)
    (socket_id : string) (w : service) :
  socket_id ∉ murf_sessions w →
  let started := (start_murf_websocket backend socket_id w).2 in
  let stopped := (stop_murf_websocket socket_id started).1 in
  murf_sessions stopped = murf_sessions w ∧
  (murf_sessions w = ∅ →
     Murf.is_connected (murf_service stopped) = false ∧
     Murf.websocket (murf_service stopped) = None).
Proof.
  intros Hnot started stopped.
  assert (Hms : murf_sessions started ∖ {[socket_id]} = murf_sessions w).
  { unfold started, start_murf_websocket.
    destruct (Murf.connect backend (murf_service w)) as [[|] m]; simpl.
    - apply set_eq. intros x.
      rewrite elem_of_difference, elem_of_union, !elem_of_singleton.
      split; [tauto|]. intros Hx. split; [by right|]. by intros ->.
    - apply set_eq. intros x. rewrite elem_of_difference, elem_of_singleton.
      split; [tauto|]. intros Hx. split; [done|]. by intros ->. }
  destruct (stop_murf_websocket_lifecycle socket_id started)
    as (Hset & Hlast & _ & _).
  fold stopped in Hset, Hlast. rewrite Hset, Hms.
  split; [done|]. intros Hempty.
  assert (Hsub : murf_sessions started ⊆ {[socket_id]}).
  { intros x Hx. destruct (decide (x = socket_id)) as [->|Hne].
    - by apply elem_of_singleton.
    - exfalso. assert (x ∈ murf_sessions started ∖ {[socket_id]}) as Hd.
      { rewrite elem_of_difference, elem_of_singleton. done. }
      rewrite Hms, Hempty in Hd. by apply not_elem_of_empty in Hd. }
  destruct (Hlast Hsub) as (Hc & Hw & _). done.
Qed.

Lemma start_then_stop_murf_witness :
  let w := init None (Some "murf-key") in
  let started := (start_murf_websocket (Murf.ConnectOk 7) "sock-1" w).2 in
  let stopped := (stop_murf_websocket "sock-1" started).1 in
  Murf.is_connected (murf_service started) = true ∧
  murf_sessions stopped = ∅ ∧
  Murf.is_connected (murf_service stopped) = false.
Proof.
  intros w started stopped.
  assert (Hnot : "sock-1" ∉ murf_sessions w).
  { unfold w. simpl. apply not_elem_of_empty. }
  destruct (start_then_stop_murf (Murf.ConnectOk 7) "sock-1" w Hnot)
    as [Hset Hlast].
  fold started stopped in Hset, Hlast.
  split; [reflexivity|]. split; [exact Hset|].
  destruct (Hlast eq_refl) as [Hc _]. exact Hc.
Defined.

End SynthesisSessions.

(** ** From text to audio chunks *)
Section TextToAudio.
Import PyStr Ws WsSessions Trace.

Lemma stop_murf_websocket_lifecycle_witness :
  let w := (start_murf_websocket (Murf.ConnectOk 7) "sock-1"
              (init None (Some "murf-key"))).2 in
  (stop_murf_websocket "sock-1" w).2 = Some 7.
Proof.
  intros w.
  destruct (stop_murf_websocket_lifecycle "sock-1" w) as (_ & Hlast & _).
  assert (Hsub : murf_sessions w ⊆ {[ "sock-1" ]}).
  { unfold w. simpl. intros x.
    rewrite elem_of_union. intros [Hx|Hx];
      [exact Hx | by apply not_elem_of_empty in Hx]. }
  destruct (Hlast Hsub) as (_ & _ & Hclosed).
  etrans; [exact Hclosed | reflexivity].
Defined.


(** [process_text_with_murf] refuses a socket without a synthesis session
    and leaves the service alone; for a socket with one it answers a text
    that is not blank with status [success], a non-empty audio string and
    its length, whatever the backend does, and a blank text with the error
    [No audio generated from Murf]. *)
Theorem process_text_with_murf_outcomes (b : Murf.backend)
    (now now_iso socket_id text : string) (w : service) :
  let r := process_text_with_murf b now now_iso socket_id text w in
  (socket_id ∉ murf_sessions w →
     murf_status r.1 = "error" ∧
     murf_message r.1 = Some "Murf WebSocket not active for this session" ∧
     r.2 = w) ∧
  (socket_id ∈ murf_sessions w → all_space text = false →
     murf_status r.1 = "success" ∧
     murf_text r.1 = Some text ∧
     ∃ audio, base64_audio r.1 = Some audio ∧ truthy audio = true ∧
              audio_length r.1 = Some (len audio)) ∧
  (socket_id ∈ murf_sessions w → all_space text = true →
     murf_status r.1 = "error" ∧
     murf_message r.1 = Some "No audio generated from Murf" ∧
     base64_audio r.1 = None).
Proof.
  intros r. unfold r, process_text_with_murf.
  split; [|split].
  - intros Hnot. rewrite bool_decide_eq_false_2 by done. done.
  - intros Hin Hb. rewrite bool_decide_eq_true_2 by done. cbn [negb].
    assert (Hsome : ∃ audio,
      (Murf.send_text_for_tts b now text (murf_service w)).1 = Some audio ∧
      truthy audio = true).
    { destruct (send_text_cases b now text (murf_service w) Hb)
        as [H | (audio & H & Ha & _)].
      - eexists. split; [exact H | apply mock_truthy].
      - by exists audio. }
    destruct Hsome as (audio & Haudio & Htruthy).
    destruct (Murf.send_text_for_tts b now text (murf_service w)) as [a m].
    simpl in Haudio. subst a. rewrite Htruthy. simpl.
    split; [done|]. split; [done|]. by exists audio.
  - intros Hin Hb. rewrite bool_decide_eq_true_2 by done. cbn [negb].
    unfold Murf.send_text_for_tts. rewrite blank_test, Hb. simpl. done.
Qed.

Lemma process_text_with_murf_outcomes_witness :
  let w := (start_murf_websocket (Murf.ConnectRaises "refused") "sock-1"
              (init None (Some "murf-key"))).2 in
  murf_status
    (process_text_with_murf
       (Murf.mk_backend (Murf.ConnectRaises "refused") Murf.SendOk Murf.RecvTimeout)
       "1730712345.123456" "2024-11-04T09:25:45" "sock-1" "Hello world" w).1
  = "success".
Proof.
  intros w.
  destruct (process_text_with_murf_outcomes
              (Murf.mk_backend (Murf.ConnectRaises "refused") Murf.SendOk Murf.RecvTimeout)
              "1730712345.123456" "2024-11-04T09:25:45" "sock-1" "Hello world" w)
    as (_ & Hok & _).
  assert (Hin : "sock-1" ∈ murf_sessions w).
  { unfold w. simpl. apply elem_of_union. left. by apply elem_of_singleton. }
  destruct (Hok Hin eq_refl) as [Hs _]. exact Hs.
Defined.



End TextToAudio.

(** ** Splitting and joining *)
Section SplitJoin.
Import PyStr.

Lemma split_go_nonempty (sep : string) (skip : nat) (cur : list ascii) (s : string) :
  split_go sep skip cur s ≠ [].
Proof.
  revert skip cur; induction s as [|c s IH]; intros skip cur; simpl; [done|].
  destruct skip as [|k]; [|apply IH].
  destruct (startswith sep (String c s)); [done | apply IH].
Qed.

Lemma join_cons (sep x : string) (l : list string) :
  l ≠ [] → join sep (x :: l) = x +:+ sep +:+ join sep l.
Proof. destruct l; [done|]. reflexivity. Qed.

Lemma startswith_drop (p s : string) :
  startswith p s = true → s = p +:+ drop_str (len p) s ∧ len p ≤ len s.
Proof.
  revert s; induction p as [|a p IH]; intros s H.
  - split; [done | simpl; lia].
  - destruct s as [|b s]; [discriminate|]. simpl in H.
    apply andb_true_iff in H as [Hab Hrest].
    apply Ascii.eqb_eq in Hab. subst b.
    destruct (IH s Hrest) as [Heq Hle].
    split; [|simpl in *; lia].
    rewrite append_cons. simpl. f_equal. exact Heq.
Qed.

Lemma join_split_go (sep : string) (s : string) :
  sep ≠ EmptyString →
  ∀ skip cur, skip ≤ len s →
    join sep (split_go sep skip cur s)
    = string_of_list_ascii (rev cur) +:+ drop_str skip s.
Proof.
  intros Hsep. induction s as [|c s IH]; intros skip cur Hskip.
  - simpl in Hskip. replace skip with 0 by lia. simpl.
    by rewrite append_empty_r.
  - destruct skip as [|k].
    + cbn [split_go drop_str].
      destruct (startswith sep (String c s)) eqn:Hstart.
      * destruct (startswith_drop _ _ Hstart) as [Heq Hle].
        rewrite join_cons by apply split_go_nonempty.
        rewrite IH by (simpl in Hle; lia). simpl rev. simpl string_of_list_ascii.
        rewrite append_empty_l. f_equal.
        destruct sep as [|a sep']; [done|].
        rewrite append_cons in Heq. injection Heq as Ha Hs.
        change (len (String a sep') - 1) with (len sep' - 0).
        rewrite Nat.sub_0_r, append_cons. subst c.
        f_equal. symmetry. exact Hs.
      * rewrite IH by lia. cbn [rev drop_str].
        rewrite string_of_list_ascii_app. cbn [string_of_list_ascii].
        rewrite append_assoc. reflexivity.
    + cbn [split_go drop_str]. apply IH. simpl in Hskip. lia.
Qed.

(** Joining the pieces of a split with the separator gives back the
    text. *)
Theorem join_split (sep s : string) :
  sep ≠ EmptyString → join sep (split sep s) = s.
Proof.
  intros Hsep. unfold split. rewrite join_split_go by (done || lia). done.
Qed.

Lemma join_split_witness : join ". " (split ". " "One. Two.. Three. ") = "One. Two.. Three. ".
Proof. apply join_split. discriminate. Defined.

Lemma join_app (sep : string) (l1 l2 : list string) :
  l1 ≠ [] → l2 ≠ [] →
  join sep (l1 ++ l2) = join sep l1 +:+ sep +:+ join sep l2.
Proof.
  intros H1 H2. induction l1 as [|x l1 IH]; [done|].
  destruct l1 as [|y l1].
  - simpl app. by rewrite join_cons.
  - cbn [app]. rewrite join_cons by done.
    change (y :: l1 ++ l2) with ((y :: l1) ++ l2).
    rewrite IH by done. rewrite (join_cons sep x (y :: l1)) by done.
    rewrite !append_assoc. reflexivity.
Qed.

(** The word groups of a text, each closed with the separator, together
    spell the joined words with one more separator at the end. *)
Lemma groups_concat (sep : string) (size : nat) (words : list string) :
  0 < size →
  ∀ fuel i, i < length words → length words - i ≤ fuel →
    concat_all
      (map (fun j => join sep (firstn size (skipn j words)) +:+ sep)
           (range_go fuel i (length words) size))
    = join sep (skipn i words) +:+ sep.
Proof.
  intros Hsize fuel. induction fuel as [|fuel IH]; intros i Hi Hfuel; [lia|].
  cbn [range_go]. destruct (Nat.ltb_spec i (length words)) as [_|]; [|lia].
  cbn [map concat_all].
  destruct (Nat.lt_ge_cases (i + size) (length words)) as [Hmore|Hlast].
  - rewrite IH by lia.
    rewrite <- (take_drop size (skipn i words)) at 2.
    rewrite join_app.
    + rewrite skipn_skipn. replace (size + i) with (i + size) by lia.
      rewrite !append_assoc. reflexivity.
    + intros Hnil. apply (f_equal length) in Hnil.
      rewrite length_take, length_skipn in Hnil. simpl in Hnil. lia.
    + intros Hnil. apply (f_equal length) in Hnil.
      rewrite length_drop, length_skipn in Hnil. simpl in Hnil. lia.
  - replace (range_go fuel (i + size) (length words) size) with (@nil nat).
    2:{ destruct fuel; [done|]. cbn [range_go].
        destruct (Nat.ltb_spec (i + size) (length words)); [lia|done]. }
    cbn [map concat_all]. rewrite append_empty_r.
    rewrite firstn_all2 by (rewrite length_skipn; lia). reflexivity.
Qed.

End SplitJoin.

(** ** Simulated streaming of a skill reply *)
Section SkillStreaming.
Import PyStr Llm.

Lemma word_groups_concat (text : string) :
  concat_all (word_groups 3 text) = text +:+ " ".
Proof.
  unfold word_groups, range.
  assert (Hne : split " " text ≠ []) by apply split_go_nonempty.
  assert (Hlen : 0 < length (split " " text)).
  { destruct (split " " text); [done | simpl; lia]. }
  rewrite (groups_concat " " 3 (split " " text) ltac:(lia)
             (length (split " " text)) 0 Hlen ltac:(lia)).
  rewrite drop_0, join_split by discriminate. reflexivity.
Qed.

Lemma word_groups_length (text : string) :
  length (word_groups 3 text) = (length (split " " text) + 2) / 3.
Proof.
  unfold word_groups, range.
  rewrite length_map, (range_go_length 3) by lia.
  f_equal. lia.
Qed.

Lemma deliver_raises (f : callback) (chunks : list string) :
  (∃ c, c ∈ chunks ∧ f c ≠ None) → ∃ err, (deliver f chunks).2 = Some err.
Proof.
  induction chunks as [|c chunks IH]; intros (x & Hin & Hx).
  - by apply elem_of_nil in Hin.
  - simpl. destruct (f c) as [err|] eqn:Hc; [by exists err|].
    apply elem_of_cons in Hin as [->|Hin]; [congruence|].
    destruct (IH (ex_intro _ x (conj Hin Hx))) as [err Herr].
    destruct (deliver f chunks) as [ev r]. simpl in *. by exists err.
Qed.

(** The reply of a skill is handed to the callback in groups of three
    words, each followed by a space: with a callback that does not raise
    the groups are delivered in order, there are [ceil(words / 3)] of
    them, and together they spell the reply followed by one space; the
    result is the skill's own.  Without a callback nothing is delivered.
    A callback that raises on one of the groups makes the call raise
    instead of returning the reply. *)
Theorem skill_reply_streamed_in_word_groups (r : result) (text : string) :
  response r = Some text →
  (∀ f : callback, (∀ c, f c = None) →
     stream_skill_reply (Some f) r = (map Chunk (word_groups 3 text), Returns r)) ∧
  accumulated (map Chunk (word_groups 3 text)) = text +:+ " " ∧
  length (word_groups 3 text) = (length (split " " text) + 2) / 3 ∧
  1 ≤ length (word_groups 3 text) ∧
  stream_skill_reply None r = ([], Returns r) ∧
  (∀ f : callback, (∃ c, c ∈ word_groups 3 text ∧ f c ≠ None) →
     ∃ err, (stream_skill_reply (Some f) r).2 = Raises err).
Proof.
  intros Hr. unfold stream_skill_reply. rewrite Hr.
  change (default "" (Some text)) with text.
  split.
  { intros f Hf. by rewrite deliver_all. }
  split.
  { by rewrite accumulated_chunks, word_groups_concat. }
  split; [apply word_groups_length|].
  split.
  { rewrite word_groups_length.
    assert (Hne : split " " text ≠ []) by apply split_go_nonempty.
    apply Nat.div_le_lower_bound; [lia|].
    destruct (split " " text); [done | simpl; lia]. }
  split; [done|].
  intros f Hex. destruct (deliver_raises f _ Hex) as [err Herr].
  destruct (deliver f (word_groups 3 text)) as [ev res]. simpl in Herr.
  subst res. by exists err.
Qed.

Lemma skill_reply_streamed_in_word_groups_witness :
  stream_skill_reply (Some (fun _ => None))
    (skill_result "Please upload the PDF file" "pdf-service" "pdf_processing"
       (Some true) None)
  = ([Chunk "Please upload the "; Chunk "PDF file "],
     Returns (skill_result "Please upload the PDF file" "pdf-service"
                "pdf_processing" (Some true) None)).
Proof.
  destruct (skill_reply_streamed_in_word_groups
              (skill_result "Please upload the PDF file" "pdf-service"
                 "pdf_processing" (Some true) None)
              "Please upload the PDF file" eq_refl) as [Hrun _].
  etrans; [exact (Hrun (fun _ => None) (fun _ => eq_refl))|].
  vm_compute. reflexivity.
Defined.

End SkillStreaming.

(** ** The order of the interceptors *)
Section Interceptors.
Import PyStr Llm.

(** A weather request that names a city cannot be answered: the class of
    [self.weather_service] defines no method
    [get_comprehensive_weather_analysis], so looking it up raises
    [AttributeError]; nothing catches it in
    [generate_streaming_response], the callback is never called and no
    backend is asked.  A weather request without a city is answered with
    the question for one. *)
Theorem weather_request_outcome (e : env) (messages : list (string * string))
    (m : string) (persona : option string) (cb : option callback) :
  any_in weather_keywords (lower m) = true →
  (_extract_city_from_message m ≠ EmptyString →
     generate_streaming_response e messages m persona cb
     = ([], Raises "'WeatherService' object has no attribute 'get_comprehensive_weather_analysis'")) ∧
  (_extract_city_from_message m = EmptyString →
     ∃ text,
       generate_streaming_response e messages m persona cb
       = stream_skill_reply cb
           (skill_result text "weather-skill" "weather" None None) ∧
       (text = "I can help you with the weather! Which city would you like me to check?"
        ∨ (persona = Some "pirate" ∧
           text = "Arrr! I can check the weather for ye, but I need to know which port ye want me to scout! What city should I check, matey?"))).
Proof.
  intros Hkw. unfold generate_streaming_response, _handle_weather_request.
  rewrite Hkw. split.
  - intros Hcity.
    destruct (_extract_city_from_message m) as [|c city]; [done|].
    reflexivity.
  - intros ->. cbn [truthy negb]. unfold is_pirate.
    case_bool_decide as Hp.
    + eexists. split; [reflexivity|]. by right.
    + eexists. split; [reflexivity|]. by left.
Qed.

Lemma weather_request_outcome_witness :
  generate_streaming_response
    (mk_env true (GenStream [ItemText "Sunny."]) (fun _ _ _ => Returns "22 degrees")
       (fun _ _ => Returns "s") (fun _ _ => Returns "t"))
    [] "weather in Paris" None (Some (fun _ => None))
  = ([], Raises "'WeatherService' object has no attribute 'get_comprehensive_weather_analysis'").
Proof.
  apply weather_request_outcome.
  - vm_compute. reflexivity.
  - vm_compute. discriminate.
Defined.

(** The interceptors are consulted in a fixed order and the first keyword
    that occurs decides: a weather keyword makes the outcome independent
    of everything else in the environment; without one, a search keyword
    hands the message to the search skill; without either, a study keyword
    hands it to the study skill; and a document keyword alone is answered
    by the document skill itself.  In none of these cases is the
    generation backend called. *)
Theorem interceptors_in_order (e : env) (messages : list (string * string))
    (m : string) (persona : option string) (cb : option callback) :
  let run := generate_streaming_response e messages m persona cb in
  let weather := any_in weather_keywords (lower m) in
  let search := any_in search_keywords (lower m) in
  let study := any_in study_keywords (lower m) in
  let pdf := any_in pdf_keywords (lower m) in
  (weather = true →
     ∀ e', generate_streaming_response e' messages m persona cb = run) ∧
  (weather = false → search = true →
     run = match search_reply e m persona with
           | Raises err => ([], Raises err)
           | Returns text =>
               stream_skill_reply cb
                 (skill_result text "web-search-skill" "web_search" None None)
           end) ∧
  (weather = false → search = false → study = true →
     run = match study_reply e m persona with
           | Raises err => ([], Raises err)
           | Returns text =>
               stream_skill_reply cb
                 (skill_result text "study-assistant-skill" "study_assistant"
                    None None)
           end) ∧
  (weather = false → search = false → study = false → pdf = true →
     (∀ e', generate_streaming_response e' messages m persona cb = run) ∧
     ∃ r, run = stream_skill_reply cb r ∧ model_used r = Some "pdf-service") ∧
  (claimed_by_skill m = true → Generate ∉ run.1).
Proof.
  intros run weather search study pdf.
  assert (Hskill : ∀ r, Generate ∉ (stream_skill_reply cb r).1).
  { intros r. unfold stream_skill_reply. destruct cb as [f|]; simpl.
    - generalize (word_groups 3 (default "" (response r))). intros chunks.
      assert (Hd : Generate ∉ (deliver f chunks).1).
      { induction chunks as [|c chunks IH]; simpl.
        - apply not_elem_of_nil.
        - destruct (f c); simpl.
          + intros Hin. apply list_elem_of_singleton in Hin. discriminate.
          + destruct (deliver f chunks) as [ev o]. simpl in *.
            intros Hin. apply elem_of_cons in Hin as [Hin|Hin];
              [discriminate | by apply IH]. }
      destruct (deliver f chunks) as [ev [err|]]; exact Hd.
    - apply not_elem_of_nil. }
  unfold run, generate_streaming_response, _handle_weather_request,
    _handle_search_request, _handle_study_request, _handle_pdf_request.
  fold weather search study pdf.
  split; [|split; [|split; [|split]]].
  - intros Hw e'. rewrite Hw.
    destruct (truthy (_extract_city_from_message m)); reflexivity.
  - intros Hw Hs. rewrite Hw, Hs.
    destruct (search_reply e m persona); reflexivity.
  - intros Hw Hs Hst. rewrite Hw, Hs, Hst.
    destruct (study_reply e m persona); reflexivity.
  - intros Hw Hs Hst Hp. rewrite Hw, Hs, Hst, Hp.
    destruct (negb (contains "file" (lower m)) && negb (contains "document" (lower m))
              && negb (contains "pdf" (lower m)));
      (split; [intros e'; reflexivity | eexists; split; reflexivity]).
  - unfold claimed_by_skill. fold weather search study pdf. intros Hc.
    destruct weather.
    { destruct (truthy (_extract_city_from_message m)); simpl;
        [apply not_elem_of_nil | apply Hskill]. }
    destruct search.
    { destruct (search_reply e m persona); [apply Hskill | apply not_elem_of_nil]. }
    destruct study.
    { destruct (study_reply e m persona); [apply Hskill | apply not_elem_of_nil]. }
    destruct pdf; [|discriminate Hc].
    destruct (negb (contains "file" (lower m)) && negb (contains "document" (lower m))
              && negb (contains "pdf" (lower m))); apply Hskill.
Qed.

Lemma interceptors_in_order_witness :
  generate_streaming_response
    (mk_env true (GenStream [ItemText "x"]) (fun _ _ _ => Returns "w")
       (fun _ _ => Returns "found it") (fun _ _ => Returns "t"))
    [] "What is a monad" None None
  = ([], Returns (skill_result "found it" "web-search-skill" "web_search" None None)).
Proof.
  destruct (interceptors_in_order
              (mk_env true (GenStream [ItemText "x"]) (fun _ _ _ => Returns "w")
                 (fun _ _ => Returns "found it") (fun _ _ => Returns "t"))
              [] "What is a monad" None None) as (_ & Hsearch & _).
  etrans; [apply Hsearch; vm_compute; reflexivity|]. reflexivity.
Defined.

End Interceptors.

(** ** The generation path *)
Section GenerationPath.
Import PyStr Llm LlmStream.

Lemma truncate_bounds (acc : string) :
  len (truncate acc) ≤ 3000 ∧
  (truthy acc = true → 1 ≤ len (truncate acc)) ∧
  (3000 < len acc →
     truncate acc = take_str 2900 acc +:+ "..." ∧ len (truncate acc) = 2903) ∧
  (len acc ≤ 3000 → truncate acc = acc).
Proof.
  unfold truncate.
  destruct (Nat.ltb_spec 3000 (len acc)) as [Hlong|Hshort].
  - rewrite len_append, len_take_str.
    change (len "...") with 3.
    split; [lia|]. split; [lia|]. split; [|lia].
    intros _. split; [done|]. lia.
  - split; [lia|]. split.
    + destruct acc; [discriminate | simpl; lia].
    + split; [lia | done].
Qed.

Lemma streamed_text_nonempty (items : list stream_item) :
  concat_all (nonempty_texts items) = streamed_text items.
Proof.
  induction items as [|[text|err] items IH]; simpl; [done| |done].
  destruct text as [|c text]; simpl; [done|].
  rewrite append_cons. f_equal. by rewrite IH.
Qed.

Lemma consume_quiet (cb : option callback) (items : list stream_item)
    (acc : string) (n : nat) :
  only_chunks items = true → quiet cb →
  consume cb items acc n
  = (seen cb (nonempty_texts items),
     Returns (acc +:+ streamed_text items, n + length (nonempty_texts items))).
Proof.
  intros Hitems Hcb. revert acc n.
  induction items as [|[text|err] items IH]; intros acc n; simpl in *.
  - rewrite append_empty_r, Nat.add_0_r. by destruct cb.
  - destruct (truthy text) eqn:Ht.
    + destruct cb as [f|]; simpl in *.
      * rewrite Hcb, (IH Hitems). simpl.
        rewrite append_assoc. do 3 f_equal. lia.
      * rewrite (IH Hitems). simpl.
        rewrite append_assoc. do 3 f_equal. lia.
    + apply truthy_false_iff in Ht. subst text.
      rewrite (IH Hitems). by rewrite append_empty_l.
  - discriminate.
Qed.

(** With the service configured and no skill keyword in the message, a
    backend that streams chunks without failing and a callback that does
    not raise give: one backend call, one callback call per non-empty
    chunk in order, and [success = True] with the number of those chunks.
    The callback has then seen the whole text, while the returned response
    is that text cut to its first 2900 characters and ["..."] when it is
    longer than 3000, so that it never exceeds 3000 characters. *)
Theorem generation_streams_and_truncates (e : env)
    (messages : list (string * string)) (m : string) (persona : option string)
    (cb : option callback) (items : list stream_item) :
  configured e = true →
  claimed_by_skill m = false →
  generate_content e = GenStream items →
  only_chunks items = true →
  quiet cb →
  streamed_text items ≠ EmptyString →
  let full := streamed_text items in
  let run := generate_streaming_response e messages m persona cb in
  run.1 = Generate :: seen cb (nonempty_texts items) ∧
  accumulated (map Chunk (nonempty_texts items)) = full ∧
  run.2 = Returns
            {| success := true; response := Some (truncate full);
               model_used := Some "gemini-1.5-flash";
               character_count := Some (len (truncate full));
               chunk_count := Some (length (nonempty_texts items));
               streaming := Some true; skill_used := None;
               awaiting_file := None; analysis_type := None;
               error := None; fallback_response := None |} ∧
  len (truncate full) ≤ 3000 ∧
  (3000 < len full →
     truncate full = take_str 2900 full +:+ "..." ∧ len (truncate full) = 2903) ∧
  (len full ≤ 3000 → truncate full = full).
Proof.
  intros Hconf Hskill Hgen Hitems Hcb Hne full run.
  destruct (truncate_bounds full) as (Hle & _ & Hlong & Hshort).
  unfold run. rewrite unclaimed_goes_to_backend by done.
  unfold generate_or_fall_back. rewrite Hconf, Hgen. cbn [negb].
  rewrite (consume_quiet cb items "" 0 Hitems Hcb).
  rewrite append_empty_l. fold full.
  assert (Ht : truthy full = true).
  { unfold full. destruct (streamed_text items) eqn:E; [congruence|reflexivity]. }
  rewrite Ht. cbn [negb fst snd Nat.add].
  split; [done|].
  split; [by rewrite accumulated_chunks, streamed_text_nonempty|].
  split; [done|]. done.
Qed.

Lemma generation_streams_and_truncates_witness :
  let e := mk_env true (GenStream [ItemText "Hello"; ItemText ""; ItemText " there"])
             (fun _ _ _ => Raises "x") (fun _ _ => Raises "x")
             (fun _ _ => Raises "x") in
  (generate_streaming_response e [] "good morning" None (Some (fun _ => None))).1
  = [Generate; Chunk "Hello"; Chunk " there"].
Proof.
  intros e.
  destruct (generation_streams_and_truncates e [] "good morning" None
              (Some (fun _ => None))
              [ItemText "Hello"; ItemText ""; ItemText " there"]
              eq_refl eq_refl eq_refl eq_refl (fun _ => eq_refl)
              ltac:(discriminate)) as [Hrun _].
  exact Hrun.
Defined.

End GenerationPath.

(** ** Failures of the generation path *)
Section GenerationFailures.
Import PyStr Llm LlmStream.

Lemma startswith_append (p s : string) : startswith p (p +:+ s) = true.
Proof.
  induction p as [|a p IH]; [by destruct s|].
  rewrite append_cons. simpl.
  destruct (Ascii.eqb_spec a a); [exact IH | done].
Qed.

(** With the service configured and no skill keyword in the message the
    call always returns a result, whatever the backend and the callback do.
    A result with [success = True] carries a response of 1 to 3000
    characters and its length; every failure (the backend raises, the
    stream raises, the callback raises, nothing was streamed) is a result
    with [success = False], no response, an error text and a fallback
    text. *)
Theorem generation_reports_failures (e : env)
    (messages : list (string * string)) (m : string) (persona : option string)
    (cb : option callback) :
  configured e = true →
  claimed_by_skill m = false →
  ∃ r, (generate_streaming_response e messages m persona cb).2 = Returns r ∧
    if success r then
      model_used r = Some "gemini-1.5-flash" ∧
      ∃ text, response r = Some text ∧ character_count r = Some (len text) ∧
              1 ≤ len text ∧ len text ≤ 3000
    else
      response r = None ∧
      ∃ err fallback, error r = Some err ∧ fallback_response r = Some fallback ∧
        (err = "Empty response from streaming LLM" ∨
         startswith "Streaming LLM service error: " err = true).
Proof.
  intros Hconf Hskill.
  rewrite unclaimed_goes_to_backend by done.
  unfold generate_or_fall_back. rewrite Hconf. cbn [negb].
  destruct (generate_content e) as [err|items].
  - eexists. split; [reflexivity|]. cbn [success error_result response error
      fallback_response]. split; [done|]. do 2 eexists.
    split; [reflexivity|]. split; [reflexivity|]. right.
    apply startswith_append.
  - destruct (consume cb items "" 0) as [ev [[acc n]|err]].
    + destruct (truthy acc) eqn:Ht; cbn [negb snd].
      * eexists. split; [reflexivity|]. cbn [success model_used response
          character_count]. split; [done|]. eexists.
        split; [reflexivity|]. split; [reflexivity|].
        destruct (truncate_bounds acc) as (Hle & Hpos & _). auto.
      * eexists. split; [reflexivity|]. cbn [success error_result response
          error fallback_response]. split; [done|]. do 2 eexists.
        split; [reflexivity|]. split; [reflexivity|]. by left.
    + eexists. split; [reflexivity|]. cbn [success error_result response error
        fallback_response]. split; [done|]. do 2 eexists.
      split; [reflexivity|]. split; [reflexivity|]. right.
      apply startswith_append.
Qed.

Lemma generation_reports_failures_witness :
  let e := mk_env true (GenStream [ItemText "Hel"; ItemRaises "reset"])
             (fun _ _ _ => Raises "x") (fun _ _ => Raises "x")
             (fun _ _ => Raises "x") in
  ∃ r, (generate_streaming_response e [] "good morning" None None).2 = Returns r.
Proof.
  intros e.
  destruct (generation_reports_failures e [] "good morning" None None
              eq_refl eq_refl) as (r & Hr & _).
  by exists r.
Defined.

Lemma consume_raising (f : callback) (err : string) (items : list stream_item)
    (t : string) (rest : list string) (acc : string) (n : nat) :
  (∀ c, f c = Some err) →
  only_chunks items = true →
  nonempty_texts items = t :: rest →
  consume (Some f) items acc n = ([Chunk t], Raises err).
Proof.
  intros Hf. revert acc n.
  induction items as [|[text|x] items IH]; intros acc n Hitems Ht;
    simpl in *; [done| |done].
  destruct (truthy text).
  - injection Ht as -> _. by rewrite Hf.
  - by apply IH.
Qed.

(** A callback that raises is handled differently on the two sides of the
    configuration test, for a message without a skill keyword and without
    a full stop.  With the service configured, the exception raised at the
    first non-empty chunk is caught: the call returns [success = False]
    with the exception text in the error.  With the service unconfigured
    the scripted reply is delivered outside any handler: the exception
    raised at its first chunk leaves the call. *)
Theorem callback_exception_caught_only_when_configured (e : env)
    (messages : list (string * string)) (m : string) (persona : option string)
    (f : callback) (err : string) :
  claimed_by_skill m = false →
  contains "." m = false →
  (∀ c, f c = Some err) →
  (configured e = true →
   ∀ items t rest,
     generate_content e = GenStream items →
     only_chunks items = true →
     nonempty_texts items = t :: rest →
     generate_streaming_response e messages m persona (Some f)
     = ([Generate; Chunk t],
        Returns (error_result ("Streaming LLM service error: " +:+ err)
                   (_generate_fallback_response m)))) ∧
  (configured e = false →
   generate_streaming_response e messages m persona (Some f)
   = ([Chunk ("Hello! You said: '" +:+ m +:+ "'. ")], Raises err)).
Proof.
  intros Hskill Hdot Hf.
  rewrite unclaimed_goes_to_backend by done.
  unfold generate_or_fall_back. split.
  - intros Hconf items t rest Hgen Hitems Ht.
    rewrite Hconf, Hgen. cbn [negb].
    by rewrite (consume_raising f err items t rest "" 0 Hf Hitems Ht).
  - intros Hconf. rewrite Hconf. cbn [negb].
    rewrite (scripted_chunks_plain m Hdot).
    cbn [deliver]. by rewrite Hf.
Qed.

Lemma callback_exception_caught_only_when_configured_witness :
  let e := mk_env false (GenStream []) (fun _ _ _ => Raises "x")
             (fun _ _ => Raises "x") (fun _ _ => Raises "x") in
  generate_streaming_response e [] "good morning" None
    (Some (fun _ => Some "socket closed"))
  = ([Chunk "Hello! You said: 'good morning'. "], Raises "socket closed").
Proof.
  intros e.
  destruct (callback_exception_caught_only_when_configured e [] "good morning"
              None (fun _ => Some "socket closed") "socket closed"
              eq_refl eq_refl (fun _ => eq_refl)) as [_ Hun].
  exact (Hun eq_refl).
Defined.

End GenerationFailures.

(** ** The two entry points of the language service *)
Section EntryPoints.
Import PyStr Llm LlmStream LlmReply.

Lemma skill_reply_without_callback (r : result) :
  (stream_skill_reply None r).2 = Returns r.
Proof. reflexivity. Qed.

(** [generate_response] and [generate_streaming_response] without a
    callback return the same thing for every message with a skill keyword,
    but they disagree on an unconfigured service for every other message:
    the first reports a failure, the second reports success with the
    scripted text. *)
Theorem entry_points_agree_on_skills_only (e : env) (reply : outcome string)
    (messages : list (string * string)) (m : string) (persona : option string) :
  let streamed := generate_streaming_response e messages m persona None in
  let plain := generate_response e reply messages m persona in
  (claimed_by_skill m = true → plain = streamed.2) ∧
  (claimed_by_skill m = false → configured e = false →
     plain = Returns (error_result "LLM service not configured"
                        "I'm having trouble connecting to my AI services right now.") ∧
     ∃ r, streamed = ([], Returns r) ∧ success r = true ∧
          response r = Some (scripted_response m)).
Proof.
  intros streamed plain. split.
  - unfold plain, streamed, generate_response, generate_streaming_response,
      claimed_by_skill, _handle_weather_request, _handle_search_request,
      _handle_study_request, _handle_pdf_request.
    intros Hc.
    destruct (any_in weather_keywords (lower m)).
    { by destruct (truthy (_extract_city_from_message m)). }
    destruct (any_in search_keywords (lower m)).
    { by destruct (search_reply e m persona). }
    destruct (any_in study_keywords (lower m)).
    { by destruct (study_reply e m persona). }
    destruct (any_in pdf_keywords (lower m)); [|discriminate Hc].
    by destruct (negb (contains "file" (lower m))
                 && negb (contains "document" (lower m))
                 && negb (contains "pdf" (lower m))).
  - intros Hc Hconf. split.
    + unfold plain, generate_response, _handle_weather_request,
        _handle_search_request, _handle_study_request, _handle_pdf_request.
      unfold claimed_by_skill in Hc.
      apply orb_false_iff in Hc as [Hc Hpdf].
      apply orb_false_iff in Hc as [Hc Hstudy].
      apply orb_false_iff in Hc as [Hweather Hsearch].
      by rewrite Hweather, Hsearch, Hstudy, Hpdf, Hconf.
    + unfold streamed. rewrite unclaimed_goes_to_backend by done.
      unfold generate_or_fall_back. rewrite Hconf. cbn [negb].
      eexists. split; [reflexivity|]. split; reflexivity.
Qed.

Lemma entry_points_agree_on_skills_only_witness :
  let e := mk_env false (GenStream []) (fun _ _ _ => Raises "x")
             (fun _ _ => Returns "found it") (fun _ _ => Raises "x") in
  generate_response e (Raises "x") [] "search for cats" None
  = (generate_streaming_response e [] "search for cats" None None).2.
Proof.
  intros e.
  destruct (entry_points_agree_on_skills_only e (Raises "x") []
              "search for cats" None) as [Hskill _].
  exact (Hskill eq_refl).
Defined.

(** For a message without a skill keyword [generate_response] always
    returns a result.  It has [success = True] exactly when the service is
    configured and the backend gave a non-empty text; the response is then
    that text, cut to its first 2900 characters and ["..."] when it is
    longer than 3000. *)
Theorem generate_response_success (e : env) (reply : outcome string)
    (messages : list (string * string)) (m : string) (persona : option string) :
  claimed_by_skill m = false →
  ∃ r, generate_response e reply messages m persona = Returns r ∧
    (success r = true ↔
       configured e = true ∧ ∃ text, reply = Returns text ∧ text ≠ EmptyString) ∧
    (∀ text, configured e = true → reply = Returns text → text ≠ EmptyString →
       response r = Some (truncate text) ∧
       character_count r = Some (len (truncate text)) ∧
       len (truncate text) ≤ 3000) ∧
    (success r = false →
       response r = None ∧ error r ≠ None ∧ fallback_response r ≠ None).
Proof.
  intros Hc.
  unfold generate_response, _handle_weather_request,
    _handle_search_request, _handle_study_request, _handle_pdf_request.
  unfold claimed_by_skill in Hc.
  apply orb_false_iff in Hc as [Hc Hpdf].
  apply orb_false_iff in Hc as [Hc Hstudy].
  apply orb_false_iff in Hc as [Hweather Hsearch].
  rewrite Hweather, Hsearch, Hstudy, Hpdf.
  destruct (configured e); cbn [negb].
  - destruct reply as [text|err].
    + destruct text as [|c text]; cbn [truthy negb].
      * eexists. split; [reflexivity|]. cbn [success error_result].
        split; [|split].
        -- split; [done|]. intros (_ & t & Ht & Hne). congruence.
        -- intros t _ Ht Hne. congruence.
        -- done.
      * eexists. split; [reflexivity|]. cbn [success response character_count].
        split; [|split].
        -- split; [|done]. intros _. split; [done|]. by eexists.
        -- intros t _ Ht _. injection Ht as <-.
           split; [done|]. split; [done|]. apply truncate_bounds.
        -- done.
    + eexists. split; [reflexivity|]. cbn [success error_result].
      split; [|split].
      * split; [done|]. intros (_ & t & Ht & _). discriminate Ht.
      * intros t _ Ht. discriminate Ht.
      * done.
  - eexists. split; [reflexivity|]. cbn [success error_result].
    split; [|split].
    + split; [done|]. intros (Hf & _). discriminate Hf.
    + intros t Hf. discriminate Hf.
    + done.
Qed.

Lemma generate_response_success_witness :
  let e := mk_env true (GenStream []) (fun _ _ _ => Raises "x")
             (fun _ _ => Raises "x") (fun _ _ => Raises "x") in
  ∃ r, generate_response e (Returns "Good morning to you.") [] "good morning" None
       = Returns r ∧ response r = Some "Good morning to you.".
Proof.
  intros e.
  destruct (generate_response_success e (Returns "Good morning to you.") []
              "good morning" None eq_refl) as (r & Hr & _ & Hresp & _).
  exists r. split; [exact Hr|].
  destruct (Hresp "Good morning to you." eq_refl eq_refl ltac:(discriminate))
    as [Hresponse _].
  exact Hresponse.
Defined.

End EntryPoints.

(** ** The reply to a spoken turn *)
Section SpokenReply.
Import PyStr Llm LlmStream Pipeline.

Lemma chunk_texts_chunks (texts : list string) :
  chunk_texts (map Chunk texts) = texts.
Proof. induction texts as [|c texts IH]; simpl; [done | by rewrite IH]. Qed.

Lemma consume_quiet_trace (f : callback) (items : list stream_item) :
  (∀ c, f c = None) →
  ∀ acc n ev acc' n',
    consume (Some f) items acc n = (ev, Returns (acc', n')) →
    acc' = acc +:+ concat_all (chunk_texts ev) ∧
    n' = n + length (chunk_texts ev).
Proof.
  intros Hf. induction items as [|[text|err] items IH]; intros acc n ev acc' n';
    simpl.
  - intros [= <- <- <-]. simpl. rewrite append_empty_r. split; [done|lia].
  - destruct (truthy text).
    + rewrite Hf.
      destruct (consume (Some f) items (acc +:+ text) (S n)) as [ev0 r] eqn:Hrest.
      intros [= <- ->].
      destruct (IH _ _ _ _ _ Hrest) as [-> ->]. simpl.
      rewrite append_assoc. split; [done|lia].
    + apply IH.
  - discriminate.
Qed.

Lemma skill_reply_quiet (f : callback) (text model skill : string)
    (aw : option bool) (an : option string) :
  (∀ c, f c = None) →
  stream_skill_reply (Some f) (skill_result text model skill aw an)
  = (map Chunk (word_groups 3 text),
     Returns (skill_result text model skill aw an)).
Proof.
  intros Hf. unfold stream_skill_reply.
  change (default "" (response (skill_result text model skill aw an))) with text.
  by rewrite (deliver_all f _ Hf).
Qed.


Lemma skill_reply_shape (f : callback) (text model skill : string)
    (aw : option bool) (an : option string) :
  (∀ c, f c = None) →
  reply_shape (stream_skill_reply (Some f) (skill_result text model skill aw an)).
Proof.
  intros Hf. rewrite (skill_reply_quiet f text model skill aw an Hf).
  unfold reply_shape. cbn [fst snd success skill_result].
  exists text. rewrite chunk_texts_chunks.
  split; [done|]. split; [done|]. right. apply word_groups_concat.
Qed.

Lemma generation_shape (e : env) (m : string) (f : callback) :
  (∀ c, f c = None) → configured e = true →
  reply_shape (generate_or_fall_back e m (Some f)).
Proof.
  intros Hf Hconf. unfold generate_or_fall_back. rewrite Hconf. cbn [negb].
  destruct (generate_content e) as [err|items]; [done|].
  destruct (consume (Some f) items "" 0) as [ev [[acc n]|err]] eqn:Hrun; [|done].
  destruct (consume_quiet_trace f items Hf _ _ _ _ _ Hrun) as [Hacc Hn].
  rewrite append_empty_l in Hacc. simpl in Hn.
  destruct (truthy acc); cbn [negb]; [|done].
  unfold reply_shape. cbn [fst snd success chunk_texts response chunk_count].
  eexists. split; [reflexivity|]. split; [by rewrite Hn|].
  left. by rewrite Hacc.
Qed.

Lemma configured_reply_shape (e : env) (messages : list (string * string))
    (m : string) (persona : option string) (f : callback) :
  (∀ c, f c = None) → configured e = true →
  reply_shape (generate_streaming_response e messages m persona (Some f)).
Proof.
  intros Hf Hconf.
  unfold generate_streaming_response, _handle_weather_request,
    _handle_search_request, _handle_study_request, _handle_pdf_request.
  destruct (any_in weather_keywords (lower m)).
  { destruct (truthy (_extract_city_from_message m)); [done|].
    by apply skill_reply_shape. }
  destruct (any_in search_keywords (lower m)).
  { destruct (search_reply e m persona); [by apply skill_reply_shape|done]. }
  destruct (any_in study_keywords (lower m)).
  { destruct (study_reply e m persona); [by apply skill_reply_shape|done]. }
  destruct (any_in pdf_keywords (lower m)).
  { destruct (negb (contains "file" (lower m))
              && negb (contains "document" (lower m))
              && negb (contains "pdf" (lower m))); by apply skill_reply_shape. }
  by apply generation_shape.
Qed.

Lemma streaming_callback_lookup (clock : nat → string)
    (socket_id transcript : string) (texts : list string) :
  ∀ k i c, texts !! i = Some c →
    streaming_callback clock socket_id transcript k texts !! i
    = Some (socket_id,
            llm_streaming_chunk c (S (k + i)) transcript socket_id (clock (k + i))).
Proof.
  induction texts as [|t texts IH]; intros k i c Hi; [done|].
  destruct i as [|i]; simpl in *.
  - injection Hi as ->. by rewrite Nat.add_0_r.
  - rewrite (IH (S k) i c Hi). by replace (S k + i) with (k + S i) by lia.
Qed.

Lemma streaming_callback_length (clock : nat → string)
    (socket_id transcript : string) (texts : list string) (k : nat) :
  length (streaming_callback clock socket_id transcript k texts) = length texts.
Proof. revert k. induction texts as [|t texts IH]; intros k; simpl; [done|by rewrite IH]. Qed.

(** On a configured language service every spoken turn is answered by the
    chunk events of the texts that the language service delivered,
    numbered 1, 2, ... in order, and then exactly one closing event.  A
    closing [llm_streaming_complete] declares as [chunk_count] the number
    of chunk events sent before it and as [character_count] the length of
    its final response, always names the model [gemini-2.0-flash-exp], and
    its final response is spelled by the chunks: joined they give it
    (before the cut of a text over 3000 characters) or give it followed by
    one space.  Otherwise the closing event is an [llm_error] with an
    error text. *)
Theorem spoken_reply_chunks_numbered (e : env) (clock : nat → string)
    (loop_running : bool) (socket_id transcript : string) (w : Ws.service) :
  configured e = true →
  ∃ ev texts last task,
    _process_transcript_with_streaming_llm e clock loop_running socket_id
      transcript w
    = (ev,
       streaming_callback clock socket_id transcript 0 texts
         ++ [(socket_id, last)],
       task) ∧
    texts = chunk_texts ev ∧
    (∀ i c, texts !! i = Some c →
       (streaming_callback clock socket_id transcript 0 texts
          ++ [(socket_id, last)]) !! i
       = Some (socket_id,
               llm_streaming_chunk c (S i) transcript socket_id (clock i))) ∧
    closes (length texts) texts last ∧
    (∀ text, task = Some text →
       loop_running = true ∧ socket_id ∈ Ws.murf_sessions w ∧
       ∃ n chars model sid ts,
         last = llm_streaming_complete text n chars model sid ts).
Proof.
  intros Hconf.
  unfold _process_transcript_with_streaming_llm. rewrite Hconf. cbn [negb].
  match goal with
  | |- context [generate_streaming_response e ?ms transcript None ?cb] =>
      generalize (configured_reply_shape e ms transcript None (fun _ => None)
                    (fun _ => eq_refl) Hconf
                  : reply_shape
                      (generate_streaming_response e ms transcript None cb));
      destruct (generate_streaming_response e ms transcript None cb) as [ev r]
  end.
  intros Hshape. unfold reply_shape in Hshape. cbn [fst snd] in Hshape.
  assert (Hnum : ∀ last i c, chunk_texts ev !! i = Some c →
     (streaming_callback clock socket_id transcript 0 (chunk_texts ev)
        ++ [(socket_id, last)]) !! i
     = Some (socket_id,
             llm_streaming_chunk c (S i) transcript socket_id (clock i))).
  { intros last i c Hi. rewrite lookup_app_l.
    - by rewrite (streaming_callback_lookup _ _ _ _ 0 i c Hi).
    - rewrite streaming_callback_length. by apply lookup_lt_Some in Hi. }
  destruct r as [r|err].
  - destruct (success r).
    + destruct Hshape as (final & Hresp & Hcount & Hspell).
      rewrite Hresp, Hcount.
      do 4 eexists. split; [reflexivity|]. split; [done|].
      split; [apply Hnum|]. split; [done|].
      intros text Ht.
      destruct (bool_decide (socket_id ∈ Ws.murf_sessions w)) eqn:Hin;
        [|discriminate Ht].
      destruct loop_running; [|discriminate Ht].
      injection Ht as <-. apply bool_decide_eq_true in Hin.
      split; [done|]. split; [done|]. by do 5 eexists.
    + destruct (error r) as [err|]; [|done].
      do 4 eexists. split; [reflexivity|]. split; [done|].
      split; [apply Hnum|]. split; [done|]. intros text Ht. discriminate Ht.
  - do 4 eexists. split; [reflexivity|]. split; [done|].
    split; [apply Hnum|]. split; [done|]. intros text Ht. discriminate Ht.
Qed.

Lemma spoken_reply_chunks_numbered_witness :
  let e := mk_env true (GenStream [ItemText "Good"; ItemText " morning!"])
             (fun _ _ _ => Raises "x") (fun _ _ => Raises "x")
             (fun _ _ => Raises "x") in
  ∃ ev last task,
    _process_transcript_with_streaming_llm e (fun _ => "t") false "sock-1"
      "good morning" (Ws.init None None)
    = (ev,
       streaming_callback (fun _ => "t") "sock-1" "good morning" 0
         (chunk_texts ev) ++ [("sock-1", last)],
       task).
Proof.
  intros e.
  destruct (spoken_reply_chunks_numbered e (fun _ => "t") false "sock-1"
              "good morning" (Ws.init None None) eq_refl)
    as (ev & texts & last & task & Hrun & -> & _).
  by exists ev, last, task.
Defined.

End SpokenReply.

(** ** Chat messages *)
Section ChatMessages.
Import PyStr Llm LlmStream Pipeline.

(** With the language service unconfigured, the same text is treated in
    two ways.  As a spoken turn it is refused, whatever it says: one
    [llm_error] event and no call of a skill or of the backend.  As a chat
    message it is answered: a text without a skill keyword gets the
    scripted response, counted in the chunks of that response (three for a
    text without a full stop), and a text for the search skill gets the
    answer of that skill, counted in groups of three words. *)
Theorem unconfigured_chat_versus_speech (e : env) (now : string)
    (clock : nat → string) (loop_running : bool) (socket_id m : string)
    (w : Ws.service) :
  configured e = false →
  m ≠ EmptyString →
  _process_transcript_with_streaming_llm e clock loop_running socket_id m w
  = ([],
     [(socket_id,
       llm_error (not_configured
                    "LLM service not configured. Please set GEMINI_API_KEY."
                    m socket_id (clock 0)))],
     None) ∧
  (claimed_by_skill m = false →
     let chunks := scripted_chunks (scripted_response m) in
     handle_chat_message e now socket_id (Some m)
     = (map Chunk chunks,
        answered m (scripted_response m) socket_id now
          (str_of_nat (length chunks) +:+ " chunks") (length chunks)) ∧
     (contains "." m = false → length chunks = 3)) ∧
  (any_in weather_keywords (lower m) = false →
   any_in search_keywords (lower m) = true →
   ∀ text, search_reply e m None = Returns text →
     let chunks := word_groups 3 text in
     handle_chat_message e now socket_id (Some m)
     = (map Chunk chunks,
        answered m text socket_id now
          (str_of_nat (length chunks) +:+ " chunks") (length chunks))).
Proof.
  intros Hconf Hm.
  assert (Ht : truthy m = true) by (destruct m; [done|reflexivity]).
  split; [|split].
  - unfold _process_transcript_with_streaming_llm. by rewrite Hconf.
  - intros Hc chunks. split.
    + unfold handle_chat_message. change (default "" (Some m)) with m.
    cbv zeta. rewrite Ht. cbn [negb].
      rewrite unclaimed_goes_to_backend by done.
      unfold generate_or_fall_back. rewrite Hconf. cbn [negb].
      fold chunks. rewrite (deliver_all _ chunks (fun _ => eq_refl)).
      cbn [success response]. by rewrite chunk_texts_chunks.
    + intros Hdot. unfold chunks. by rewrite (scripted_chunks_plain m Hdot).
  - intros Hw Hs text Hreply chunks.
    unfold handle_chat_message. change (default "" (Some m)) with m.
    cbv zeta. rewrite Ht. cbn [negb].
    unfold generate_streaming_response, _handle_weather_request,
      _handle_search_request.
    rewrite Hw, Hs, Hreply.
    rewrite (skill_reply_quiet _ text _ _ _ _ (fun _ => eq_refl)).
    cbn [success response skill_result]. fold chunks.
    by rewrite chunk_texts_chunks.
Qed.

Lemma unconfigured_chat_versus_speech_witness :
  let e := mk_env false (GenStream []) (fun _ _ _ => Raises "x")
             (fun _ _ => Raises "x") (fun _ _ => Raises "x") in
  _process_transcript_with_streaming_llm e (fun _ => "t") false "sock-1"
    "good morning" (Ws.init None None)
  = ([],
     [("sock-1",
       llm_error (not_configured
                    "LLM service not configured. Please set GEMINI_API_KEY."
                    "good morning" "sock-1" "t"))],
     None).
Proof.
  intros e.
  destruct (unconfigured_chat_versus_speech e "now" (fun _ => "t") false
              "sock-1" "good morning" (Ws.init None None) eq_refl
              ltac:(discriminate)) as [Hspeech _].
  exact Hspeech.
Defined.

(** A request for the weather of a named city fails in the weather skill
    with an [AttributeError].  Neither caller lets it through: the chat
    handler returns the exception text as its error, without a fallback
    response; the handler of a spoken turn (on a configured service) sends
    one [llm_error] event with that text and no chunk.  The generation
    backend is not called. *)
Theorem weather_city_failure_reported (e : env) (now : string)
    (clock : nat → string) (loop_running : bool) (socket_id m : string)
    (w : Ws.service) :
  any_in weather_keywords (lower m) = true →
  _extract_city_from_message m ≠ EmptyString →
  let err := "'WeatherService' object has no attribute 'get_comprehensive_weather_analysis'" in
  handle_chat_message e now socket_id (Some m)
  = ([], crashed err socket_id now) ∧
  (configured e = true →
   _process_transcript_with_streaming_llm e clock loop_running socket_id m w
   = ([],
      [(socket_id,
        llm_error (critical ("Streaming LLM processing error: " +:+ err)
                     m socket_id (clock 0)))],
      None)).
Proof.
  intros Hw Hcity err.
  assert (Ht : truthy m = true).
  { destruct m; [|reflexivity]. vm_compute in Hw. discriminate Hw. }
  assert (Htc : truthy (_extract_city_from_message m) = true).
  { destruct (_extract_city_from_message m); [done|reflexivity]. }
  assert (Hrun : ∀ cb, generate_streaming_response e [] m None cb
                       = ([], Raises err)).
  { intros cb. unfold generate_streaming_response, _handle_weather_request.
    rewrite Hw, Htc. reflexivity. }
  split.
  - unfold handle_chat_message. change (default "" (Some m)) with m.
    cbv zeta. rewrite Ht. cbn [negb].
    by rewrite Hrun.
  - intros Hconf. unfold _process_transcript_with_streaming_llm.
    rewrite Hconf. cbn [negb]. by rewrite Hrun.
Qed.

Lemma weather_city_failure_reported_witness :
  let e := mk_env true (GenStream [ItemText "Sunny."]) (fun _ _ _ => Returns "x")
             (fun _ _ => Raises "x") (fun _ _ => Raises "x") in
  handle_chat_message e "now" "sock-1" (Some "weather in Paris")
  = ([], crashed "'WeatherService' object has no attribute 'get_comprehensive_weather_analysis'"
           "sock-1" "now").
Proof.
  intros e.
  assert (Hcity : _extract_city_from_message "weather in Paris" ≠ EmptyString).
  { vm_compute. discriminate. }
  destruct (weather_city_failure_reported e "now" (fun _ => "t") false
              "sock-1" "weather in Paris" (Ws.init None None) eq_refl Hcity)
    as [Hchat _].
  exact Hchat.
Defined.

End ChatMessages.

(** ** From the recognition backend to the client *)
Section Transcripts.
Import PyStr Llm Pipeline.

Lemma rstrip_rstrip (s : string) : rstrip (rstrip s) = rstrip s.
Proof.
  induction s as [|c s IH]; [done|]. simpl.
  destruct (rstrip s) as [|d r] eqn:Hr.
  - destruct (is_space c) eqn:Hc; [done|]. simpl. by rewrite Hc.
  - simpl in *. by rewrite IH.
Qed.

Lemma lstrip_head (s : string) :
  lstrip s = EmptyString ∨ ∃ c r, lstrip s = String c r ∧ is_space c = false.
Proof.
  induction s as [|c s IH]; [by left|]. simpl.
  destruct (is_space c) eqn:Hc; [exact IH|]. right. by exists c, s.
Qed.

Lemma lstrip_rstrip_clean (c : ascii) (r : string) :
  is_space c = false → lstrip (rstrip (String c r)) = rstrip (String c r).
Proof.
  intros Hc. simpl. destruct (rstrip r); rewrite ?Hc; simpl; by rewrite Hc.
Qed.

Lemma strip_strip (s : string) : strip (strip s) = strip s.
Proof.
  unfold strip.
  destruct (lstrip_head s) as [->|(c & r & -> & Hc)]; [done|].
  by rewrite lstrip_rstrip_clean, rstrip_rstrip.
Qed.

(** What the client of a socket sees for a transcript of the recognition
    backend, with the two callbacks that [start_realtime_transcription]
    registers.  A partial transcript gives one [transcription] event with
    the stripped text and nothing else.  A final transcript gives that
    event, then [turn_detected] with the stripped text, and then the
    reply of the language service to the stripped text, but only when it
    has more than three characters; a shorter one is not answered and the
    language service is not called.  The recognition service itself is
    left unchanged. *)
Theorem transcripts_reach_the_client (e : env) (clock : nat → string)
    (loop_running : bool) (now received socket_id : string)
    (s : Stt.service) (w : Ws.service) (t : string) (conf : option string) :
  Stt.transcription_callback s = Some (fun _ => Stt.CbReturns) →
  Stt.turn_detection_callback s = Some (fun _ => Stt.CbReturns) →
  strip t ≠ EmptyString →
  let text := strip t in
  let partial :=
    Stt._on_message now
      (Stt.Object (Some "PartialTranscript") (Stt.TextString t) conf) s in
  let final :=
    Stt._on_message now
      (Stt.Object (Some "FinalTranscript") (Stt.TextString t) conf) s in
  let heard := (socket_id, transcription text socket_id received) in
  let turn :=
    (socket_id,
     turn_detected "User stopped talking - turn detected" "turn_end" text
       socket_id now (default "0.0" conf)) in
  let reply :=
    _process_transcript_with_streaming_llm e clock loop_running socket_id
      text w in
  partial.1 = s ∧ final.1 = s ∧
  dispatch e clock loop_running received socket_id partial.2 w
  = ([], [heard], []) ∧
  (len text ≤ 3 →
   dispatch e clock loop_running received socket_id final.2 w
   = ([], [heard; turn], [])) ∧
  (3 < len text →
   dispatch e clock loop_running received socket_id final.2 w
   = (reply.1.1, heard :: turn :: reply.1.2,
      match reply.2 with Some x => [x] | None => [] end)).
Proof.
  intros Hcb Htcb Hne text partial final heard turn reply.
  assert (Ht : truthy text = true).
  { unfold text. destruct (strip t); [done|reflexivity]. }
  assert (Hpartial : partial = (s, [Stt.Transcription text])).
  { unfold partial, Stt._on_message.
    rewrite bool_decide_eq_true_2 by done.
    cbn [Stt.stripped_text]. fold text. by rewrite Ht, Hcb. }
  assert (Hfinal : final
    = (s, [Stt.Transcription text;
           Stt.Turn {| Stt.td_type := "turn_end";
                       Stt.td_message := "User stopped talking - turn detected";
                       Stt.td_transcript := text;
                       Stt.td_confidence := default "0.0" conf;
                       Stt.td_timestamp := now |}])).
  { unfold final, Stt._on_message.
    rewrite bool_decide_eq_false_2 by discriminate.
    rewrite bool_decide_eq_true_2 by done.
    cbn [Stt.stripped_text]. fold text. by rewrite Ht, Hcb, Htcb. }
  rewrite Hpartial, Hfinal. cbn [fst snd].
  split; [done|]. split; [done|]. split; [done|].
  cbn [dispatch _on_transcription_received app].
  unfold _on_turn_detected.
  cbn [Stt.td_transcript Stt.td_message Stt.td_type Stt.td_timestamp
       Stt.td_confidence].
  assert (Hss : strip text = text) by apply strip_strip.
  rewrite Hss, Ht. cbn [andb]. split.
  - intros Hshort.
    destruct (Nat.ltb_spec 3 (len text)) as [|_]; [lia|]. done.
  - intros Hlong.
    destruct (Nat.ltb_spec 3 (len text)) as [_|]; [|lia].
    fold reply. destruct reply as [[ev sent] task]. cbn [fst snd].
    rewrite !app_nil_r. by destruct task.
Qed.

Lemma transcripts_reach_the_client_witness :
  let e := mk_env false (GenStream []) (fun _ _ _ => Raises "x")
             (fun _ _ => Raises "x") (fun _ _ => Raises "x") in
  let s := (Stt.start_streaming_transcription Stt.WsOpened
              (fun _ => Stt.CbReturns) (Some (fun _ => Stt.CbReturns))
              (Stt.init (Some "0123456789abcdef"))).1.2 in
  dispatch e (fun _ => "t") false "12:00:01" "sock-1"
    (Stt._on_message "12:00:00"
       (Stt.Object (Some "FinalTranscript") (Stt.TextString " ok ") None) s).2
    (Ws.init None None)
  = ([],
     [("sock-1", transcription "ok" "sock-1" "12:00:01");
      ("sock-1",
       turn_detected "User stopped talking - turn detected" "turn_end" "ok"
         "sock-1" "12:00:00" "0.0")],
     []).
Proof.
  intros e s.
  destruct (transcripts_reach_the_client e (fun _ => "t") false "12:00:00"
              "12:00:01" "sock-1" s (Ws.init None None) " ok " None
              eq_refl eq_refl ltac:(discriminate))
    as (_ & _ & _ & Hshort & _).
  apply Hshort. vm_compute. lia.
Defined.

End Transcripts.
